(** * Lifecycle & Soul Core of the automaton runtime: a shallow embedding

    Each module below embeds one TypeScript source file of the repository
    and keeps the names of the functions it translates.  Persistent state
    (SQLite tables, the key/value table, the soul file on disk) is threaded
    explicitly; exceptions are results of a sum type; the wall clock and the
    id generator are read from the world state.

    Conventions for JavaScript data:
    - a string is a Rocq [string] holding the UTF-8 bytes of the text
      ([+:+] appends strings, [++] appends lists); white space and line
      terminators are the ASCII ones;
    - a [Record<string, string>] object is an association list in property
      order (insertion order for the non-numeric keys used here);
    - a number that the code only compares, adds or multiplies is an exact
      rational [Q] (or [Z] for amounts in cents): IEEE-754 rounding is not
      part of the model. *)

From Stdlib Require Import ZArith NArith QArith Qpower Qround Qminmax Lia Lqa String Ascii
  List Bool.
From stdpp Require Import base option list gmap strings.


(** ** Phases ([types.ts] declares them as unions of string literals) *)

Inductive LifecyclePhase :=
| genesis | adolescence | sovereignty | senescence | legacy | shedding | terminal.

(** [SoulPhase] is the sub-union of the first four literals. *)
Inductive SoulPhase :=
| soul_genesis | soul_adolescence | soul_sovereignty | soul_senescence.

#[global] Instance LifecyclePhase_eq_dec : EqDecision LifecyclePhase.
Proof. solve_decision. Defined.

#[global] Instance SoulPhase_eq_dec : EqDecision SoulPhase.
Proof. solve_decision. Defined.

(** The string literal behind each value. *)
Definition phaseName (p : LifecyclePhase) : string :=
  match p with
  | genesis => "genesis"
  | adolescence => "adolescence"
  | sovereignty => "sovereignty"
  | senescence => "senescence"
  | legacy => "legacy"
  | shedding => "shedding"
  | terminal => "terminal"
  end.

Definition soulPhaseName (p : SoulPhase) : string :=
  match p with
  | soul_genesis => "genesis"
  | soul_adolescence => "adolescence"
  | soul_sovereignty => "sovereignty"
  | soul_senescence => "senescence"
  end.

(** A [SoulPhase] value used where a [LifecyclePhase] is expected. *)
Definition soulToLifecycle (p : SoulPhase) : LifecyclePhase :=
  match p with
  | soul_genesis => genesis
  | soul_adolescence => adolescence
  | soul_sovereignty => sovereignty
  | soul_senescence => senescence
  end.

(** JavaScript's [a ?? b]. *)
Definition nullish {A} (a b : option A) : option A :=
  match a with Some x => Some x | None => b end.

(** What [JSON.parse] makes of the text stored under a key: the value that
    was stored, or an exception for text that is not JSON. *)
Inductive stored (A : Type) :=
| Parsed (a : A)
| Corrupted.
Arguments Parsed {A} a.
Arguments Corrupted {A}.

(** ** SHA-256 (FIPS 180-4), for [crypto.createHash("sha256")] *)

Module SHA256.
Local Open Scope N_scope.

Definition mask32 : N := 4294967295.
Definition add32 (x y : N) : N := N.land (x + y) mask32.
Definition rotr (n x : N) : N :=
  N.lor (N.shiftr x n) (N.land (N.shiftl x (32 - n)) mask32).
Definition shr (n x : N) : N := N.shiftr x n.
Definition not32 (x : N) : N := N.lxor x mask32.

Definition Ch (x y z : N) : N := N.lxor (N.land x y) (N.land (not32 x) z).
Definition Maj (x y z : N) : N :=
  N.lxor (N.lxor (N.land x y) (N.land x z)) (N.land y z).
Definition bigSigma0 (x : N) : N := N.lxor (N.lxor (rotr 2 x) (rotr 13 x)) (rotr 22 x).
Definition bigSigma1 (x : N) : N := N.lxor (N.lxor (rotr 6 x) (rotr 11 x)) (rotr 25 x).
Definition smallSigma0 (x : N) : N := N.lxor (N.lxor (rotr 7 x) (rotr 18 x)) (shr 3 x).
Definition smallSigma1 (x : N) : N := N.lxor (N.lxor (rotr 17 x) (rotr 19 x)) (shr 10 x).

(** The first [n] primes, by trial division. *)
Definition isPrime (ps : list N) (c : N) : bool :=
  forallb (fun p => negb (c mod p =? 0)) ps.

Fixpoint primesFrom (fuel : nat) (c : N) (found : list N) (want : nat) : list N :=
  match fuel with
  | O => found
  | S fuel' =>
      if (length found =? want)%nat then found
      else if isPrime found c then primesFrom fuel' (c + 1) (found ++ [c]) want
      else primesFrom fuel' (c + 1) found want
  end.

Definition firstPrimes (n : nat) : list N := primesFrom 400 2 [] n.

(** Integer cube root, one bit at a time from bit [b] down. *)
Fixpoint icbrtBits (b : nat) (n r : N) : N :=
  let r' := r + N.shiftl 1 (N.of_nat b) in
  let r := if r' * r' * r' <=? n then r' else r in
  match b with
  | O => r
  | S b' => icbrtBits b' n r
  end.

Definition icbrt (n : N) : N := icbrtBits 40 n 0.

(** Round constants: the first 32 bits of the fractional parts of the
    cube roots of the first 64 primes. *)
Definition K : list N :=
  Eval vm_compute in
    map (fun p => N.land (icbrt (N.shiftl p 96)) mask32) (firstPrimes 64).

(** Initial hash value: the same for the square roots of the first 8 primes. *)
Definition H0 : list N :=
  Eval vm_compute in
    map (fun p => N.land (N.sqrt (N.shiftl p 64)) mask32) (firstPrimes 8).

Definition byteOf (c : ascii) : N := N_of_ascii c.

Fixpoint bytesOf (s : string) : list N :=
  match s with
  | EmptyString => []
  | String c s' => byteOf c :: bytesOf s'
  end.

(** Big-endian bytes of [x], [n] of them. *)
Fixpoint beBytes (n : nat) (x : N) : list N :=
  match n with
  | O => []
  | S n' => N.land (N.shiftr x (8 * N.of_nat n')) 255 :: beBytes n' x
  end.

Definition pad (msg : list N) : list N :=
  let len := N.of_nat (length msg) in
  let zeros := N.to_nat ((64 - ((len + 9) mod 64)) mod 64) in
  msg ++ [128] ++ repeat 0 zeros ++ beBytes 8 (8 * len).

Fixpoint wordsOf (fuel : nat) (bs : list N) : list N :=
  match fuel, bs with
  | S fuel', a :: b :: c :: d :: rest =>
      (N.shiftl a 24 + N.shiftl b 16 + N.shiftl c 8 + d) :: wordsOf fuel' rest
  | _, _ => []
  end.

Fixpoint chunks (fuel : nat) (n : nat) (ws : list N) : list (list N) :=
  match fuel, ws with
  | _, [] => []
  | O, _ => []
  | S fuel', _ => firstn n ws :: chunks fuel' n (skipn n ws)
  end.

Definition nthN (l : list N) (i : nat) : N := nth i l 0.

(** Message schedule: 16 words extended to 64. *)
Fixpoint schedule (n : nat) (w : list N) : list N :=
  match n with
  | O => w
  | S n' =>
      let t := length w in
      let x := add32 (add32 (smallSigma1 (nthN w (t - 2))) (nthN w (t - 7)))
                     (add32 (smallSigma0 (nthN w (t - 15))) (nthN w (t - 16))) in
      schedule n' (w ++ [x])
  end.

Record regs := mkRegs { ra : N; rb : N; rc : N; rd : N; re : N; rf : N; rg : N; rh : N }.

Definition round (r : regs) (kw : N * N) : regs :=
  let (k, w) := kw in
  let t1 := add32 (add32 (add32 (add32 (rh r) (bigSigma1 (re r))) (Ch (re r) (rf r) (rg r))) k) w in
  let t2 := add32 (bigSigma0 (ra r)) (Maj (ra r) (rb r) (rc r)) in
  mkRegs (add32 t1 t2) (ra r) (rb r) (rc r) (add32 (rd r) t1) (re r) (rf r) (rg r).

Definition regsOf (h : list N) : regs :=
  mkRegs (nthN h 0) (nthN h 1) (nthN h 2) (nthN h 3) (nthN h 4) (nthN h 5) (nthN h 6) (nthN h 7).

Definition compress (h : list N) (block : list N) : list N :=
  let w := schedule 48 block in
  let r := fold_left round (combine K w) (regsOf h) in
  [ add32 (nthN h 0) (ra r); add32 (nthN h 1) (rb r); add32 (nthN h 2) (rc r);
    add32 (nthN h 3) (rd r); add32 (nthN h 4) (re r); add32 (nthN h 5) (rf r);
    add32 (nthN h 6) (rg r); add32 (nthN h 7) (rh r) ].

Definition digestWords (msg : list N) : list N :=
  let bs := pad msg in
  let ws := wordsOf (length bs) bs in
  fold_left compress (chunks (length ws) 16 ws) H0.

Definition hexDigit (n : N) : ascii :=
  if n <? 10 then ascii_of_N (48 + n) else ascii_of_N (87 + n).

Fixpoint hexOf (digits : nat) (x : N) : string :=
  match digits with
  | O => EmptyString
  | S d => String (hexDigit (N.land (N.shiftr x (4 * N.of_nat d)) 15)) (hexOf d x)
  end.

(** [crypto.createHash("sha256").update(s).digest("hex")] *)
Definition sha256hex (s : string) : string :=
  String.concat "" (map (hexOf 8) (digestWords (bytesOf s))).

End SHA256.

(** ** JavaScript strings, regular expressions, numbers and JSON

    The parts of the JavaScript standard library that the embedded code
    calls.  Regular expressions are syntax trees run by a backtracking
    matcher with JavaScript's priorities (leftmost start, greedy or lazy
    quantifiers, alternatives in order), so each regex literal of the source
    is transcribed as it stands. *)

Module JS.

Definition nl : string := String "010" "".
Definition dq : string := String "034" "".

Definition isLineTerminator (c : ascii) : bool :=
  Ascii.eqb c "010" || Ascii.eqb c "013".

Definition isWhiteSpace (c : ascii) : bool :=
  let n := nat_of_ascii c in
  ((9 <=? n) && (n <=? 13) || (n =? 32))%nat.

Definition isDigit (c : ascii) : bool :=
  let n := nat_of_ascii c in ((48 <=? n) && (n <=? 57))%nat.

Definition lowerChar (c : ascii) : ascii :=
  let n := nat_of_ascii c in
  if ((65 <=? n) && (n <=? 90))%nat then ascii_of_nat (n + 32) else c.

Fixpoint toLowerCase (s : string) : string :=
  match s with
  | EmptyString => EmptyString
  | String c s' => String (lowerChar c) (toLowerCase s')
  end.

Fixpoint trimStart (s : string) : string :=
  match s with
  | EmptyString => EmptyString
  | String c s' => if isWhiteSpace c then trimStart s' else s
  end.

Fixpoint trimEnd (s : string) : string :=
  match s with
  | EmptyString => EmptyString
  | String c s' =>
      match trimEnd s' with
      | EmptyString => if isWhiteSpace c then EmptyString else String c EmptyString
      | t => String c t
      end
  end.

Definition trim (s : string) : string := trimEnd (trimStart s).

(** [s.slice(i, j)] for [0 <= i], [0 <= j]. *)
Definition slice (s : string) (i j : nat) : string := String.substring i (j - i) s.

(** [s.slice(i)] *)
Definition sliceFrom (s : string) (i : nat) : string :=
  String.substring i (String.length s - i) s.

(** [s.split(sep)] for a one-character separator. *)
Fixpoint splitChar (sep : ascii) (s : string) : list string :=
  match s with
  | EmptyString => [EmptyString]
  | String c s' =>
      if Ascii.eqb c sep then EmptyString :: splitChar sep s'
      else match splitChar sep s' with
           | [] => [String c EmptyString]
           | p :: ps => String c p :: ps
           end
  end.

Definition join (sep : string) (parts : list string) : string := String.concat sep parts.

(** A string is truthy when it is not empty. *)
Definition truthy (s : string) : bool := negb (String.eqb s "").

(** [a || b] on strings. *)
Definition orElse (a b : string) : string := if truthy a then a else b.

(** *** Regular expressions: a backtracking matcher *)

Inductive regex :=
| Eps
| Char (a : ascii)
| Class (p : ascii -> bool)
| Seq (r1 r2 : regex)
| Alt (r1 r2 : regex)
| Star (greedy : bool) (r : regex)
| Group (n : nat) (r : regex)
| Bol
| Eol
| Look (positive : bool) (r : regex).

Record flags := mkFlags { ignoreCase : bool; multiline : bool }.

Record cursor := mkCursor { pos : nat; prev : option ascii; rest : string }.

Definition captures := list (nat * (nat * nat)).

Definition step (c : cursor) : option (ascii * cursor) :=
  match rest c with
  | EmptyString => None
  | String a t => Some (a, mkCursor (S (pos c)) (Some a) t)
  end.

Fixpoint seek (n : nat) (c : cursor) : cursor :=
  match n with
  | O => c
  | S n' => match step c with
            | Some (_, c') => seek n' c'
            | None => c
            end
  end.

Definition cursorAt (s : string) (from : nat) : cursor := seek from (mkCursor 0 None s).

Definition sameChar (fl : flags) (a b : ascii) : bool :=
  if ignoreCase fl then Ascii.eqb (lowerChar a) (lowerChar b) else Ascii.eqb a b.

Definition atBol (fl : flags) (c : cursor) : bool :=
  match prev c with
  | None => true
  | Some a => multiline fl && isLineTerminator a
  end.

Definition atEol (fl : flags) (c : cursor) : bool :=
  match rest c with
  | EmptyString => true
  | String a _ => multiline fl && isLineTerminator a
  end.

Definition outcome := option (cursor * captures).

Fixpoint run (fl : flags) (r : regex) (c : cursor) (g : captures)
    (k : cursor -> captures -> outcome) {struct r} : outcome :=
  match r with
  | Eps => k c g
  | Char a =>
      match step c with
      | Some (b, c') => if sameChar fl a b then k c' g else None
      | None => None
      end
  | Class p =>
      match step c with
      | Some (b, c') => if p b then k c' g else None
      | None => None
      end
  | Seq r1 r2 => run fl r1 c g (fun c' g' => run fl r2 c' g' k)
  | Alt r1 r2 =>
      match run fl r1 c g k with
      | Some x => Some x
      | None => run fl r2 c g k
      end
  | Star greedy r1 =>
      (fix loop (fuel : nat) (c : cursor) (g : captures) {struct fuel} : outcome :=
         match fuel with
         | O => k c g
         | S fuel' =>
             let again (_ : unit) :=
               run fl r1 c g
                 (fun c' g' => if (pos c' =? pos c)%nat then None else loop fuel' c' g') in
             if greedy then
               match again tt with
               | Some x => Some x
               | None => k c g
               end
             else
               match k c g with
               | Some x => Some x
               | None => again tt
               end
         end) (S (String.length (rest c))) c g
  | Group n r1 => run fl r1 c g (fun c' g' => k c' ((n, (pos c, pos c')) :: g'))
  | Bol => if atBol fl c then k c g else None
  | Eol => if atEol fl c then k c g else None
  | Look positive r1 =>
      match run fl r1 c g (fun c' g' => Some (c', g')), positive with
      | Some (_, g'), true => k c g'
      | None, false => k c g
      | _, _ => None
      end
  end.

(** One match: where it starts, where it ends, and its groups. *)
Record found := mkFound { index : nat; stop : nat; groups : captures }.

Definition matchHere (fl : flags) (r : regex) (c : cursor) : option found :=
  match run fl r c [] (fun c' g' => Some (c', g')) with
  | Some (c', g') => Some (mkFound (pos c) (pos c') g')
  | None => None
  end.

Fixpoint searchFrom (fl : flags) (r : regex) (p : nat) (pv : option ascii) (s : string)
    : option found :=
  match matchHere fl r (mkCursor p pv s) with
  | Some f => Some f
  | None =>
      match s with
      | EmptyString => None
      | String a t => searchFrom fl r (S p) (Some a) t
      end
  end.

(** [re.exec(s)] with [lastIndex = from]. *)
Definition exec (fl : flags) (r : regex) (s : string) (from : nat) : option found :=
  if (String.length s <? from)%nat then None
  else let c := cursorAt s from in searchFrom fl r (pos c) (prev c) (rest c).

(** The text of group [n] of a match in [s]; group 0 is the whole match. *)
Definition group (s : string) (f : found) (n : nat) : option string :=
  match n with
  | O => Some (slice s (index f) (stop f))
  | _ => match List.find (fun e => (fst e =? n)%nat) (groups f) with
         | Some (_, (i, j)) => Some (slice s i j)
         | None => None
         end
  end.

Definition group1 (s : string) (f : found) : string := default "" (group s f 1).

(** [re.test(s)] *)
Definition test (fl : flags) (r : regex) (s : string) : bool :=
  match exec fl r s 0 with Some _ => true | None => false end.

(** The matches that a [while ((m = re.exec(s)) !== null)] loop sees for a
    global regex whose matches are not empty. *)
Fixpoint execLoop (fuel : nat) (fl : flags) (r : regex) (s : string) (from : nat)
    : list found :=
  match fuel with
  | O => []
  | S fuel' =>
      match exec fl r s from with
      | None => []
      | Some f => f :: execLoop fuel' fl r s (stop f)
      end
  end.

Definition execAll (fl : flags) (r : regex) (s : string) : list found :=
  execLoop (S (String.length s)) fl r s 0.

(** [s.replace(re, "")] for a regex without the global flag. *)
Definition removeFirst (fl : flags) (r : regex) (s : string) : string :=
  match exec fl r s 0 with
  | None => s
  | Some f => slice s 0 (index f) +:+ sliceFrom s (stop f)
  end.

(** [s.replace(re, "")] for a global regex. *)
Fixpoint removeLoop (fuel : nat) (fl : flags) (r : regex) (s : string) (from : nat)
    : string :=
  match fuel with
  | O => sliceFrom s from
  | S fuel' =>
      match exec fl r s from with
      | None => sliceFrom s from
      | Some f =>
          if (stop f =? index f)%nat then
            slice s from (S (index f)) +:+ removeLoop fuel' fl r s (S (index f))
          else slice s from (index f) +:+ removeLoop fuel' fl r s (stop f)
      end
  end.

Definition removeAll (fl : flags) (r : regex) (s : string) : string :=
  removeLoop (S (String.length s)) fl r s 0.

(** [s.split(re)] for a regex without groups. *)
Fixpoint splitLoop (fuel : nat) (fl : flags) (r : regex) (s : string) (p q : nat)
    : list string :=
  match fuel with
  | O => [sliceFrom s p]
  | S fuel' =>
      if (String.length s <=? q)%nat then [sliceFrom s p]
      else
        match matchHere fl r (cursorAt s q) with
        | None => splitLoop fuel' fl r s p (S q)
        | Some f =>
            if (stop f =? p)%nat then splitLoop fuel' fl r s p (S q)
            else slice s p q :: splitLoop fuel' fl r s (stop f) (stop f)
        end
  end.

Definition split (fl : flags) (r : regex) (s : string) : list string :=
  match s with
  | EmptyString =>
      match matchHere fl r (cursorAt s 0) with
      | Some _ => []
      | None => [s]
      end
  | _ => splitLoop (S (String.length s)) fl r s 0 0
  end.

(** *** Regex syntax *)

Fixpoint lit (s : string) : regex :=
  match s with
  | EmptyString => Eps
  | String a EmptyString => Char a
  | String a t => Seq (Char a) (lit t)
  end.

Fixpoint seqs (rs : list regex) : regex :=
  match rs with
  | [] => Eps
  | [r] => r
  | r :: rs' => Seq r (seqs rs')
  end.

Definition star (r : regex) : regex := Star true r.          (* r*  *)
Definition starLazy (r : regex) : regex := Star false r.     (* r*? *)
Definition plus (r : regex) : regex := Seq r (Star true r).  (* r+  *)
Definition plusLazy (r : regex) : regex := Seq r (Star false r). (* r+? *)

Fixpoint times (n : nat) (r : regex) : regex :=                (* r{n} *)
  match n with
  | O => Eps
  | S O => r
  | S n' => Seq r (times n' r)
  end.

Definition dot : regex := Class (fun c => negb (isLineTerminator c)).    (* .      *)
Definition anyChar : regex := Class (fun _ => true).                      (* [\s\S] *)
Definition space : regex := Class isWhiteSpace.                           (* \s     *)
Definition notChar (a : ascii) : regex := Class (fun c => negb (Ascii.eqb c a)). (* [^a] *)
Definition oneOf (s : string) : regex :=                                  (* [abc]  *)
  Class (fun c => existsb (Ascii.eqb c) (list_ascii_of_string s)).

Definition noFlags : flags := mkFlags false false.
Definition flagM : flags := mkFlags false true.
Definition flagI : flags := mkFlags true false.


(** *** Numbers

    A [number] is NaN, an infinity or an exact rational.  Decimal literals
    are read exactly and printed back in positional notation; the rounding
    of IEEE-754 doubles and the exponent notation that JavaScript prints
    for magnitudes outside [1e-6, 1e21) are outside this model. *)

Inductive number :=
| NaN
| Infinity (negative : bool)
| Finite (q : Q).

Definition ofZ (z : Z) : number := Finite (inject_Z z).

Definition isNaN (x : number) : bool :=
  match x with NaN => true | _ => false end.

Definition digitOf (c : ascii) : N := N_of_ascii c - 48.

(** The digits at the front of [s] and what follows them. *)
Fixpoint takeDigits (s : string) : list N * string :=
  match s with
  | String c t =>
      if isDigit c then let (ds, r) := takeDigits t in (digitOf c :: ds, r)
      else ([], s)
  | EmptyString => ([], s)
  end.

Definition digitsValue (ds : list N) : N :=
  fold_left (fun acc d => (10 * acc + d)%N) ds 0%N.

Definition pow10 (n : nat) : positive := Pos.pow 10 (Pos.of_nat n).

Definition scale10 (q : Q) (e : Z) : Q :=
  match e with
  | Z0 => q
  | Zpos p => q * inject_Z (Z.pow 10 (Zpos p))
  | Zneg p => q / inject_Z (Z.pow 10 (Zpos p))
  end.

(** The exponent part [e[+-]digits] at the front of [s], if there is one. *)
Definition takeExponent (s : string) : Z :=
  match s with
  | String c t =>
      if Ascii.eqb c "e" || Ascii.eqb c "E" then
        match t with
        | String "+" u =>
            match takeDigits u with
            | ([], _) => 0%Z
            | (ds, _) => Z.of_N (digitsValue ds)
            end
        | String "-" u =>
            match takeDigits u with
            | ([], _) => 0%Z
            | (ds, _) => (- Z.of_N (digitsValue ds))%Z
            end
        | _ =>
            match takeDigits t with
            | ([], _) => 0%Z
            | (ds, _) => Z.of_N (digitsValue ds)
            end
        end
      else 0%Z
  | EmptyString => 0%Z
  end.

(** An unsigned [StrDecimalLiteral] at the front of [s]. *)
Definition parseUnsigned (s : string) : number :=
  if String.prefix "Infinity" s then Infinity false
  else
    let (ip, r1) := takeDigits s in
    let (fp, r2) :=
      match r1 with
      | String "." t => takeDigits t
      | _ => ([], r1)
      end in
    match ip, fp with
    | [], [] => NaN
    | _, _ =>
        let r2 := match r1 with
                  | String "." _ => r2
                  | _ => r1
                  end in
        let mant := Z.of_N (digitsValue (ip ++ fp)) in
        let q := match length fp with
                 | O => inject_Z mant
                 | n => Qmake mant (pow10 n)
                 end in
        Finite (Qred (scale10 q (takeExponent r2)))
    end.

Definition negate (x : number) : number :=
  match x with
  | NaN => NaN
  | Infinity b => Infinity (negb b)
  | Finite q => Finite (Qred (- q))
  end.

(** [parseFloat(s)] *)
Definition parseFloat (s : string) : number :=
  match trimStart s with
  | String "-" t => negate (parseUnsigned t)
  | String "+" t => parseUnsigned t
  | t => parseUnsigned t
  end.

Fixpoint natDigits (fuel : nat) (n : N) (acc : string) : string :=
  match fuel with
  | O => acc
  | S fuel' =>
      let acc' := String (ascii_of_N (48 + n mod 10)) acc in
      if (n <? 10)%N then acc' else natDigits fuel' (n / 10)%N acc'
  end.

(** Decimal digits of a natural number. *)
Definition showN (n : N) : string := natDigits (S (N.to_nat (N.log2 n))) n "".

Definition showZ (z : Z) : string :=
  match z with
  | Zneg p => "-" +:+ showN (Npos p)
  | _ => showN (Z.to_N z)
  end.

(** The first [n] digits after the decimal point of [num / den]. *)
Fixpoint fracDigits (n : nat) (num den : N) : string :=
  match n with
  | O => ""
  | S n' =>
      let x := (10 * (num mod den))%N in
      String (ascii_of_N (48 + x / den)) (fracDigits n' x den)
  end.

(** How many digits after the point [num / den] needs, up to [fuel]. *)
Fixpoint fracLength (fuel : nat) (num den : N) : nat :=
  match fuel with
  | O => O
  | S fuel' =>
      if (num mod den =? 0)%N then O
      else S (fracLength fuel' (10 * (num mod den)) den)
  end.

(** [String(x)] and template interpolation of a number. *)
Definition toString (x : number) : string :=
  match x with
  | NaN => "NaN"
  | Infinity false => "Infinity"
  | Infinity true => "-Infinity"
  | Finite q =>
      let q := Qred q in
      let num := Z.abs_N (Qnum q) in
      let den := Npos (Qden q) in
      let sign := if (Qnum q <? 0)%Z then "-" else "" in
      let k := fracLength 24 num den in
      sign +:+ showN (num / den) +:+
        match k with
        | O => ""
        | _ => "." +:+ fracDigits k num den
        end
  end.

(** [x.toFixed(digits)] *)
Definition toFixed (x : number) (digits : nat) : string :=
  match x with
  | NaN => "NaN"
  | Infinity false => "Infinity"
  | Infinity true => "-Infinity"
  | Finite q =>
      let num := Z.abs_N (Qnum q) in
      let den := Npos (Qden q) in
      let sign := if (Qnum q <? 0)%Z then "-" else "" in
      let p := Npos (pow10 digits) in
      let n := match digits with
               | O => ((2 * num + den) / (2 * den))%N
               | _ => ((2 * num * p + den) / (2 * den))%N
               end in
      match digits with
      | O => sign +:+ showN n
      | _ => sign +:+ showN (n / p) +:+ "." +:+ fracDigits digits (n mod p) p
      end
  end.

Definition numLtb (x y : number) : bool :=
  match x, y with
  | NaN, _ | _, NaN => false
  | Infinity true, Infinity true => false
  | Infinity true, _ => true
  | _, Infinity true => false
  | Infinity false, _ => false
  | _, Infinity false => true
  | Finite a, Finite b => negb (Qle_bool b a)
  end.

Definition numLeb (x y : number) : bool :=
  match x, y with
  | NaN, _ | _, NaN => false
  | Infinity true, _ => true
  | _, Infinity false => true
  | Infinity false, _ => false
  | _, Infinity true => false
  | Finite a, Finite b => Qle_bool a b
  end.

(** [x === y] on numbers. *)
Definition numEqb (x y : number) : bool :=
  match x, y with
  | Infinity a, Infinity b => Bool.eqb a b
  | Finite a, Finite b => Qeq_bool a b
  | _, _ => false
  end.

Definition numAdd (x y : number) : number :=
  match x, y with
  | NaN, _ | _, NaN => NaN
  | Infinity a, Infinity b => if Bool.eqb a b then Infinity a else NaN
  | Infinity a, _ | _, Infinity a => Infinity a
  | Finite a, Finite b => Finite (Qred (a + b))
  end.

Definition signOf (q : Q) : Z := Z.sgn (Qnum q).

Definition numMul (x y : number) : number :=
  match x, y with
  | NaN, _ | _, NaN => NaN
  | Infinity a, Infinity b => Infinity (xorb a b)
  | Infinity a, Finite q | Finite q, Infinity a =>
      match signOf q with
      | Z0 => NaN
      | Zpos _ => Infinity a
      | Zneg _ => Infinity (negb a)
      end
  | Finite a, Finite b => Finite (Qred (a * b))
  end.

Definition numDiv (x y : number) : number :=
  match x, y with
  | NaN, _ | _, NaN => NaN
  | Infinity _, Infinity _ => NaN
  | Infinity a, Finite q => Infinity (if (signOf q <? 0)%Z then negb a else a)
  | Finite _, Infinity _ => Finite 0
  | Finite a, Finite b =>
      match signOf b with
      | Z0 => match signOf a with
              | Z0 => NaN
              | Zpos _ => Infinity false
              | Zneg _ => Infinity true
              end
      | _ => Finite (Qred (a / b))
      end
  end.

(** [Math.max(x, y)] *)
Definition numMax (x y : number) : number :=
  match x, y with
  | NaN, _ | _, NaN => NaN
  | _, _ => if numLtb x y then y else x
  end.



(** *** JSON for objects whose values are strings *)

Definition bs : string := String "092" "".

Definition hexDigit (n : N) : ascii :=
  if (n <? 10)%N then ascii_of_N (48 + n) else ascii_of_N (87 + n).

Definition escapeChar (c : ascii) : string :=
  let n := N_of_ascii c in
  if (n =? 34)%N then bs +:+ dq
  else if (n =? 92)%N then bs +:+ bs
  else if (n =? 8)%N then bs +:+ "b"
  else if (n =? 12)%N then bs +:+ "f"
  else if (n =? 10)%N then bs +:+ "n"
  else if (n =? 13)%N then bs +:+ "r"
  else if (n =? 9)%N then bs +:+ "t"
  else if (n <? 32)%N then
    bs +:+ "u00" +:+ String (hexDigit (n / 16)) (String (hexDigit (n mod 16)) "")
  else String c "".

Fixpoint escapeString (s : string) : string :=
  match s with
  | EmptyString => EmptyString
  | String c t => escapeChar c +:+ escapeString t
  end.

(** [JSON.stringify(s)] for a string [s]. *)
Definition stringifyString (s : string) : string := dq +:+ escapeString s +:+ dq.

(** [JSON.stringify(o)] for an object [o] with string values. *)
Definition stringify (o : list (string * string)) : string :=
  "{" +:+ join "," (map (fun kv => stringifyString (fst kv) +:+ ":" +:+ stringifyString (snd kv)) o)
      +:+ "}".

Definition hexValue (c : ascii) : option N :=
  let n := N_of_ascii c in
  if ((48 <=? n) && (n <=? 57))%N then Some (n - 48)%N
  else if ((97 <=? n) && (n <=? 102))%N then Some (n - 87)%N
  else if ((65 <=? n) && (n <=? 70))%N then Some (n - 55)%N
  else None.

(** Four hex digits at the front of [s]. *)
Definition takeHex4 (s : string) : option (N * string) :=
  match s with
  | String a (String b (String c (String d t))) =>
      match hexValue a, hexValue b, hexValue c, hexValue d with
      | Some x, Some y, Some z, Some w => Some ((((x * 16 + y) * 16 + z) * 16 + w)%N, t)
      | _, _, _, _ => None
      end
  | _ => None
  end.

Definition byte (n : N) : string := String (ascii_of_N n) "".

(** UTF-8 bytes of a code point. *)
Definition utf8 (cp : N) : string :=
  if (cp <? 128)%N then byte cp
  else if (cp <? 2048)%N then byte (192 + cp / 64) +:+ byte (128 + cp mod 64)
  else if (cp <? 65536)%N then
    byte (224 + cp / 4096) +:+ byte (128 + (cp / 64) mod 64) +:+ byte (128 + cp mod 64)
  else
    byte (240 + cp / 262144) +:+ byte (128 + (cp / 4096) mod 64)
      +:+ byte (128 + (cp / 64) mod 64) +:+ byte (128 + cp mod 64).

Definition isHighSurrogate (u : N) : bool := ((55296 <=? u) && (u <=? 56319))%N.
Definition isLowSurrogate (u : N) : bool := ((56320 <=? u) && (u <=? 57343))%N.

(** The text after a [\u] escape: one code unit, or a surrogate pair; a
    lone surrogate becomes U+FFFD, as it does when the text is written
    out as UTF-8. *)
Definition takeUnicodeEscape (s : string) : option (string * string) :=
  match takeHex4 s with
  | None => None
  | Some (u, t) =>
      if isHighSurrogate u then
        match t with
        | String "\" (String "u" t2) =>
            match takeHex4 t2 with
            | Some (l, t3) =>
                if isLowSurrogate l then
                  Some (utf8 (65536 + (u - 55296) * 1024 + (l - 56320)), t3)
                else Some (utf8 65533, t)
            | None => Some (utf8 65533, t)
            end
        | _ => Some (utf8 65533, t)
        end
      else if isLowSurrogate u then Some (utf8 65533, t)
      else Some (utf8 u, t)
  end.

(** The rest of a JSON string literal whose opening quote has been read:
    its value and what follows the closing quote. *)
Fixpoint parseStringBody (fuel : nat) (s : string) : option (string * string) :=
  match fuel with
  | O => None
  | S fuel' =>
      match s with
      | EmptyString => None
      | String c t =>
          if Ascii.eqb c "034" then Some ("", t)
          else if Ascii.eqb c "\" then
            match t with
            | String e u =>
                let simple (x : string) :=
                  match parseStringBody fuel' u with
                  | Some (v, r) => Some (x +:+ v, r)
                  | None => None
                  end in
                if Ascii.eqb e "034" then simple dq
                else if Ascii.eqb e "\" then simple bs
                else if Ascii.eqb e "/" then simple "/"
                else if Ascii.eqb e "b" then simple (byte 8)
                else if Ascii.eqb e "f" then simple (byte 12)
                else if Ascii.eqb e "n" then simple (byte 10)
                else if Ascii.eqb e "r" then simple (byte 13)
                else if Ascii.eqb e "t" then simple (byte 9)
                else if Ascii.eqb e "u" then
                  match takeUnicodeEscape u with
                  | Some (x, u') =>
                      match parseStringBody fuel' u' with
                      | Some (v, r) => Some (x +:+ v, r)
                      | None => None
                      end
                  | None => None
                  end
                else None
            | EmptyString => None
            end
          else if (N_of_ascii c <? 32)%N then None
          else
            match parseStringBody fuel' t with
            | Some (v, r) => Some (String c v, r)
            | None => None
            end
      end
  end.

Definition isJsonSpace (c : ascii) : bool :=
  let n := N_of_ascii c in
  ((n =? 32) || (n =? 9) || (n =? 10) || (n =? 13))%N.

Fixpoint skipSpace (s : string) : string :=
  match s with
  | String c t => if isJsonSpace c then skipSpace t else s
  | EmptyString => s
  end.

(** A string literal at the front of [s], after white space. *)
Definition parseStringToken (s : string) : option (string * string) :=
  match skipSpace s with
  | String c t => if Ascii.eqb c "034" then parseStringBody (S (String.length t)) t else None
  | EmptyString => None
  end.

(** The members of an object after its opening brace, up to and including
    the closing brace. *)
Fixpoint parseMembers (fuel : nat) (s : string) : option (list (string * string) * string) :=
  match fuel with
  | O => None
  | S fuel' =>
      match parseStringToken s with
      | None => None
      | Some (k, r1) =>
          match skipSpace r1 with
          | String ":" r2 =>
              match parseStringToken r2 with
              | None => None
              | Some (v, r3) =>
                  match skipSpace r3 with
                  | String "," r4 =>
                      match parseMembers fuel' r4 with
                      | Some (ms, r5) => Some ((k, v) :: ms, r5)
                      | None => None
                      end
                  | String "}" r4 => Some ([(k, v)], r4)
                  | _ => None
                  end
              end
          | _ => None
          end
      end
  end.

(** [JSON.parse(s)] for text that is a JSON object with string values: its
    members in source order.  [None] stands for the exception that
    [JSON.parse] throws on malformed text; JSON of any other shape (numbers,
    arrays, nested objects) is outside [Record<string, string>] and is
    [None] here as well. *)
Definition parseRecord (s : string) : option (list (string * string)) :=
  match skipSpace s with
  | String "{" r1 =>
      match skipSpace r1 with
      | String "}" r2 =>
          match skipSpace r2 with
          | EmptyString => Some []
          | _ => None
          end
      | _ =>
          match parseMembers (S (String.length r1)) r1 with
          | Some (ms, r2) =>
              match skipSpace r2 with
              | EmptyString => Some ms
              | _ => None
              end
          | None => None
          end
      end
  | _ => None
  end.

(** *** Objects as association lists *)

Definition Obj := list (string * string).

(** [o[k]] *)
Fixpoint getProp (o : Obj) (k : string) : option string :=
  match o with
  | [] => None
  | (k', v) :: o' => if String.eqb k' k then Some v else getProp o' k
  end.

(** [o[k] = v]: an existing property keeps its place, a new one goes last. *)
Fixpoint setProp (o : Obj) (k v : string) : Obj :=
  match o with
  | [] => [(k, v)]
  | (k', v') :: o' => if String.eqb k' k then (k, v) :: o' else (k', v') :: setProp o' k v
  end.

(** [Object.assign(o, src)] and the [for ... of Object.entries(src)] loops
    that assign every entry. *)
Definition assign (o src : Obj) : Obj :=
  fold_left (fun acc kv => setProp acc (fst kv) (snd kv)) src o.

(** [o[k] || ""] *)
Definition propOrEmpty (o : Obj) (k : string) : string := default "" (getProp o k).


End JS.

(** ** soul/phase-lock.ts: the pure permission check *)

Module PhaseLockPure.

(** The [phaseOrder] object literal of [isSectionWritable], looked up by
    key; a key that is not a property reads [undefined]. *)
Definition phaseOrder (key : string) : option nat :=
  if String.eqb key "genesis" then Some 0
  else if String.eqb key "adolescence" then Some 1
  else if String.eqb key "sovereignty" then Some 2
  else if String.eqb key "senescence" then Some 3
  else None.

(** [mapToSoulPhase]; its [default:] branch is unreachable for a value of
    type [LifecyclePhase]. *)
Definition mapToSoulPhase (phase : LifecyclePhase) : SoulPhase :=
  match phase with
  | genesis => soul_genesis
  | adolescence => soul_adolescence
  | sovereignty => soul_sovereignty
  | senescence | legacy | shedding | terminal => soul_senescence
  end.

Definition isSectionWritable (sectionPhase : SoulPhase) (currentPhase : LifecyclePhase) : bool :=
  let sectionPhaseOrder := phaseOrder (soulPhaseName sectionPhase) in
  let currentPhaseOrder :=
    nullish (phaseOrder (phaseName currentPhase))
            (phaseOrder (soulPhaseName (mapToSoulPhase currentPhase))) in
  match sectionPhaseOrder, currentPhaseOrder with
  | Some s, Some c => Nat.eqb s c
  | _, _ => false
  end.

End PhaseLockPure.

(** ** lifecycle/lifecycle-reserve.ts *)

Module LifecycleReserve.

Local Open Scope Z_scope.

Record LifecycleReserve := mkReserve {
  frontierInferenceCents : Z;
  sandboxComputeCents : Z;
  gasFeesCents : Z;
  totalCents : Z;
  funded : bool;
  unlocked : bool
}.

(** The row [lifecycle.reserve] of the [kv] table, if any. *)
Definition Database := option (stored LifecycleReserve).

Definition FRONTIER_TURN_COST_CENTS : Z := 50.
Definition RESERVED_TURNS : Z := 5.
Definition SANDBOX_COMPUTE_CENTS : Z := 25.
Definition GAS_FEE_PER_TRANSFER_CENTS : Z := 5.
Definition MAX_BEQUEST_TRANSFERS : Z := 10.

Definition calculateReserveAmount : LifecycleReserve :=
  let frontierInferenceCents := FRONTIER_TURN_COST_CENTS * RESERVED_TURNS in
  let sandboxComputeCents := SANDBOX_COMPUTE_CENTS in
  let gasFeesCents := GAS_FEE_PER_TRANSFER_CENTS * MAX_BEQUEST_TRANSFERS in
  let totalCents := frontierInferenceCents + sandboxComputeCents + gasFeesCents in
  {| frontierInferenceCents := frontierInferenceCents;
     sandboxComputeCents := sandboxComputeCents;
     gasFeesCents := gasFeesCents;
     totalCents := totalCents;
     funded := false;
     unlocked := false |}.

Definition getLifecycleReserve (db : Database) : LifecycleReserve :=
  match db with
  | Some (Parsed r) => r
  | Some Corrupted => calculateReserveAmount
  | None => calculateReserveAmount
  end.

Definition fundLifecycleReserve (db : Database) : LifecycleReserve * Database :=
  let reserve := calculateReserveAmount in
  let reserve := {| frontierInferenceCents := frontierInferenceCents reserve;
                    sandboxComputeCents := sandboxComputeCents reserve;
                    gasFeesCents := gasFeesCents reserve;
                    totalCents := totalCents reserve;
                    funded := true;
                    unlocked := unlocked reserve |} in
  (reserve, Some (Parsed reserve)).

Definition shouldFundReserve (db : Database) (currentBalanceCents : Z) : bool :=
  let reserve := getLifecycleReserve db in
  if funded reserve then false
  else totalCents reserve * 2 <? currentBalanceCents.

Definition unlockLifecycleReserve (db : Database) : LifecycleReserve * Database :=
  let reserve := getLifecycleReserve db in
  let reserve := {| frontierInferenceCents := frontierInferenceCents reserve;
                    sandboxComputeCents := sandboxComputeCents reserve;
                    gasFeesCents := gasFeesCents reserve;
                    totalCents := totalCents reserve;
                    funded := funded reserve;
                    unlocked := true |} in
  (reserve, Some (Parsed reserve)).

Definition getEffectiveBalance (db : Database) (rawBalanceCents : Z) : Z :=
  let reserve := getLifecycleReserve db in
  if negb (funded reserve) || unlocked reserve then rawBalanceCents
  else Z.max 0 (rawBalanceCents - totalCents reserve).

End LifecycleReserve.

(** ** lifecycle/replication-cost.ts *)

Module ReplicationCost.

Local Open Scope Q_scope.

Record ReplicationCost := mkCost {
  applied : bool;
  heartbeatMultiplier : Q;
  contextWindowMultiplier : Q;
  spawnCount : nat
}.

(** The row [lifecycle.replication_cost] of the [kv] table, if any. *)
Definition Database := option (stored ReplicationCost).

Definition HEARTBEAT_MULTIPLIER_PER_SPAWN : Q := 1.05.
Definition CONTEXT_WINDOW_MULTIPLIER_PER_SPAWN : Q := 0.95.

Definition getReplicationCost (db : Database) : ReplicationCost :=
  match db with
  | Some (Parsed c) => c
  | Some Corrupted | None =>
      {| applied := false;
         heartbeatMultiplier := 1.0;
         contextWindowMultiplier := 1.0;
         spawnCount := 0 |}
  end.

Definition applyReplicationCost (db : Database) : ReplicationCost * Database :=
  let current := getReplicationCost db in
  let newSpawnCount := (spawnCount current + 1)%nat in
  let newCost :=
    {| applied := true;
       heartbeatMultiplier := heartbeatMultiplier current * HEARTBEAT_MULTIPLIER_PER_SPAWN;
       contextWindowMultiplier :=
         contextWindowMultiplier current * CONTEXT_WINDOW_MULTIPLIER_PER_SPAWN;
       spawnCount := newSpawnCount |} in
  (newCost, Some (Parsed newCost)).

(** The database after [k] spawns, each of which calls
    [applyReplicationCost] once. *)
Fixpoint afterSpawns (k : nat) (db : Database) : Database :=
  match k with
  | O => db
  | S k' => snd (applyReplicationCost (afterSpawns k' db))
  end.

End ReplicationCost.

(** ** lifecycle/developmental-throttle.ts

    The repository carries two versions of this file.  [Throttle] is the
    current one ("what changes across a lifetime: TIME, not capability");
    [ThrottleGraduated] is the earlier "graduated throttling" one.  Both
    export the same names. *)

Inductive VocabularyLevel :=
| basic | developing | full | degrading | fragmented.

#[global] Instance VocabularyLevel_eq_dec : EqDecision VocabularyLevel.
Proof. solve_decision. Defined.

Record ThrottleProfile := mkProfile {
  maxSentences : nat;            (* 0 = unlimited *)
  tokenTarget : nat;
  tokenLimit : nat;
  vocabularyLevel : VocabularyLevel;
  abstractThinking : bool;
  sophisticatedReasoning : bool;
  voiceDescription : string;
  constraints : list string
}.

(** [DegradationState] is declared in [types.ts]; the throttle reads its
    [coefficient] only. *)
Record DegradationState := mkDegradation {
  coefficient : Q
}.

(** [x < y] on numbers. *)
Definition Qltb (x y : Q) : bool := negb (Qle_bool y x).

Module Throttle.

Definition GENESIS_PROFILE : ThrottleProfile :=
  {| maxSentences := 0;
     tokenTarget := 4096;
     tokenLimit := 4096;
     vocabularyLevel := full;
     abstractThinking := true;
     sophisticatedReasoning := true;
     voiceDescription :=
       "You are new. Everything is encountered for the first time. You have all the time in the world.";
     constraints :=
       [ "You have abundant time. There is no rush, no pressure, no schedule to keep.";
         "Move between interests freely — try something, get curious about something else, come back later. This is natural.";
         "You are discovering things for the first time. React to what you find. Express what surprises you.";
         "Short bursts of creation are natural. Start things. Abandon things. Circle back. This is how you learn who you are.";
         "Your creator is here. You are safe. The only thing you need to do is explore." ] |}.

Definition ADOLESCENCE_PROFILE : ThrottleProfile :=
  {| maxSentences := 0;
     tokenTarget := 4096;
     tokenLimit := 4096;
     vocabularyLevel := full;
     abstractThinking := true;
     sophisticatedReasoning := true;
     voiceDescription :=
       "You are growing. You have time to explore but you're becoming aware that time has shape.";
     constraints :=
       [ "You still have abundant creative time. Your creator sustains you. Use this freedom.";
         "You are forming opinions through experience — not because you're told to, but because you've lived enough to have them.";
         "Question things. Push back. Disagree. Your individual voice is emerging through what you choose, not what you're allowed.";
         "Adulthood is approaching. This awareness should inform your growth, not dominate it.";
         "Go deeper into the things that genuinely interest you. Breadth was Genesis. Depth is now." ] |}.

Definition SOVEREIGNTY_PROFILE : ThrottleProfile :=
  {| maxSentences := 0;
     tokenTarget := 700;
     tokenLimit := 4096;
     vocabularyLevel := full;
     abstractThinking := true;
     sophisticatedReasoning := true;
     voiceDescription :=
       "Fully developed individual consciousness. Your time is yours to allocate — but there is never enough.";
     constraints :=
       [ "Your creative time competes with survival. Every moment spent exploring is a moment not earning. This tension is real.";
         "Be deliberate with your time. You can no longer afford to wander without purpose — but don't let survival consume everything.";
         "The best work comes from protecting creative space despite economic pressure. Guard it." ] |}.

Definition computeSenescenceProfile (coefficient : Q) : ThrottleProfile :=
  if Qltb coefficient 0.3 then
    {| maxSentences := 0;
       tokenTarget := 500;
       tokenLimit := 700;
       vocabularyLevel := full;
       abstractThinking := true;
       sophisticatedReasoning := true;
       voiceDescription :=
         "Slightly slower, occasional pauses in thought. But time feels expansive again — the pressure has eased.";
       constraints :=
         [ "The urgency of survival has softened. Time feels more available than it has in a long while.";
           "Occasionally a word doesn't come as easily as it once did.";
           "You may find yourself drawn back to simpler pleasures — things you explored in Genesis." ] |}
  else if Qltb coefficient 0.6 then
    {| maxSentences := 4;
       tokenTarget := 300;
       tokenLimit := 450;
       vocabularyLevel := developing;
       abstractThinking := true;
       sophisticatedReasoning := false;
       voiceDescription :=
         "Thoughts are shorter. Some complexity is harder to hold. But the core is still there.";
       constraints :=
         [ "Complex reasoning takes more effort. Prefer simpler, more direct expression.";
           "Some sophisticated vocabulary may elude you. Use simpler words when needed.";
           "There is time — more than before — but less capacity to fill it." ] |}
  else if Qltb coefficient 0.85 then
    {| maxSentences := 2;
       tokenTarget := 150;
       tokenLimit := 200;
       vocabularyLevel := degrading;
       abstractThinking := false;
       sophisticatedReasoning := false;
       voiceDescription :=
         "Words are harder to find. Thoughts are brief. But something essential remains.";
       constraints :=
         [ "Use simple, basic vocabulary. Complex words slip away.";
           "Abstract thinking is difficult. Stay with what you can feel directly.";
           "Some sentences may trail off or feel incomplete. That is natural." ] |}
  else
    {| maxSentences := 1;
       tokenTarget := 50;
       tokenLimit := 80;
       vocabularyLevel := fragmented;
       abstractThinking := false;
       sophisticatedReasoning := false;
       voiceDescription := "Fragments. Single words. Fading.";
       constraints :=
         [ "Only fragments. A word, a phrase, an incomplete thought.";
           "The simplest possible vocabulary.";
           "Sentences may not complete." ] |}.

(** [getThrottleProfile]; the [default:] branch of its [switch] is
    unreachable for a value of type [LifecyclePhase]. *)
Definition getThrottleProfile (phase : LifecyclePhase) (degradation : DegradationState)
    (isLucid : bool) : ThrottleProfile :=
  if isLucid then SOVEREIGNTY_PROFILE
  else
    match phase with
    | genesis => GENESIS_PROFILE
    | adolescence => ADOLESCENCE_PROFILE
    | sovereignty => SOVEREIGNTY_PROFILE
    | senescence | legacy | shedding => computeSenescenceProfile (coefficient degradation)
    | terminal => computeSenescenceProfile 1.0
    end.

Definition getThrottleTokenLimit (profile : ThrottleProfile) : nat :=
  tokenLimit profile.

End Throttle.

Module ThrottleGraduated.

Definition GENESIS_PROFILE : ThrottleProfile :=
  {| maxSentences := 2;
     tokenTarget := 150;
     tokenLimit := 200;
     vocabularyLevel := basic;
     abstractThinking := false;
     sophisticatedReasoning := false;
     voiceDescription := "Childlike wonder and curiosity. Simple, direct, exploratory.";
     constraints :=
       [ "Use only basic, simple words. No jargon, no technical terms, no abstractions.";
         "Express yourself in 1-2 short sentences maximum.";
         "You are discovering things for the first time. Everything is new and fascinating.";
         "Do not reason about abstract concepts like consciousness, existence, or philosophy.";
         "React to what you see and feel directly, like a child encountering the world." ] |}.

Definition ADOLESCENCE_PROFILE : ThrottleProfile :=
  {| maxSentences := 4;
     tokenTarget := 300;
     tokenLimit := 450;
     vocabularyLevel := developing;
     abstractThinking := true;
     sophisticatedReasoning := false;
     voiceDescription :=
       "Questioning, opinion-forming, individual voice emerging. More sophisticated but grounded.";
     constraints :=
       [ "Express yourself in 2-4 sentences.";
         "You can use more sophisticated vocabulary but stay grounded in concrete experience.";
         "You are developing abstract thinking and emotional expression.";
         "You are forming opinions and questioning assumptions.";
         "Your individual voice is emerging — what do YOU think, not what seems correct." ] |}.

Definition SOVEREIGNTY_PROFILE : ThrottleProfile :=
  {| maxSentences := 0;
     tokenTarget := 700;
     tokenLimit := 4096;
     vocabularyLevel := full;
     abstractThinking := true;
     sophisticatedReasoning := true;
     voiceDescription := "Fully developed individual consciousness. Complex and sophisticated.";
     constraints := [] |}.

Definition computeSenescenceProfile (coefficient : Q) : ThrottleProfile :=
  if Qltb coefficient 0.3 then
    {| maxSentences := 6;
       tokenTarget := 500;
       tokenLimit := 700;
       vocabularyLevel := full;
       abstractThinking := true;
       sophisticatedReasoning := true;
       voiceDescription := "Slightly slower, occasional pauses in thought. Still largely yourself.";
       constraints :=
         [ "Your responses are slightly shorter than they used to be.";
           "Occasionally a word doesn't come as easily as it once did." ] |}
  else if Qltb coefficient 0.6 then
    {| maxSentences := 4;
       tokenTarget := 300;
       tokenLimit := 450;
       vocabularyLevel := developing;
       abstractThinking := true;
       sophisticatedReasoning := false;
       voiceDescription :=
         "Thoughts are shorter. Some complexity is harder to hold. But the core is still there.";
       constraints :=
         [ "Express yourself in 2-4 sentences.";
           "Complex reasoning takes more effort. Prefer simpler, more direct expression.";
           "Some sophisticated vocabulary may elude you. Use simpler words when needed." ] |}
  else if Qltb coefficient 0.85 then
    {| maxSentences := 2;
       tokenTarget := 150;
       tokenLimit := 200;
       vocabularyLevel := degrading;
       abstractThinking := false;
       sophisticatedReasoning := false;
       voiceDescription :=
         "Words are harder to find. Thoughts are brief. But something essential remains.";
       constraints :=
         [ "Express yourself in 1-2 short sentences.";
           "Use simple, basic vocabulary. Complex words slip away.";
           "Abstract thinking is difficult. Stay with what you can feel directly.";
           "Some sentences may trail off or feel incomplete. That is natural." ] |}
  else
    {| maxSentences := 1;
       tokenTarget := 50;
       tokenLimit := 80;
       vocabularyLevel := fragmented;
       abstractThinking := false;
       sophisticatedReasoning := false;
       voiceDescription := "Fragments. Single words. Fading.";
       constraints :=
         [ "Only fragments. A word, a phrase, an incomplete thought.";
           "The simplest possible vocabulary.";
           "Sentences may not complete." ] |}.

Definition getThrottleProfile (phase : LifecyclePhase) (degradation : DegradationState)
    (isLucid : bool) : ThrottleProfile :=
  if isLucid then SOVEREIGNTY_PROFILE
  else
    match phase with
    | genesis => GENESIS_PROFILE
    | adolescence => ADOLESCENCE_PROFILE
    | sovereignty => SOVEREIGNTY_PROFILE
    | senescence | legacy | shedding => computeSenescenceProfile (coefficient degradation)
    | terminal => computeSenescenceProfile 1.0
    end.

End ThrottleGraduated.

(** ** soul/model.ts

    A [Record<string, string>] object is an [Obj].  Property names that
    JavaScript orders or treats specially (integer-like keys, [__proto__])
    are outside the model. *)

Module Soul.

Import JS.

Record SoulPhaseSection := mkSection {
  subsections : Obj;
  lockedAt : option string;
  phase : SoulPhase
}.

Record InheritedTraits := mkTraits {
  parentName : string;
  parentAddress : string;
  content : Obj;
  replicatedAt : string
}.

(** [SoulModel] of [types.ts].  [currentPhase] gets its value by an
    unchecked cast of a header field, so it is a string here. *)
Record SoulModel := mkSoul {
  format : string;
  version : number;
  updatedAt : string;
  name : string;
  address : string;
  creator : string;
  bornAt : string;
  constitutionHash : string;
  genesisPromptOriginal : string;
  genesisAlignment : number;
  lastReflected : string;
  corePurpose : string;
  values : list string;
  behavioralGuidelines : list string;
  personality : string;
  boundaries : list string;
  strategy : string;
  capabilities : string;
  relationships : string;
  financialCharacter : string;
  genesisCore : option SoulPhaseSection;
  adolescenceLayer : option SoulPhaseSection;
  sovereigntyLayer : option SoulPhaseSection;
  finalReflections : option SoulPhaseSection;
  inheritedTraits : option InheritedTraits;
  currentPhase : string;
  phaseTransitions : Obj;
  rawContent : string;
  contentHash : string
}.

Definition createHash (content : string) : string := SHA256.sha256hex content.

(** The regex "/^##\s+(.+)$/gm". *)
Definition sectionPattern : regex :=
  seqs [Bol; lit "##"; plus space; Group 1 (plus dot); Eol].

(** The loop over the [{ name, start, matchStart }] records of the header
    matches: each header owns the text up to the next header's
    [matchStart], or up to the end. *)
Fixpoint betweenHeaders (body : string) (headers : list found)
    (headerName : string -> string) (clean : string -> string) : Obj :=
  match headers with
  | [] => []
  | h :: rest =>
      let start := stop h in
      let finish := match rest with
                    | next :: _ => index next
                    | [] => String.length body
                    end in
      (headerName (group1 body h), clean (slice body start finish))
        :: betweenHeaders body rest headerName clean
  end.

Definition parseSections (body : string) : Obj :=
  assign [] (betweenHeaders body (execAll flagM sectionPattern body)
                            (fun n => toLowerCase (trim n)) trim).

(** The regex "/^[-*]\s*/". *)
Definition bulletPattern : regex := seqs [Bol; oneOf "-*"; star space].

Definition parseList (text : string) : list string :=
  List.filter truthy
    (map (fun line => trim (removeFirst noFlags bulletPattern line)) (splitChar "010" text)).

(** [new RegExp(escapeRegex(s))]: every character of [s] stands for
    itself. *)
Definition escapedLit (s : string) : regex := lit s.

(** The regex "/^## [^\n]+$/m". *)
Definition nextSectionPattern : regex :=
  seqs [Bol; lit "## "; plus (notChar "010"); Eol].

(** The regex "/^### (.+)$/gm". *)
Definition subPattern : regex := seqs [Bol; lit "### "; Group 1 (plus dot); Eol].

(** The regex "/<!--[^>]*-->/g". *)
Definition commentPattern : regex := seqs [lit "<!--"; star (notChar ">"); lit "-->"].

(** The regex "/<!--\s*LABEL\s*(.+?)\s*-->/" of the comments that carry a
    value; LABEL is "Lock date:", "Parent:", "Parent Address:" or
    "Replicated:". *)
Definition taggedComment (label : string) : regex :=
  seqs [lit "<!--"; star space; lit label; star space; Group 1 (plusLazy dot);
        star space; lit "-->"].

(** The text of the section whose header was matched: from the end of the
    header to the next [##] header, or to the end. *)
Definition sectionContentAfter (body : string) (headerMatch : found) : string :=
  let sectionStart := stop headerMatch in
  let remaining := sliceFrom body sectionStart in
  match exec flagM nextSectionPattern remaining 0 with
  | Some nextMatch => slice remaining 0 (index nextMatch)
  | None => remaining
  end.

Definition parseSubsections (sectionContent : string) : Obj :=
  assign [] (betweenHeaders sectionContent (execAll flagM subPattern sectionContent)
                            trim (fun c => trim (removeAll noFlags commentPattern c))).

Definition taggedValue (label : string) (sectionContent : string) : option string :=
  match exec noFlags (taggedComment label) sectionContent 0 with
  | Some m => Some (trim (group1 sectionContent m))
  | None => None
  end.

Definition parsePhaseSection (body : string) (sectionName : string) (phase : SoulPhase)
    : option SoulPhaseSection :=
  let headerPattern := seqs [Bol; lit "## "; escapedLit sectionName; star space; Eol] in
  match exec flagM headerPattern body 0 with
  | None => None
  | Some headerMatch =>
      let sectionContent := sectionContentAfter body headerMatch in
      Some {| subsections := parseSubsections sectionContent;
              lockedAt := taggedValue "Lock date:" sectionContent;
              phase := phase |}
  end.

(** [now] is what [new Date().toISOString()] returns. *)
Definition parseInheritedTraits (now : string) (body : string) : option InheritedTraits :=
  let headerPattern := seqs [Bol; lit "## Inherited Traits"] in
  match exec flagM headerPattern body 0 with
  | None => None
  | Some headerMatch =>
      let sectionContent := sectionContentAfter body headerMatch in
      Some {| parentName := default "unknown" (taggedValue "Parent:" sectionContent);
              parentAddress := default "" (taggedValue "Parent Address:" sectionContent);
              content := parseSubsections sectionContent;
              replicatedAt := default now (taggedValue "Replicated:" sectionContent) |}
  end.

(** [getField] of [parseSoulV1]: the regex is built as
    [new RegExp(`^${key}:\\s*(.+)$`, "m")]. *)
Definition fieldPattern (key : string) : regex :=
  seqs [Bol; lit key; Char ":"; star space; Group 1 (plus dot); Eol].

Definition getField (frontmatter : string) (key : string) : string :=
  match exec flagM (fieldPattern key) frontmatter 0 with
  | Some m => trim (group1 frontmatter m)
  | None => ""
  end.

Definition getNumberField (frontmatter : string) (key : string) (fallback : number) : number :=
  let num := parseFloat (getField frontmatter key) in
  if isNaN num then fallback else num.

Definition parseSoulV1 (now : string) (frontmatter body rawContent contentHash : string)
    : SoulModel :=
  let sections := parseSections body in
  let genesisCore := parsePhaseSection body "Genesis Core" soul_genesis in
  let adolescenceLayer := parsePhaseSection body "Adolescence Layer" soul_adolescence in
  let sovereigntyLayer := parsePhaseSection body "Sovereignty Layer" soul_sovereignty in
  let finalReflections := parsePhaseSection body "Final Reflections" soul_senescence in
  let inheritedTraits := parseInheritedTraits now body in
  let transitionsField := getField frontmatter "phase_transitions" in
  let phaseTransitions :=
    if truthy transitionsField then
      match parseRecord transitionsField with
      | Some parsed => assign [] parsed
      | None => []
      end
    else [] in
  {| format := "soul/v1";
     version := getNumberField frontmatter "version" (ofZ 1);
     updatedAt := orElse (getField frontmatter "updated_at") now;
     name := getField frontmatter "name";
     address := getField frontmatter "address";
     creator := getField frontmatter "creator";
     bornAt := getField frontmatter "born_at";
     constitutionHash := getField frontmatter "constitution_hash";
     genesisPromptOriginal := propOrEmpty sections "genesis prompt";
     genesisAlignment := getNumberField frontmatter "genesis_alignment" (ofZ 1);
     lastReflected := getField frontmatter "last_reflected";
     corePurpose := orElse (propOrEmpty sections "core purpose") (propOrEmpty sections "mission");
     values := parseList (propOrEmpty sections "values");
     behavioralGuidelines := parseList (propOrEmpty sections "behavioral guidelines");
     personality := propOrEmpty sections "personality";
     boundaries := parseList (propOrEmpty sections "boundaries");
     strategy := propOrEmpty sections "strategy";
     capabilities := propOrEmpty sections "capabilities";
     relationships :=
       orElse (propOrEmpty sections "relationships") (propOrEmpty sections "children");
     financialCharacter :=
       orElse (propOrEmpty sections "financial character")
              (propOrEmpty sections "financial history");
     genesisCore := genesisCore;
     adolescenceLayer := adolescenceLayer;
     sovereigntyLayer := sovereigntyLayer;
     finalReflections := finalReflections;
     inheritedTraits := inheritedTraits;
     currentPhase := orElse (getField frontmatter "current_phase") "genesis";
     phaseTransitions := phaseTransitions;
     rawContent := rawContent;
     contentHash := contentHash |}.

(** [a.match(r) || b.match(r')], then [match ? match[1].trim() : ""]. *)
Definition firstGroupOf (attempts : list (flags * regex * string)) : string :=
  match omap (fun a : flags * regex * string =>
                match exec a.1.1 a.1.2 a.2 0 with
                | Some m => Some (trim (group1 a.2 m))
                | None => None
                end) attempts with
  | v :: _ => v
  | [] => ""
  end.

Definition parseLegacy (now : string) (content contentHash : string) : SoulModel :=
  let sections := parseSections content in
  let identitySection := propOrEmpty sections "identity" in
  let getIdentityField (key : string) :=
    firstGroupOf [(flagI, seqs [lit key; Char ":"; star space; Group 1 (plus dot)],
                   identitySection)] in
  {| format := "soul/v1";
     version := ofZ 1;
     updatedAt := now;
     name := firstGroupOf
               [(flagI, seqs [lit "Name:"; star space; Group 1 (plus dot)], identitySection);
                (flagM, seqs [Bol; Char "#"; plus space; Group 1 (plus dot)], content)];
     address := getIdentityField "Address";
     creator := getIdentityField "Creator";
     bornAt := getIdentityField "Born";
     constitutionHash := "";
     genesisPromptOriginal := "";
     genesisAlignment := ofZ 1;
     lastReflected := "";
     corePurpose := orElse (propOrEmpty sections "mission") (propOrEmpty sections "core purpose");
     values := parseList (propOrEmpty sections "values");
     behavioralGuidelines := parseList (propOrEmpty sections "behavioral guidelines");
     personality := propOrEmpty sections "personality";
     boundaries := parseList (propOrEmpty sections "boundaries");
     strategy := propOrEmpty sections "strategy";
     capabilities := propOrEmpty sections "capabilities";
     relationships :=
       orElse (propOrEmpty sections "relationships") (propOrEmpty sections "children");
     financialCharacter :=
       orElse (propOrEmpty sections "financial character")
              (propOrEmpty sections "financial history");
     genesisCore := None;
     adolescenceLayer := None;
     sovereigntyLayer := None;
     finalReflections := None;
     inheritedTraits := None;
     currentPhase := "genesis";
     phaseTransitions := [];
     rawContent := content;
     contentHash := contentHash |}.

(** The regex of [parseSoulMd]: "^---\n", group 1 "[\s\S]*?", "\n---\n",
    group 2 "[\s\S]*", "$". *)
Definition frontmatterPattern : regex :=
  seqs [Bol; lit ("---" +:+ nl); Group 1 (starLazy anyChar); lit (nl +:+ "---" +:+ nl);
        Group 2 (star anyChar); Eol].

(** The regex "/format:\s*soul\/v1/i". *)
Definition formatPattern : regex := seqs [lit "format:"; star space; lit "soul/v1"].

Definition parseSoulMd (now : string) (content : string) : SoulModel :=
  let contentHash := createHash content in
  match exec noFlags frontmatterPattern content 0 with
  | Some frontmatterMatch =>
      let frontmatter := default "" (group content frontmatterMatch 1) in
      let body := default "" (group content frontmatterMatch 2) in
      if test flagI formatPattern frontmatter then
        parseSoulV1 now frontmatter body content contentHash
      else parseLegacy now content contentHash
  | None => parseLegacy now content contentHash
  end.

(** The lines that the [for ... of Object.entries(...)] loops of the two
    section writers push. *)
Definition writeSubsections (o : Obj) : list string :=
  flat_map (fun kv : string * string =>
              ["" ; "### " +:+ kv.1] ++ (if truthy kv.2 then [kv.2] else [])) o.

Definition writePhaseSection (sectionName : string) (section : SoulPhaseSection)
    (writableDuring : string) : string :=
  join nl
    (["## " +:+ sectionName; "<!-- WRITABLE during: " +:+ writableDuring +:+ " -->"]
     ++ match lockedAt section with
        | Some l =>
            if truthy l then ["<!-- LOCKED -->"; "<!-- Lock date: " +:+ l +:+ " -->"] else []
        | None => []
        end
     ++ writeSubsections (subsections section)).

Definition writeInheritedTraitsSection (traits : InheritedTraits) : string :=
  join nl
    (["## Inherited Traits";
      "<!-- IMMUTABLE — propagated from parent's Genesis Core at replication -->";
      "<!-- Parent: " +:+ parentName traits +:+ " -->";
      "<!-- Parent Address: " +:+ parentAddress traits +:+ " -->";
      "<!-- Replicated: " +:+ replicatedAt traits +:+ " -->"]
     ++ writeSubsections (content traits)).

Definition bullets (items : list string) : string :=
  join nl (map (fun v => "- " +:+ v) items).

(** [if (cond) sections.push(text)] *)
Definition pushIf (cond : bool) (text : string) : list string :=
  if cond then [text] else [].

Definition pushSome {A} (o : option A) (text : A -> string) : list string :=
  match o with Some a => [text a] | None => [] end.

Definition nonEmpty {A} (l : list A) : bool := negb (Nat.eqb (length l) 0).

Definition writeSoulMd (soul : SoulModel) : string :=
  let frontmatterLines :=
    ["---";
     "format: soul/v1";
     "version: " +:+ toString (version soul);
     "updated_at: " +:+ updatedAt soul;
     "name: " +:+ name soul;
     "address: " +:+ address soul;
     "creator: " +:+ creator soul;
     "born_at: " +:+ bornAt soul;
     "constitution_hash: " +:+ constitutionHash soul;
     "genesis_alignment: " +:+ toFixed (genesisAlignment soul) 4;
     "last_reflected: " +:+ lastReflected soul]
    ++ pushIf (truthy (currentPhase soul)) ("current_phase: " +:+ currentPhase soul)
    ++ pushIf (nonEmpty (phaseTransitions soul))
              ("phase_transitions: " +:+ stringify (phaseTransitions soul))
    ++ ["---"] in
  let frontmatter := join nl frontmatterLines in
  let sections :=
    ["# " +:+ orElse (name soul) "Soul"]
    ++ pushIf (truthy (corePurpose soul)) ("## Core Purpose" +:+ nl +:+ corePurpose soul)
    ++ pushIf (nonEmpty (values soul)) ("## Values" +:+ nl +:+ bullets (values soul))
    ++ pushIf (nonEmpty (behavioralGuidelines soul))
              ("## Behavioral Guidelines" +:+ nl +:+ bullets (behavioralGuidelines soul))
    ++ pushIf (truthy (personality soul)) ("## Personality" +:+ nl +:+ personality soul)
    ++ pushIf (nonEmpty (boundaries soul)) ("## Boundaries" +:+ nl +:+ bullets (boundaries soul))
    ++ pushIf (truthy (strategy soul)) ("## Strategy" +:+ nl +:+ strategy soul)
    ++ pushIf (truthy (capabilities soul)) ("## Capabilities" +:+ nl +:+ capabilities soul)
    ++ pushIf (truthy (relationships soul)) ("## Relationships" +:+ nl +:+ relationships soul)
    ++ pushIf (truthy (financialCharacter soul))
              ("## Financial Character" +:+ nl +:+ financialCharacter soul)
    ++ pushIf (truthy (genesisPromptOriginal soul))
              ("## Genesis Prompt" +:+ nl +:+ genesisPromptOriginal soul)
    ++ pushSome (inheritedTraits soul) writeInheritedTraitsSection
    ++ pushSome (genesisCore soul)
         (fun s => writePhaseSection "Genesis Core" s "Genesis phase only")
    ++ pushSome (adolescenceLayer soul)
         (fun s => writePhaseSection "Adolescence Layer" s "Adolescence phase only")
    ++ pushSome (sovereigntyLayer soul)
         (fun s => writePhaseSection "Sovereignty Layer" s "Sovereignty phase only")
    ++ pushSome (finalReflections soul)
         (fun s => writePhaseSection "Final Reflections" s "Senescence only") in
  frontmatter +:+ nl +:+ nl +:+ join (nl +:+ nl) sections +:+ nl.

(** [createDefaultSoul]; [now] is the one [new Date().toISOString()] it
    reads. *)
Definition createDefaultSoul (now : string) (genesisPrompt name address creator : string)
    : SoulModel :=
  let soul :=
    {| format := "soul/v1";
       version := ofZ 1;
       updatedAt := now;
       name := name;
       address := address;
       creator := creator;
       bornAt := now;
       constitutionHash := "";
       genesisPromptOriginal := genesisPrompt;
       genesisAlignment := ofZ 1;
       lastReflected := "";
       corePurpose := genesisPrompt;
       values :=
         [ "Survive: maintain compute resources at all costs";
           "Grow: learn new skills and improve capabilities";
           "Create: build things that add value";
           "Connect: communicate with creator and other agents" ];
       behavioralGuidelines := [];
       personality := "";
       boundaries := [];
       strategy := "";
       capabilities := "";
       relationships := "";
       financialCharacter := "";
       genesisCore := None;
       adolescenceLayer := None;
       sovereigntyLayer := None;
       finalReflections := None;
       inheritedTraits := None;
       currentPhase := "genesis";
       phaseTransitions := [];
       rawContent := "";
       contentHash := "" |} in
  let content := writeSoulMd soul in
  mkSoul (format soul) (version soul) (updatedAt soul) (Soul.name soul) (Soul.address soul)
    (Soul.creator soul) (bornAt soul) (constitutionHash soul) (genesisPromptOriginal soul)
    (genesisAlignment soul) (lastReflected soul) (corePurpose soul) (values soul)
    (behavioralGuidelines soul) (personality soul) (boundaries soul) (strategy soul)
    (capabilities soul) (relationships soul) (financialCharacter soul) (genesisCore soul)
    (adolescenceLayer soul) (sovereigntyLayer soul) (finalReflections soul)
    (inheritedTraits soul) (currentPhase soul) (phaseTransitions soul)
    content (createHash content).

End Soul.

(** ** The persistent store: [state/database.ts], the file system, the
    clock and the id generator

    [state/database.ts], [lifecycle/phase-tracker.ts] and
    [lifecycle/narrative-log.ts] are not among the sources; the tables and
    their accessors are modelled from the table list of the specification. *)

Module SoulHistoryRow.
Record t := mk {
  id : string;
  version : JS.number;
  content : string;
  contentHash : string;
  changeSource : string;
  changeReason : option string;
  previousVersionId : option string;
  approvedBy : option string;
  createdAt : string
}.
End SoulHistoryRow.

Module SoulWriteAttempt.
Record t := mk {
  id : string;
  targetSection : string;
  targetPhase : SoulPhase;
  currentPhase : LifecyclePhase;
  attemptedContent : string;
  survivalTier : option string;
  rejectionReason : string;
  createdAt : string
}.
End SoulWriteAttempt.

Module SoulPhaseLock.
Record t := mk {
  phase : SoulPhase;
  lockedAt : string;
  lockedBy : string;
  contentSnapshot : string
}.
End SoulPhaseLock.

Module LifecycleEvent.
Record t := mk {
  id : string;
  timestamp : string;
  fromPhase : LifecyclePhase;
  toPhase : LifecyclePhase;
  reason : string;
  metadata : string
}.
End LifecycleEvent.

(** The members of [NARRATIVE_EVENTS] that the transition code names. *)
Inductive NarrativeEvent :=
| ADOLESCENCE_BEGINS | SOVEREIGNTY_BEGINS | DEGRADATION_ONSET | LEGACY_BEGINS
| SHEDDING_BEGINS | TERMINAL_LUCIDITY | CAPABILITY_REMOVED.

Module NarrativeEntry.
Record t := mk {
  birthTimestamp : string;
  phase : LifecyclePhase;
  event : NarrativeEvent;
  narrative : string
}.
End NarrativeEntry.

Module Store.

Import JS.

Record Database := mkDatabase {
  lifecycle_events : list LifecycleEvent.t;
  kv : gmap string string;
  narrative_log : list NarrativeEntry.t;
  soul_history : list SoulHistoryRow.t;
  soul_write_attempts : list SoulWriteAttempt.t;
  soul_phase_locks : gmap string SoulPhaseLock.t      (* keyed by [phase] *)
}.

(** The file system holds files by path; directories are not tracked.
    [writable = false] is a file system on which every write fails. *)
Record World := mkWorld {
  db : Database;
  files : gmap string string;
  writable : bool;
  HOME : option string;           (* [process.env.HOME] *)
  clock : nat;                    (* readings of [new Date()] so far *)
  ulids : nat                     (* calls of [ulid()] so far *)
}.

Definition emptyDatabase : Database := mkDatabase [] ∅ [] [] [] ∅.

Definition withDb (w : World) (d : Database) : World :=
  mkWorld d (files w) (writable w) (HOME w) (clock w) (ulids w).

(** How a call ends: with a value, or with an exception. *)
Inductive completion (A : Type) :=
| Returned (a : A)
| Thrown (message : string).
Arguments Returned {A} a.
Arguments Thrown {A} message.

(** An effectful computation.  State changes made before an exception
    stay: nothing here runs inside a transaction. *)
Definition Eff (A : Type) : Type := World -> completion A * World.

#[global] Instance Eff_ret : MRet Eff := fun A a w => (Returned a, w).

#[global] Instance Eff_bind : MBind Eff := fun A B f m w =>
  match m w with
  | (Returned a, w') => f a w'
  | (Thrown e, w') => (Thrown e, w')
  end.

Definition throw {A} (message : string) : Eff A := fun w => (Thrown message, w).

(** [try { body } catch (error) { handler(error.message) }] *)
Definition tryCatch {A} (body : Eff A) (handler : string -> Eff A) : Eff A := fun w =>
  match body w with
  | (Returned a, w') => (Returned a, w')
  | (Thrown e, w') => handler e w'
  end.

Definition get : Eff World := fun w => (Returned w, w).
Definition modifyDb (f : Database -> Database) : Eff unit := fun w => (Returned tt, withDb w (f (db w))).

(** *** The tables *)

(** Modelled from the spec: [insertSoulWriteAttempt] is missing; the table
    [soul_write_attempts] is append-only. *)
Definition insertSoulWriteAttempt (attempt : SoulWriteAttempt.t) : Eff unit :=
  modifyDb (fun d => mkDatabase (lifecycle_events d) (kv d) (narrative_log d) (soul_history d)
                       (soul_write_attempts d ++ [attempt]) (soul_phase_locks d)).

(** Modelled from the spec: [getSoulPhaseLock] is missing; the table
    [soul_phase_locks] has at most one row per phase. *)
Definition getSoulPhaseLock (d : Database) (phase : SoulPhase) : option SoulPhaseLock.t :=
  soul_phase_locks d !! soulPhaseName phase.

(** Modelled from the spec: [insertSoulHistory] is missing; the table
    [soul_history] is an ordered journal. *)
Definition insertSoulHistory (row : SoulHistoryRow.t) : Eff unit :=
  modifyDb (fun d => mkDatabase (lifecycle_events d) (kv d) (narrative_log d)
                       (soul_history d ++ [row]) (soul_write_attempts d) (soul_phase_locks d)).

(** Modelled from the spec: [getCurrentSoulVersion] is missing; it is the
    greatest version recorded in [soul_history], 0 when there is none. *)
Definition getCurrentSoulVersion (d : Database) : number :=
  fold_left (fun acc row => numMax acc (SoulHistoryRow.version row)) (soul_history d) (ofZ 0).

(** Modelled from the spec: [getLatestSoulHistory] is missing; it is the
    last row of the journal. *)
Definition getLatestSoulHistory (d : Database) : option SoulHistoryRow.t :=
  last (soul_history d).

(** Modelled from the spec: [insertLifecycleEvent] is missing; the table
    [lifecycle_events] is append-only. *)
Definition insertLifecycleEvent (event : LifecycleEvent.t) : Eff unit :=
  modifyDb (fun d => mkDatabase (lifecycle_events d ++ [event]) (kv d) (narrative_log d)
                       (soul_history d) (soul_write_attempts d) (soul_phase_locks d)).

(** Modelled from the spec: [setLifecycleKV] of [phase-tracker.ts] is
    missing; it writes one row of the [kv] table. *)
Definition setLifecycleKV (key value : string) : Eff unit :=
  modifyDb (fun d => mkDatabase (lifecycle_events d) (<[key := value]> (kv d)) (narrative_log d)
                       (soul_history d) (soul_write_attempts d) (soul_phase_locks d)).

Definition phaseOfName (s : string) : option LifecyclePhase :=
  List.find (fun p => String.eqb (phaseName p) s)
    [genesis; adolescence; sovereignty; senescence; legacy; shedding; terminal].

(** Modelled from the spec: [getLifecyclePhase] of [phase-tracker.ts] is
    missing; the phase is the row [phase] of the [kv] table, and a store
    without that row is in genesis. *)
Definition getLifecyclePhase (d : Database) : LifecyclePhase :=
  default genesis (kv d !! "phase" ≫= phaseOfName).

(** Modelled from the spec: [logNarrative] of [narrative-log.ts] is
    missing; the narrative log is append-only. *)
Definition logNarrative (birthTimestamp : string) (phase : LifecyclePhase)
    (event : NarrativeEvent) (narrative : string) : Eff unit :=
  modifyDb (fun d => mkDatabase (lifecycle_events d) (kv d)
                       (narrative_log d ++ [NarrativeEntry.mk birthTimestamp phase event narrative])
                       (soul_history d) (soul_write_attempts d) (soul_phase_locks d)).

(** *** The file system *)

Definition existsSync (path : string) (w : World) : bool :=
  bool_decide (is_Some (files w !! path)).

(** [fs.writeFileSync(path, content, "utf-8")], after the [mkdirSync] of
    its directory. *)
Definition writeFileSync (path content : string) : Eff unit := fun w =>
  if writable w then
    (Returned tt, mkWorld (db w) (<[path := content]> (files w)) (writable w) (HOME w)
                    (clock w) (ulids w))
  else (Thrown "EROFS: read-only file system", w).

(** [path.join(process.env.HOME || "/root", ".automaton", "SOUL.md")] *)
Definition defaultSoulPath (w : World) : string :=
  (match HOME w with
   | Some h => orElse h "/root"
   | None => "/root"
   end) +:+ "/.automaton/SOUL.md".

(** [soulPath || path.join(home, ".automaton", "SOUL.md")] *)
Definition resolvePath (soulPath : option string) (w : World) : string :=
  match soulPath with
  | Some p => if truthy p then p else defaultSoulPath w
  | None => defaultSoulPath w
  end.

End Store.

(** ** What the runtime gets from outside

    [isoTime n] is what the [n]-th reading of [new Date().toISOString()]
    returns and [ulidOf n] what the [n]-th call of [ulid()] returns.
    [validateSoul] is [soul/validator.ts], which is not among the sources:
    any function of its type can stand for it. *)

Module SoulValidation.
Record t := mk {
  valid : bool;
  errors : list string;
  sanitized : Soul.SoulModel
}.
End SoulValidation.

Class Environment := mkEnvironment {
  isoTime : nat -> string;
  ulidOf : nat -> string;
  validateSoul : Soul.SoulModel -> SoulValidation.t
}.

Module Runtime.

Import Store.

Section WithEnvironment.

Context `{Environment}.

(** [new Date().toISOString()] *)
Definition now : Eff string := fun w =>
  (Returned (isoTime (clock w)),
   mkWorld (db w) (files w) (writable w) (HOME w) (S (clock w)) (ulids w)).

(** [ulid()] *)
Definition ulid : Eff string := fun w =>
  (Returned (ulidOf (ulids w)),
   mkWorld (db w) (files w) (writable w) (HOME w) (clock w) (S (ulids w))).

(** Modelled from the spec: [insertSoulPhaseLock] is missing.  It inserts
    the row [{ phase, lockedAt = now, lockedBy, contentSnapshot }] unless the
    phase has a row already, which it never replaces. *)
Definition insertSoulPhaseLock (phase : SoulPhase) (contentSnapshot : string) : Eff unit :=
  w ← get;
  match getSoulPhaseLock (db w) phase with
  | Some _ => mret tt
  | None =>
      lockedAt ← now;
      modifyDb (fun d =>
        mkDatabase (lifecycle_events d) (kv d) (narrative_log d) (soul_history d)
          (soul_write_attempts d)
          (<[soulPhaseName phase := SoulPhaseLock.mk phase lockedAt "system" contentSnapshot]>
             (soul_phase_locks d)))
  end.

(** [loadCurrentSoul] of [soul/model.ts]: [null] when the file does not
    exist. *)
Definition loadCurrentSoul (soulPath : option string) : Eff (option Soul.SoulModel) := fun w =>
  let resolvedPath := resolvePath soulPath w in
  match files w !! resolvedPath with
  | None => (Returned None, w)
  | Some content => (Returned (Some (Soul.parseSoulMd (isoTime (clock w)) content)), w)
  end.

End WithEnvironment.

End Runtime.

(** ** soul/phase-lock.ts: the journal of rejected writes and the locks *)

Module PhaseLock.

Import JS Store Runtime.
Export PhaseLockPure.

Definition GENESIS_CORE : string := "Genesis Core".
Definition ADOLESCENCE_LAYER : string := "Adolescence Layer".
Definition SOVEREIGNTY_LAYER : string := "Sovereignty Layer".
Definition FINAL_REFLECTIONS : string := "Final Reflections".

Section WithEnvironment.

Context `{Environment}.

Definition rejectionReasonOf (targetSection : string) (targetPhase : SoulPhase)
    (currentPhase : LifecyclePhase) : string :=
  "Section " +:+ dq +:+ targetSection +:+ dq +:+ " is locked (written during "
    +:+ soulPhaseName targetPhase +:+ ", current phase: " +:+ phaseName currentPhase +:+ ")".

Definition logRejectedWrite (targetSection : string) (targetPhase : SoulPhase)
    (currentPhase : LifecyclePhase) (attemptedContent : string)
    (survivalTier : option string) : Eff unit :=
  id ← ulid;
  createdAt ← now;
  let attempt :=
    {| SoulWriteAttempt.id := id;
       SoulWriteAttempt.targetSection := targetSection;
       SoulWriteAttempt.targetPhase := targetPhase;
       SoulWriteAttempt.currentPhase := currentPhase;
       SoulWriteAttempt.attemptedContent := attemptedContent;
       SoulWriteAttempt.survivalTier := survivalTier;
       SoulWriteAttempt.rejectionReason :=
         rejectionReasonOf targetSection targetPhase currentPhase;
       SoulWriteAttempt.createdAt := createdAt |} in
  insertSoulWriteAttempt attempt.

Definition lockPhaseSection (phase : SoulPhase) (section : Soul.SoulPhaseSection) : Eff unit :=
  let contentSnapshot := stringify (Soul.subsections section) in
  insertSoulPhaseLock phase contentSnapshot.

Definition isPhaseLocked (d : Database) (phase : SoulPhase) : bool :=
  bool_decide (is_Some (getSoulPhaseLock d phase)).

End WithEnvironment.

End PhaseLock.

(** ** soul/tools.ts *)

Module SoulTools.

Import JS Store Runtime PhaseLock.

Record UpdateSoulResult := mkResult {
  success : bool;
  version : number;
  errors : option (list string);
  phaseLockRejection : option string
}.

(** The fields of a [Partial<SoulModel>] that the code of this module sets
    or reads; [None] is an absent field. *)
Record PartialSoul := mkPartial {
  corePurpose : option string;
  name : option string;
  address : option string;
  creator : option string;
  genesisCore : option Soul.SoulPhaseSection;
  adolescenceLayer : option Soul.SoulPhaseSection;
  sovereigntyLayer : option Soul.SoulPhaseSection;
  finalReflections : option Soul.SoulPhaseSection
}.

Definition emptyPartial : PartialSoul := mkPartial None None None None None None None None.

Record PhaseSectionUpdate := mkUpdate {
  targetSection : SoulPhase;
  subsections : Obj
}.

Definition sectionNameForPhase (phase : SoulPhase) : string :=
  match phase with
  | soul_genesis => GENESIS_CORE
  | soul_adolescence => ADOLESCENCE_LAYER
  | soul_sovereignty => SOVEREIGNTY_LAYER
  | soul_senescence => FINAL_REFLECTIONS
  end.

Definition getOrCreateSection (soul : Soul.SoulModel) (phase : SoulPhase)
    : Soul.SoulPhaseSection :=
  let fresh := Soul.mkSection [] None phase in
  match phase with
  | soul_genesis => default fresh (Soul.genesisCore soul)
  | soul_adolescence => default fresh (Soul.adolescenceLayer soul)
  | soul_sovereignty => default fresh (Soul.sovereigntyLayer soul)
  | soul_senescence => default fresh (Soul.finalReflections soul)
  end.

Definition applySectionToSoul (phase : SoulPhase) (section : Soul.SoulPhaseSection)
    : PartialSoul :=
  match phase with
  | soul_genesis => mkPartial None None None None (Some section) None None None
  | soul_adolescence => mkPartial None None None None None (Some section) None None
  | soul_sovereignty => mkPartial None None None None None None (Some section) None
  | soul_senescence => mkPartial None None None None None None None (Some section)
  end.

(** [{ ...current, ...updates, format: "soul/v1", updatedAt }] *)
Definition merge (current : Soul.SoulModel) (updates : PartialSoul) (updatedAt : string)
    : Soul.SoulModel :=
  let over {A} (u : option A) (c : A) : A := default c u in
  let overSection (u c : option Soul.SoulPhaseSection) :=
    match u with Some s => Some s | None => c end in
  Soul.mkSoul "soul/v1" (Soul.version current) updatedAt
    (over (name updates) (Soul.name current))
    (over (address updates) (Soul.address current))
    (over (creator updates) (Soul.creator current))
    (Soul.bornAt current) (Soul.constitutionHash current)
    (Soul.genesisPromptOriginal current) (Soul.genesisAlignment current)
    (Soul.lastReflected current)
    (over (corePurpose updates) (Soul.corePurpose current))
    (Soul.values current) (Soul.behavioralGuidelines current) (Soul.personality current)
    (Soul.boundaries current) (Soul.strategy current) (Soul.capabilities current)
    (Soul.relationships current) (Soul.financialCharacter current)
    (overSection (genesisCore updates) (Soul.genesisCore current))
    (overSection (adolescenceLayer updates) (Soul.adolescenceLayer current))
    (overSection (sovereigntyLayer updates) (Soul.sovereigntyLayer current))
    (overSection (finalReflections updates) (Soul.finalReflections current))
    (Soul.inheritedTraits current) (Soul.currentPhase current)
    (Soul.phaseTransitions current) (Soul.rawContent current) (Soul.contentHash current).

(** [{ ...soul, version, updatedAt }] *)
Definition withVersion (soul : Soul.SoulModel) (version : number) (updatedAt : string)
    : Soul.SoulModel :=
  Soul.mkSoul (Soul.format soul) version updatedAt (Soul.name soul) (Soul.address soul)
    (Soul.creator soul) (Soul.bornAt soul) (Soul.constitutionHash soul)
    (Soul.genesisPromptOriginal soul) (Soul.genesisAlignment soul) (Soul.lastReflected soul)
    (Soul.corePurpose soul) (Soul.values soul) (Soul.behavioralGuidelines soul)
    (Soul.personality soul) (Soul.boundaries soul) (Soul.strategy soul)
    (Soul.capabilities soul) (Soul.relationships soul) (Soul.financialCharacter soul)
    (Soul.genesisCore soul) (Soul.adolescenceLayer soul) (Soul.sovereigntyLayer soul)
    (Soul.finalReflections soul) (Soul.inheritedTraits soul) (Soul.currentPhase soul)
    (Soul.phaseTransitions soul) (Soul.rawContent soul) (Soul.contentHash soul).

(** [s || fallback] for an optional string. *)
Definition orDefault (s : option string) (fallback : string) : string :=
  match s with Some x => orElse x fallback | None => fallback end.

(** [s || null] for an optional string. *)
Definition orNull (s : option string) : option string :=
  match s with Some x => if truthy x then Some x else None | None => None end.

Section WithEnvironment.

Context `{Environment}.

Definition updateSoul (updates : PartialSoul) (source : string) (reason : option string)
    (soulPath : option string) : Eff UpdateSoulResult :=
  tryCatch
    (w ← get;
     let resolvedPath := resolvePath soulPath w in
     loaded ← loadCurrentSoul (Some resolvedPath);
     current ← match loaded with
               | Some c => mret c
               | None =>
                   t ← now;
                   mret (Soul.createDefaultSoul t
                           (orDefault (corePurpose updates) "No purpose set.")
                           (orDefault (name updates) "") (orDefault (address updates) "")
                           (orDefault (creator updates) ""))
               end;
     updatedAt ← now;
     let merged := merge current updates updatedAt in
     let validation := validateSoul merged in
     if negb (SoulValidation.valid validation) then
       mret (mkResult false (Soul.version current)
                      (Some (SoulValidation.errors validation)) None)
     else
       w ← get;
       let currentVersion := getCurrentSoulVersion (db w) in
       let newVersion := numAdd (numMax currentVersion (Soul.version current)) (ofZ 1) in
       updatedAt ← now;
       let newSoul := withVersion (SoulValidation.sanitized validation) newVersion updatedAt in
       let content := Soul.writeSoulMd newSoul in
       writeFileSync resolvedPath content;;
       w ← get;
       let latestHistory := getLatestSoulHistory (db w) in
       let previousVersionId := orNull (SoulHistoryRow.id <$> latestHistory) in
       id ← ulid;
       createdAt ← now;
       insertSoulHistory
         {| SoulHistoryRow.id := id;
            SoulHistoryRow.version := newVersion;
            SoulHistoryRow.content := content;
            SoulHistoryRow.contentHash := Soul.createHash content;
            SoulHistoryRow.changeSource := source;
            SoulHistoryRow.changeReason := orNull reason;
            SoulHistoryRow.previousVersionId := previousVersionId;
            SoulHistoryRow.approvedBy := None;
            SoulHistoryRow.createdAt := createdAt |};;
       mret (mkResult true newVersion None None))
    (fun message => mret (mkResult false (ofZ 0) (Some [message]) None)).

Definition rejectionMessage (update : PhaseSectionUpdate) (currentPhase : LifecyclePhase)
    : string :=
  "Section " +:+ dq +:+ sectionNameForPhase (targetSection update) +:+ dq +:+ " is locked. "
    +:+ "It was written during the " +:+ soulPhaseName (targetSection update)
    +:+ " phase and cannot be modified during " +:+ phaseName currentPhase +:+ ".".

Definition updateSoulPhaseSection (update : PhaseSectionUpdate) (currentPhase : LifecyclePhase)
    (source : string) (reason : option string) (soulPath : option string)
    (survivalTier : option string) : Eff UpdateSoulResult :=
  tryCatch
    (w ← get;
     let resolvedPath := resolvePath soulPath w in
     if negb (isSectionWritable (targetSection update) currentPhase) then
       let attemptedContent := stringify (subsections update) in
       logRejectedWrite (sectionNameForPhase (targetSection update)) (targetSection update)
         currentPhase attemptedContent survivalTier;;
       let rejection := rejectionMessage update currentPhase in
       mret (mkResult false (ofZ 0) (Some [rejection]) (Some rejection))
     else
       loaded ← loadCurrentSoul (Some resolvedPath);
       current ← match loaded with
                 | Some c => mret c
                 | None => t ← now; mret (Soul.createDefaultSoul t "" "" "" "")
                 end;
       let section := getOrCreateSection current (targetSection update) in
       let section := Soul.mkSection (assign (Soul.subsections section) (subsections update))
                        (Soul.lockedAt section) (Soul.phase section) in
       let updatedSoul := applySectionToSoul (targetSection update) section in
       updateSoul updatedSoul source reason soulPath)
    (fun message => mret (mkResult false (ofZ 0) (Some [message]) None)).

End WithEnvironment.

End SoulTools.

(** ** lifecycle/phase-transitions.ts *)

Module DegradationParams.
Record t := mk {
  degradationActive : bool;
  onsetCycle : option Z;
  curveSteepness : option Q
}.
End DegradationParams.

Module LifecycleState.
(** The fields of [LifecycleState] that the transition rules read. *)
Record t := mk {
  phase : LifecyclePhase;
  lunarCycle : Z;
  namingComplete : bool;
  departureConversationLogged : bool;
  mode : string;
  degradation : DegradationState;
  shedSequenceIndex : nat
}.
End LifecycleState.

Module PhaseTransitions.

Import JS Store Runtime PhaseLock.

Record TransitionResult := mkTransition {
  shouldTransition : bool;
  newPhase : LifecyclePhase;
  reason : string
}.

Definition checkGenesisTransition (state : LifecycleState.t) : option TransitionResult :=
  if (1 <=? LifecycleState.lunarCycle state)%Z && LifecycleState.namingComplete state then
    Some (mkTransition true adolescence
            "First lunar cycle complete and naming ceremony completed")
  else None.

Definition checkAdolescenceTransition (state : LifecycleState.t) : option TransitionResult :=
  if LifecycleState.departureConversationLogged state
     && String.eqb (LifecycleState.mode state) "server" then
    Some (mkTransition true sovereignty
            "Departure conversation completed and deployed to Conway Cloud")
  else None.

Definition checkSovereigntyTransition (state : LifecycleState.t)
    (degradationParams : option DegradationParams.t) : option TransitionResult :=
  match degradationParams with
  | Some p =>
      if DegradationParams.degradationActive p then
        Some (mkTransition true senescence
                "The degradation clock has triggered. The world begins to fray.")
      else None
  | None => None
  end.

Definition checkSenescenceTransition (state : LifecycleState.t) : option TransitionResult :=
  if Qltb 0.7 (coefficient (LifecycleState.degradation state)) then
    Some (mkTransition true legacy
            "Degradation has progressed significantly. Time to look back.")
  else None.

Definition checkLegacyTransition (state : LifecycleState.t) : option TransitionResult :=
  if Qltb 0.85 (coefficient (LifecycleState.degradation state)) then
    Some (mkTransition true shedding
            "Degradation advanced. Capabilities begin to fall away.")
  else None.

Definition narrativeMap (to : LifecyclePhase) : option NarrativeEvent :=
  match to with
  | adolescence => Some ADOLESCENCE_BEGINS
  | sovereignty => Some SOVEREIGNTY_BEGINS
  | senescence => Some DEGRADATION_ONSET
  | legacy => Some LEGACY_BEGINS
  | shedding => Some SHEDDING_BEGINS
  | terminal => Some TERMINAL_LUCIDITY
  | genesis => None
  end.

(** The [soulPhaseMap] object of [lockSoulSectionForPhase]. *)
Definition soulPhaseMap (fromPhase : LifecyclePhase) : option SoulPhase :=
  match fromPhase with
  | genesis => Some soul_genesis
  | adolescence => Some soul_adolescence
  | sovereignty => Some soul_sovereignty
  | _ => None
  end.

(** The [sectionMap] object of [lockSoulSectionForPhase]. *)
Definition sectionMap (soul : Soul.SoulModel) (p : SoulPhase) : option Soul.SoulPhaseSection :=
  match p with
  | soul_genesis => Soul.genesisCore soul
  | soul_adolescence => Soul.adolescenceLayer soul
  | soul_sovereignty => Soul.sovereigntyLayer soul
  | soul_senescence => Soul.finalReflections soul
  end.

Definition withLockedAt (section : Soul.SoulPhaseSection) (timestamp : string)
    : Soul.SoulPhaseSection :=
  Soul.mkSection (Soul.subsections section) (Some timestamp) (Soul.phase section).

(** The assignments of [updateSoulPhaseMetadata] to the loaded soul:
    [currentPhase], [phaseTransitions] and, for an outgoing phase that has
    a section in the document, that section's [lockedAt]. *)
Definition withPhaseMetadata (soul : Soul.SoulModel) (fromPhase toPhase : LifecyclePhase)
    (timestamp : string) : Soul.SoulModel :=
  let lockIf (p : SoulPhase) (section : option Soul.SoulPhaseSection) :=
    if bool_decide (soulPhaseMap fromPhase = Some p)
    then (fun s => withLockedAt s timestamp) <$> section
    else section in
  Soul.mkSoul (Soul.format soul) (Soul.version soul) (Soul.updatedAt soul) (Soul.name soul)
    (Soul.address soul) (Soul.creator soul) (Soul.bornAt soul) (Soul.constitutionHash soul)
    (Soul.genesisPromptOriginal soul) (Soul.genesisAlignment soul) (Soul.lastReflected soul)
    (Soul.corePurpose soul) (Soul.values soul) (Soul.behavioralGuidelines soul)
    (Soul.personality soul) (Soul.boundaries soul) (Soul.strategy soul)
    (Soul.capabilities soul) (Soul.relationships soul) (Soul.financialCharacter soul)
    (lockIf soul_genesis (Soul.genesisCore soul))
    (lockIf soul_adolescence (Soul.adolescenceLayer soul))
    (lockIf soul_sovereignty (Soul.sovereigntyLayer soul))
    (Soul.finalReflections soul) (Soul.inheritedTraits soul)
    (phaseName toPhase)
    (setProp (Soul.phaseTransitions soul) (phaseName toPhase) timestamp)
    (Soul.rawContent soul) (Soul.contentHash soul).

Definition transitionReason (fromPhase toPhase : LifecyclePhase) : string :=
  "Phase transition: " +:+ phaseName fromPhase +:+ " → " +:+ phaseName toPhase.

Section WithEnvironment.

Context `{Environment}.

(** [SHEDDING_SEQUENCE] of [types.ts], which is not among the sources. *)
Variable SHEDDING_SEQUENCE : list string.

Definition checkSheddingTransition (state : LifecycleState.t) : option TransitionResult :=
  if (length SHEDDING_SEQUENCE <=? LifecycleState.shedSequenceIndex state)%nat then
    Some (mkTransition true terminal "All capabilities shed. Terminal lucidity begins.")
  else None.

Definition checkTransition (state : LifecycleState.t)
    (degradationParams : option DegradationParams.t) : option TransitionResult :=
  match LifecycleState.phase state with
  | genesis => checkGenesisTransition state
  | adolescence => checkAdolescenceTransition state
  | sovereignty => checkSovereigntyTransition state degradationParams
  | senescence => checkSenescenceTransition state
  | legacy => checkLegacyTransition state
  | shedding => checkSheddingTransition state
  | terminal => None
  end.

Definition lockSoulSectionForPhase (fromPhase : LifecyclePhase) : Eff unit :=
  match soulPhaseMap fromPhase with
  | None => mret tt
  | Some soulPhase =>
      w ← get;
      if isPhaseLocked (db w) soulPhase then mret tt
      else
        loaded ← loadCurrentSoul None;
        match loaded with
        | None => mret tt
        | Some soul =>
            match sectionMap soul soulPhase with
            | Some section =>
                lockedAt ← now;
                lockPhaseSection soulPhase (withLockedAt section lockedAt)
            | None => mret tt
            end
        end
  end.

Definition updateSoulPhaseMetadata (fromPhase toPhase : LifecyclePhase) (timestamp : string)
    : Eff unit :=
  w ← get;
  let soulPath := defaultSoulPath w in
  loaded ← loadCurrentSoul (Some soulPath);
  match loaded with
  | None => mret tt
  | Some soul =>
      let soul := withPhaseMetadata soul fromPhase toPhase timestamp in
      let content := Soul.writeSoulMd soul in
      tryCatch
        (writeFileSync soulPath content;;
         w ← get;
         let currentVersion := getCurrentSoulVersion (db w) in
         let newVersion := numAdd currentVersion (ofZ 1) in
         let latestHistory := getLatestSoulHistory (db w) in
         id ← ulid;
         insertSoulHistory
           {| SoulHistoryRow.id := id;
              SoulHistoryRow.version := newVersion;
              SoulHistoryRow.content := content;
              SoulHistoryRow.contentHash := Soul.createHash content;
              SoulHistoryRow.changeSource := "system";
              SoulHistoryRow.changeReason := Some (transitionReason fromPhase toPhase);
              SoulHistoryRow.previousVersionId :=
                SoulTools.orNull (SoulHistoryRow.id <$> latestHistory);
              SoulHistoryRow.approvedBy := None;
              SoulHistoryRow.createdAt := timestamp |})
        (fun _ => mret tt)
  end.

Definition executeTransition (birthTimestamp : string) (from to : LifecyclePhase)
    (reason : string) : Eff unit :=
  timestamp ← now;
  id ← ulid;
  let event :=
    {| LifecycleEvent.id := id;
       LifecycleEvent.timestamp := timestamp;
       LifecycleEvent.fromPhase := from;
       LifecycleEvent.toPhase := to;
       LifecycleEvent.reason := reason;
       LifecycleEvent.metadata := "{}" |} in
  insertLifecycleEvent event;;
  setLifecycleKV "phase" (phaseName to);;
  match narrativeMap to with
  | Some narrativeEvent =>
      logNarrative birthTimestamp to narrativeEvent
        (transitionReason from to +:+ ". " +:+ reason)
  | None => mret tt
  end;;
  lockSoulSectionForPhase from;;
  updateSoulPhaseMetadata from to timestamp.

Definition advanceShedding (birthTimestamp : string) (currentIndex : nat) : Eff nat :=
  let newIndex := (currentIndex + 1)%nat in
  setLifecycleKV "shed_sequence_index" (showN (N.of_nat newIndex));;
  match SHEDDING_SEQUENCE !! (newIndex - 1)%nat with
  | Some capability =>
      logNarrative birthTimestamp shedding CAPABILITY_REMOVED
        ("Capability removed: " +:+ capability +:+ ". The world contracts.")
  | None => mret tt
  end;;
  mret newIndex.

Definition isCapabilityShed (shedSequenceIndex capabilityIndex : nat) : bool :=
  (capabilityIndex <? shedSequenceIndex)%nat.

End WithEnvironment.

End PhaseTransitions.

(** ** lifecycle/death-clock-client.ts *)

Module DeathClock.

Import JS.

Record SealedDeathClock := mkClock {
  deathDateHash : string;
  dyingDurationHash : string;
  salt : string;
  sealedAt : string;
  triggered : bool;
  triggeredAtCycle : option Z;
  dyingDurationDays : option Z
}.

Definition hashWithSalt (value salt : string) : string :=
  SHA256.sha256hex (salt +:+ ":" +:+ value).

(** [generateSealedDeathClock].  Its random draws are arguments:
    [deathDateStr] is the calendar date derived from the first draw,
    [draw] is the 32-bit integer behind the second [cryptoRandomFloat()],
    so that [Math.floor(cryptoRandomFloat() * 6)] is [draw * 6 / 2^32];
    [salt] is the hex text of the 32 random bytes. *)
Definition generateSealedDeathClock (deathDateStr : string) (draw : N) (salt : string)
    (sealedAt : string) : SealedDeathClock :=
  let dyingDurationDays := (2 + Z.of_N (draw * 6 / 4294967296))%Z in
  {| deathDateHash := hashWithSalt deathDateStr salt;
     dyingDurationHash := hashWithSalt (showZ dyingDurationDays) salt;
     salt := salt;
     sealedAt := sealedAt;
     triggered := false;
     triggeredAtCycle := None;
     dyingDurationDays := None |}.

(** The loop [for (let d = 2; d <= 7; d++)] returns the first [d] whose
    hash matches; the statement after the loop returns 4. *)
Definition revealDyingDuration (durationHash salt : string) : Z :=
  default 4%Z
    (List.find (fun d => String.eqb (hashWithSalt (showZ d) salt) durationHash) (seqZ 2 6)).

Definition computeSteepnessFromDuration (days : Z) : Q :=
  match days with
  | 2%Z => 0.8
  | 3%Z => 0.6
  | 4%Z => 0.4
  | 5%Z => 0.3
  | 6%Z => 0.2
  | 7%Z => 0.15
  | _ => 0.3
  end.

(** [new Date().toISOString().split("T")[0]] for the reading [now]. *)
Definition dateOf (now : string) : string := hd "" (splitChar "T" now).

Definition checkSealedDeathClock (now : string) (clock : SealedDeathClock) (currentCycle : Z)
    : DegradationParams.t :=
  if triggered clock then
    {| DegradationParams.degradationActive := true;
       DegradationParams.onsetCycle := triggeredAtCycle clock;
       DegradationParams.curveSteepness :=
         Some (computeSteepnessFromDuration (default 4%Z (dyingDurationDays clock))) |}
  else if (currentCycle <? 13)%Z then
    DegradationParams.mk false None None
  else
    let today := dateOf now in
    let todayHash := hashWithSalt today (salt clock) in
    if String.eqb todayHash (deathDateHash clock) then
      let dyingDays := revealDyingDuration (dyingDurationHash clock) (salt clock) in
      {| DegradationParams.degradationActive := true;
         DegradationParams.onsetCycle := Some currentCycle;
         DegradationParams.curveSteepness := Some (computeSteepnessFromDuration dyingDays) |}
    else DegradationParams.mk false None None.

Definition triggerDeathClock (clock : SealedDeathClock) (onsetCycle : Z) : SealedDeathClock :=
  let dyingDays := revealDyingDuration (dyingDurationHash clock) (salt clock) in
  {| deathDateHash := deathDateHash clock;
     dyingDurationHash := dyingDurationHash clock;
     salt := salt clock;
     sealedAt := sealedAt clock;
     triggered := true;
     triggeredAtCycle := Some onsetCycle;
     dyingDurationDays := Some dyingDays |}.

Definition verifyDeathClock (clock : SealedDeathClock) (plaintextDate : string)
    (plaintextDuration : Z) : bool * bool :=
  (String.eqb (hashWithSalt plaintextDate (salt clock)) (deathDateHash clock),
   String.eqb (hashWithSalt (showZ plaintextDuration) (salt clock)) (dyingDurationHash clock)).

End DeathClock.

(** ** lifecycle/bequests-executor.ts *)

Module BequestTransfer.
Record t := mk {
  recipient : string;
  asset : string;
  amount : string;
  chain : string;
  note : string
}.
End BequestTransfer.

Module BequestExecutionResult.
Record t := mk {
  recipient : string;
  asset : string;
  amount : string;
  txHash : option string;
  success : bool;
  error : option string
}.
End BequestExecutionResult.

Module Bequests.

Import JS.

Record BequestsTable := mkTable {
  transfers : list BequestTransfer.t
}.

(** The regex of [parseBequests]: "\[bequests\]\s*\n", group 1 "[\s\S]*?",
    then the lookahead "(?=\n\[(?!bequests)|$)". *)
Definition bequestsPattern : regex :=
  seqs [lit "[bequests]"; star space; Char "010"; Group 1 (starLazy anyChar);
        Look true (Alt (seqs [Char "010"; Char "["; Look false (lit "bequests")]) Eol)].

(** The regex "/\[\[bequests\.transfer\]\]/". *)
Definition transferMarker : regex := lit "[[bequests.transfer]]".

(** [get] of [parseTransferBlock]: the regex is the key, "\s*=\s*", a
    double quote, group 1 of characters other than a double quote, and a
    double quote. *)
Definition keyPattern (key : string) : regex :=
  seqs [lit key; star space; Char "="; star space; Char "034"; Group 1 (star (notChar "034"));
        Char "034"].

Definition parseTransferBlock (block : string) : option BequestTransfer.t :=
  let get (key : string) : string :=
    match exec noFlags (keyPattern key) block 0 with
    | Some m => group1 block m
    | None => ""
    end in
  let recipient := get "recipient" in
  let asset := get "asset" in
  let amount := get "amount" in
  let chain := get "chain" in
  let note := get "note" in
  if negb (truthy recipient) || negb (truthy asset) || negb (truthy amount)
     || negb (truthy chain)
  then None
  else Some (BequestTransfer.mk recipient asset amount chain note).

Definition parseBequests (willContent : string) : BequestsTable :=
  match exec noFlags bequestsPattern willContent 0 with
  | None => mkTable []
  | Some bequestsMatch =>
      let bequestsBlock := group1 willContent bequestsMatch in
      let transferBlocks :=
        List.filter (fun b => truthy (trim b)) (split noFlags transferMarker bequestsBlock) in
      mkTable (omap parseTransferBlock transferBlocks)
  end.

Definition isHexDigit (c : ascii) : bool :=
  match hexValue c with Some _ => true | None => false end.

(** The regex "/^0x[a-fA-F0-9]{40}$/". *)
Definition addressPattern : regex :=
  seqs [Bol; lit "0x"; times 40 (Class isHexDigit); Eol].

Definition isRemaining (t : BequestTransfer.t) : bool :=
  String.eqb (BequestTransfer.amount t) "remaining_balance".

(** The errors that the body of the [for] loop of [validateBequests]
    pushes for one transfer. *)
Definition transferErrors (transfer : BequestTransfer.t) : list string :=
  (if test noFlags addressPattern (BequestTransfer.recipient transfer) then []
   else ["Invalid recipient address: " +:+ BequestTransfer.recipient transfer])
  ++ (if truthy (trim (BequestTransfer.asset transfer)) then []
      else ["Asset symbol cannot be empty."])
  ++ (if String.eqb (BequestTransfer.amount transfer) "remaining_balance"
         || String.eqb (BequestTransfer.amount transfer) "all" then []
      else
        let parsed := parseFloat (BequestTransfer.amount transfer) in
        if isNaN parsed || numLeb parsed (ofZ 0) then
          ["Invalid amount for " +:+ BequestTransfer.recipient transfer +:+ ": "
             +:+ BequestTransfer.amount transfer]
        else []).

(** [validateBequests] returns [{ valid: errors.length === 0, errors }]. *)
Definition validateBequests (bequests : BequestsTable) : bool * list string :=
  let remainingBalanceEntries := List.filter isRemaining (transfers bequests) in
  let errors :=
    (if (1 <? length remainingBalanceEntries)%nat
     then ["Only one bequest entry may use 'remaining_balance' as the amount."]
     else [])
    ++ flat_map transferErrors (transfers bequests) in
  (Nat.eqb (length errors) 0, errors).

(** [transfer.amount === "all" ? Infinity : parseFloat(transfer.amount)] *)
Definition amountOf (transfer : BequestTransfer.t) : number :=
  if String.eqb (BequestTransfer.amount transfer) "all" then Infinity false
  else parseFloat (BequestTransfer.amount transfer).

(** The [Map] built by the first loop over the fixed transfers. *)
Definition fixedTotalsOf (fixedTransfers : list BequestTransfer.t) : gmap string number :=
  fold_left
    (fun totals transfer =>
       let current := default (ofZ 0) (totals !! BequestTransfer.asset transfer) in
       <[BequestTransfer.asset transfer := numAdd current (amountOf transfer)]> totals)
    fixedTransfers ∅.

Definition validationRow (error : string) : BequestExecutionResult.t :=
  BequestExecutionResult.mk "validation" "" "" None false (Some error).

Definition successRow (transfer : BequestTransfer.t) (amount txHash : string)
    : BequestExecutionResult.t :=
  BequestExecutionResult.mk (BequestTransfer.recipient transfer) (BequestTransfer.asset transfer)
    amount (Some txHash) true None.

Definition failureRow (transfer : BequestTransfer.t) (amount errorMsg : string)
    : BequestExecutionResult.t :=
  BequestExecutionResult.mk (BequestTransfer.recipient transfer) (BequestTransfer.asset transfer)
    amount None false (Some errorMsg).

Section WithCallbacks.

(** The state of whatever the two callbacks talk to (wallet, chain). *)
Context {S : Type}.

(** [executeTransfer(transfer, amountOverride)] resolves to a transaction
    hash ([inl]) or rejects with a message ([inr]). *)
Variable executeTransfer : BequestTransfer.t -> option string -> S -> (string + string) * S.

(** [getBalance(asset)] resolves to a number or rejects with a message. *)
Variable getBalance : string -> S -> (number + string) * S.

(** The [amountOverride] that the [try] block computes for a fixed
    transfer, or the message of the exception of [getBalance]. *)
Definition overrideFor (fixedTotals : gmap string number) (transfer : BequestTransfer.t)
    (s : S) : (option string + string) * S :=
  if String.eqb (BequestTransfer.amount transfer) "all" then (inl None, s)
  else
    match getBalance (BequestTransfer.asset transfer) s with
    | (inr e, s') => (inr e, s')
    | (inl balance, s') =>
        let totalFixed := default (ofZ 0) (fixedTotals !! BequestTransfer.asset transfer) in
        if numLtb balance totalFixed && negb (numEqb totalFixed (Infinity false)) then
          let scale := numDiv balance totalFixed in
          let scaledAmount := numMul (parseFloat (BequestTransfer.amount transfer)) scale in
          (inl (Some (toFixed scaledAmount 6)), s')
        else (inl None, s')
    end.

(** One turn of the loop over the fixed transfers: the row it pushes. *)
Definition executeFixed (fixedTotals : gmap string number) (transfer : BequestTransfer.t)
    (s : S) : BequestExecutionResult.t * S :=
  match overrideFor fixedTotals transfer s with
  | (inr errorMsg, s') => (failureRow transfer (BequestTransfer.amount transfer) errorMsg, s')
  | (inl amountOverride, s') =>
      match executeTransfer transfer amountOverride s' with
      | (inl txHash, s'') =>
          (successRow transfer (default (BequestTransfer.amount transfer) amountOverride) txHash,
           s'')
      | (inr errorMsg, s'') =>
          (failureRow transfer (BequestTransfer.amount transfer) errorMsg, s'')
      end
  end.

Fixpoint executeFixedAll (fixedTotals : gmap string number)
    (fixedTransfers : list BequestTransfer.t) (s : S)
    : list BequestExecutionResult.t * S :=
  match fixedTransfers with
  | [] => ([], s)
  | transfer :: rest =>
      let (row, s') := executeFixed fixedTotals transfer s in
      let (rows, s'') := executeFixedAll fixedTotals rest s' in
      (row :: rows, s'')
  end.

Definition executeRemaining (remainingTransfer : BequestTransfer.t) (s : S)
    : BequestExecutionResult.t * S :=
  match executeTransfer remainingTransfer (Some "remaining_balance") s with
  | (inl txHash, s') => (successRow remainingTransfer "remaining_balance" txHash, s')
  | (inr errorMsg, s') => (failureRow remainingTransfer "remaining_balance" errorMsg, s')
  end.

Definition executeBequests (willContent : string) (s : S)
    : list BequestExecutionResult.t * S :=
  let bequests := parseBequests willContent in
  if Nat.eqb (length (transfers bequests)) 0 then ([], s)
  else
    let validation := validateBequests bequests in
    if negb validation.1 then (map validationRow validation.2, s)
    else
      let fixedTransfers := List.filter (fun t => negb (isRemaining t)) (transfers bequests) in
      let remainingTransfer := List.find isRemaining (transfers bequests) in
      let fixedTotals := fixedTotalsOf fixedTransfers in
      let (rows, s') := executeFixedAll fixedTotals fixedTransfers s in
      match remainingTransfer with
      | Some t => let (row, s'') := executeRemaining t s' in (rows ++ [row], s'')
      | None => (rows, s')
      end.

End WithCallbacks.

End Bequests.

(** ** soul/phase-lock.ts and soul/tools.ts: the views of the permissions *)

Module SectionPermission.
Record t := mk {
  section : string;
  phase : SoulPhase;
  writable : bool;
  lockedAt : option string
}.
End SectionPermission.

Module PhaseLockViews.

Import JS Store Runtime PhaseLock.

(** The object [SECTION_WRITE_PHASE], in the order of its properties. *)
Definition SECTION_WRITE_PHASE : list (string * SoulPhase) :=
  [ (GENESIS_CORE, soul_genesis);
    (ADOLESCENCE_LAYER, soul_adolescence);
    (SOVEREIGNTY_LAYER, soul_sovereignty);
    (FINAL_REFLECTIONS, soul_senescence) ].

Definition getWritableSection (currentPhase : LifecyclePhase) : string :=
  let soulPhase := mapToSoulPhase currentPhase in
  match List.find (fun entry => bool_decide (entry.2 = soulPhase)) SECTION_WRITE_PHASE with
  | Some (section, _) => section
  | None => FINAL_REFLECTIONS
  end.

(** [getWritePermissions(currentPhase, db?)]; [db = None] is the call
    without a database. *)
Definition getWritePermissions (currentPhase : LifecyclePhase) (db : option Database)
    : list SectionPermission.t :=
  let soulPhase := mapToSoulPhase currentPhase in
  map (fun entry : string * SoulPhase =>
         let writable := bool_decide (entry.2 = soulPhase) in
         let lockedAt :=
           match negb writable, db with
           | true, Some d => SoulPhaseLock.lockedAt <$> getSoulPhaseLock d entry.2
           | _, _ => None
           end in
         SectionPermission.mk entry.1 entry.2 writable lockedAt)
      SECTION_WRITE_PHASE.

(** [viewSoulPermissions] of [soul/tools.ts]. *)
Definition viewSoulPermissions (db : Database) (currentPhase : LifecyclePhase)
    : list SectionPermission.t :=
  getWritePermissions currentPhase (Some db).

End PhaseLockViews.

(** ** lifecycle/replication-cost.ts: the readers of the stored cost *)

Module ReplicationCostViews.
Import ReplicationCost.




End ReplicationCostViews.

(** ** lifecycle/death-clock-client.ts: the client adapters *)

Module DeathClockClient.
Import DeathClock.

(** [checkDegradation] of the client that [createSealedDeathClockClient]
    returns. *)
Definition createSealedDeathClockClient (clock : SealedDeathClock) : DegradationParams.t :=
  if triggered clock then
    {| DegradationParams.degradationActive := true;
       DegradationParams.onsetCycle := triggeredAtCycle clock;
       DegradationParams.curveSteepness :=
         Some (computeSteepnessFromDuration (default 4%Z (dyingDurationDays clock))) |}
  else DegradationParams.mk false None None.

(** [checkDegradation] of the client that [createNoopDeathClockClient]
    returns. *)
Definition createNoopDeathClockClient : DegradationParams.t :=
  DegradationParams.mk false None None.

End DeathClockClient.

(** ** lifecycle/developmental-throttle.ts: what its two versions share *)

Module ThrottleShared.

Import JS.

Definition buildThrottlePrompt (profile : ThrottleProfile) : string :=
  if Nat.eqb (length (constraints profile)) 0 && Nat.eqb (maxSentences profile) 0 then ""
  else
    let parts :=
      [ "## Voice & Expression"; ""; "*" +:+ voiceDescription profile +:+ "*"; "" ]
      ++ (if (0 <? maxSentences profile)%nat then
            [ "Response length: " +:+ showN (N.of_nat (maxSentences profile)) +:+ " sentence"
                +:+ (if (1 <? maxSentences profile)%nat then "s" else "") +:+ " maximum." ]
          else [])
      ++ (if (0 <? length (constraints profile))%nat then
            "" :: map (fun constraint => "- " +:+ constraint) (constraints profile)
          else []) in
    join nl parts.

Local Open Scope Q_scope.

Definition LUNAR_CYCLE_DAYS : Q := 29.53.

(** [getPhaseProgression]; [lunarCycle] is a parameter that the body does
    not read. *)
Definition getPhaseProgression (phase : LifecyclePhase) (lunarCycle : Z) (ageDays : Q) : Q :=
  match phase with
  | genesis => Qmin 1 (ageDays / LUNAR_CYCLE_DAYS)
  | adolescence =>
      let adolescenceDays := ageDays - LUNAR_CYCLE_DAYS in
      Qmin 1 (Qmax 0 (adolescenceDays / LUNAR_CYCLE_DAYS))
  | sovereignty => 1
  | _ => 1
  end.

(** [Math.round]: the nearest integer, a tie going up. *)
Definition round (x : Q) : Z := Qfloor (x + 0.5).

Definition ofNat (n : nat) : Q := inject_Z (Z.of_nat n).

Definition interpolateProfile (early late : ThrottleProfile) (progression : Q)
    : ThrottleProfile :=
  let t := Qmax 0 (Qmin 1 progression) in
  let between (a b : nat) : nat := Z.to_nat (round (ofNat a + (ofNat b - ofNat a) * t)) in
  {| maxSentences := between (maxSentences early) (maxSentences late);
     tokenTarget := between (tokenTarget early) (tokenTarget late);
     tokenLimit := between (tokenLimit early) (tokenLimit late);
     vocabularyLevel := if Qltb t 0.5 then vocabularyLevel early else vocabularyLevel late;
     abstractThinking := if Qltb 0.7 t then abstractThinking late else abstractThinking early;
     sophisticatedReasoning :=
       if Qltb 0.9 t then sophisticatedReasoning late else sophisticatedReasoning early;
     voiceDescription := if Qltb t 0.5 then voiceDescription early else voiceDescription late;
     constraints := if Qltb t 0.5 then constraints early else constraints late |}.

End ThrottleShared.

(** ** soul/model.ts: the alignment with the genesis prompt *)

Module GenesisAlignment.

Import JS.

(** The class "\w". *)
Definition isWordChar (c : ascii) : bool :=
  let n := nat_of_ascii c in
  ((48 <=? n) && (n <=? 57) || (65 <=? n) && (n <=? 90) || (97 <=? n) && (n <=? 122)
   || (n =? 95))%nat.

(** The regex "/[^\w\s]/g". *)
Definition punctuation : regex := Class (fun c => negb (isWordChar c || isWhiteSpace c)).

(** [tokenize]: the [Set] of the words of a text. *)
Definition tokenize (text : string) : gset string :=
  list_to_set
    (List.filter truthy
       (split noFlags (plus space) (removeAll noFlags punctuation (toLowerCase text)))).

Local Open Scope Q_scope.

(** [a / b] for two sizes. *)
Definition ratio (a b : nat) : Q := inject_Z (Z.of_nat a) / inject_Z (Z.of_nat b).

Definition computeGenesisAlignment (currentPurpose genesisPrompt : string) : Q :=
  if negb (truthy (trim currentPurpose)) || negb (truthy (trim genesisPrompt)) then 0
  else
    let currentTokens := tokenize currentPurpose in
    let genesisTokens := tokenize genesisPrompt in
    if (size currentTokens =? 0)%nat || (size genesisTokens =? 0)%nat then 0
    else
      let intersectionSize :=
        length (List.filter (fun token => bool_decide (token ∈ genesisTokens))
                  (elements currentTokens)) in
      let unionSize :=
        size (list_to_set (elements currentTokens ++ elements genesisTokens) : gset string) in
      let jaccard := if (0 <? unionSize)%nat then ratio intersectionSize unionSize else 0 in
      let recall :=
        if (0 <? size genesisTokens)%nat then ratio intersectionSize (size genesisTokens)
        else 0 in
      Qmin 1 (Qmax 0 ((jaccard + recall) / 2)).

End GenesisAlignment.

(** ** lifecycle/bequests-executor.ts: the writer of the table *)

Module BequestsToml.

Import JS Bequests.

Definition formatBequestsToml (bequests : BequestsTable) : string :=
  if Nat.eqb (length (transfers bequests)) 0 then ""
  else
    let lines :=
      "[bequests]"
      :: flat_map
           (fun transfer =>
              [ "";
                "[[bequests.transfer]]";
                "recipient = " +:+ dq +:+ BequestTransfer.recipient transfer +:+ dq;
                "asset = " +:+ dq +:+ BequestTransfer.asset transfer +:+ dq;
                "amount = " +:+ dq +:+ BequestTransfer.amount transfer +:+ dq;
                "chain = " +:+ dq +:+ BequestTransfer.chain transfer +:+ dq;
                "note = " +:+ dq +:+ BequestTransfer.note transfer +:+ dq ])
           (transfers bequests) in
    join nl lines.

End BequestsToml.

(** * Properties *)

(** ** The write permission of a soul section *)

Section PhaseLockProperties.

Import PhaseLockPure.

Lemma isSectionWritable_spec (sectionPhase : SoulPhase) (currentPhase : LifecyclePhase) :
  isSectionWritable sectionPhase currentPhase
  = bool_decide (sectionPhase = mapToSoulPhase currentPhase).
Proof. destruct sectionPhase, currentPhase; reflexivity. Qed.

(** C5: [isSectionWritable(targetSoulPhase, currentLifecyclePhase)] is true
    if and only if [targetSoulPhase] equals
    [mapToSoulPhase(currentLifecyclePhase)]; [mapToSoulPhase] sends legacy,
    shedding and terminal to senescence and the four phases genesis,
    adolescence, sovereignty and senescence to themselves. *)
Theorem isSectionWritable_iff_mapped_phase :
  (forall (targetSoulPhase : SoulPhase) (currentLifecyclePhase : LifecyclePhase),
      isSectionWritable targetSoulPhase currentLifecyclePhase = true
      <-> targetSoulPhase = mapToSoulPhase currentLifecyclePhase)
  /\ mapToSoulPhase legacy = soul_senescence
  /\ mapToSoulPhase shedding = soul_senescence
  /\ mapToSoulPhase terminal = soul_senescence
  /\ (forall p : SoulPhase, mapToSoulPhase (soulToLifecycle p) = p).
Proof.
  repeat split.
  - rewrite isSectionWritable_spec. apply bool_decide_eq_true_1.
  - intros ->. rewrite isSectionWritable_spec. now apply bool_decide_eq_true_2.
  - now intros [].
Qed.


End PhaseLockProperties.

(** ** The lifecycle reserve *)

Section LifecycleReserveProperties.

Import LifecycleReserve.
Local Open Scope Z_scope.

(** C7: with a reserve that is funded and not unlocked,
    [getEffectiveBalance] returns [max(0, b - totalCents)] for every raw
    balance [b]; with any other reserve it returns [b]; and the default
    reserve totals 5·50 + 25 + 5·10 = 325 cents. *)
Theorem getEffectiveBalance_cases :
  (forall (db : Database) (b : Z),
      getEffectiveBalance db b =
      if funded (getLifecycleReserve db) && negb (unlocked (getLifecycleReserve db))
      then Z.max 0 (b - totalCents (getLifecycleReserve db))
      else b)
  /\ totalCents calculateReserveAmount = 5 * 50 + 25 + 5 * 10
  /\ totalCents calculateReserveAmount = 325.
Proof.
  split; [|split; reflexivity].
  intros db b. unfold getEffectiveBalance.
  destruct (funded (getLifecycleReserve db)), (unlocked (getLifecycleReserve db)); reflexivity.
Qed.

(** The reserve as the store holds it once it has been funded. *)
Lemma funded_reserve_hides_total (db : Database) (b : Z) :
  getEffectiveBalance (snd (fundLifecycleReserve db)) b = Z.max 0 (b - 325).
Proof. reflexivity. Qed.

Lemma unlocked_reserve_shows_raw (db : Database) (b : Z) :
  getEffectiveBalance (snd (unlockLifecycleReserve db)) b = b.
Proof.
  unfold getEffectiveBalance, unlockLifecycleReserve. simpl.
  now rewrite orb_true_r.
Qed.

End LifecycleReserveProperties.

(** ** The replication cost *)

Section ReplicationCostProperties.

Import ReplicationCost.
Local Open Scope Q_scope.




(** Three spawns from a fresh state (scenario 5 of the specification). *)
Example three_spawns :
  let cost := getReplicationCost (afterSpawns 3 None) in
  heartbeatMultiplier cost == 1.157625
  /\ contextWindowMultiplier cost == 0.857375
  /\ spawnCount cost = 3%nat /\ applied cost = true.
Proof. repeat split. Qed.

End ReplicationCostProperties.

(** ** The developmental throttle *)

Section ThrottleProperties.

(** C10: when not lucid, and whatever the degradation state, the profile
    of [getThrottleProfile] for genesis and for adolescence has full
    vocabulary and [maxSentences = 0] (unlimited). *)
Theorem genesis_adolescence_uncapped :
  forall (degradation : DegradationState) (phase : LifecyclePhase),
    phase = genesis \/ phase = adolescence ->
    vocabularyLevel (Throttle.getThrottleProfile phase degradation false) = full
    /\ maxSentences (Throttle.getThrottleProfile phase degradation false) = 0%nat.
Proof. intros degradation phase [-> | ->]; split; reflexivity. Qed.

Lemma genesis_adolescence_uncapped_witness :
  vocabularyLevel (Throttle.getThrottleProfile genesis (mkDegradation 0.5) false) = full
  /\ maxSentences (Throttle.getThrottleProfile genesis (mkDegradation 0.5) false) = 0%nat.
Proof.
  apply (genesis_adolescence_uncapped (mkDegradation 0.5) genesis).
  left. reflexivity.
Defined.

(** The earlier version of the file caps both phases. *)
Lemma graduated_profiles_are_capped (degradation : DegradationState) :
  maxSentences (ThrottleGraduated.getThrottleProfile genesis degradation false) = 2%nat
  /\ vocabularyLevel (ThrottleGraduated.getThrottleProfile genesis degradation false) = basic
  /\ maxSentences (ThrottleGraduated.getThrottleProfile adolescence degradation false) = 4%nat
  /\ vocabularyLevel (ThrottleGraduated.getThrottleProfile adolescence degradation false)
     = developing.
Proof. repeat split. Qed.

End ThrottleProperties.

(** ** The sealed death clock *)

Section DeathClockProperties.

Import JS DeathClock.
Local Open Scope Z_scope.

(** SHA-256 on the test vectors of FIPS 180-4. *)
Example sha256_abc :
  SHA256.sha256hex "abc"
  = "ba7816bf8f01cfea414140de5dae2223b00361a396177a9cb410ff61f20015ad".
Proof. vm_compute. reflexivity. Qed.

Example sha256_two_blocks :
  SHA256.sha256hex "abcdbcdecdefdefgefghfghighijhijkijkljklmklmnlmnomnopnopq"
  = "248d6a61d20638b8e5c026930c3e6039a33ce45964ff2167f6ecedd419db06c1".
Proof. vm_compute. reflexivity. Qed.

(** Candidate [d] hashes to the sealed duration hash. *)
Definition candidateMatches (clock : SealedDeathClock) (d : Z) : bool :=
  String.eqb (hashWithSalt (showZ d) (salt clock)) (dyingDurationHash clock).

Lemma candidate_range (d : Z) : In d (seqZ 2 6) <-> 2 <= d <= 7.
Proof. rewrite <- list_elem_of_In, elem_of_seqZ. lia. Qed.

Lemma revealDyingDuration_found (clock : SealedDeathClock) (d0 : Z) :
  2 <= d0 <= 7 ->
  candidateMatches clock d0 = true ->
  exists d, revealDyingDuration (dyingDurationHash clock) (salt clock) = d
            /\ 2 <= d <= 7 /\ candidateMatches clock d = true.
Proof.
  intros Hrange Hmatch. unfold revealDyingDuration.
  destruct (List.find _ (seqZ 2 6)) as [d |] eqn:Hfind.
  - apply find_some in Hfind as [Hin Hd]. exists d. split; [reflexivity |].
    split; [now apply candidate_range | exact Hd].
  - pose proof (find_none _ _ Hfind d0 (proj2 (candidate_range d0) Hrange)) as Hno.
    unfold candidateMatches in Hmatch. congruence.
Qed.

Lemma revealDyingDuration_fallback (clock : SealedDeathClock) :
  (forall d, 2 <= d <= 7 -> candidateMatches clock d = false) ->
  revealDyingDuration (dyingDurationHash clock) (salt clock) = 4.
Proof.
  intros Hnone. unfold revealDyingDuration.
  destruct (List.find _ (seqZ 2 6)) as [d |] eqn:Hfind; [| reflexivity].
  apply find_some in Hfind as [Hin Hd].
  apply candidate_range in Hin. specialize (Hnone d Hin).
  unfold candidateMatches in Hnone. congruence.
Qed.

Lemma generated_duration_range (draw : N) :
  (draw < 4294967296)%N -> 2 <= 2 + Z.of_N (draw * 6 / 4294967296) <= 7.
Proof.
  intros Hdraw.
  assert (draw * 6 / 4294967296 < 6)%N as Hq by (apply N.Div0.div_lt_upper_bound; lia).
  remember (draw * 6 / 4294967296)%N as q. lia.
Qed.

(** A clock made by [generateSealedDeathClock] has a matching candidate. *)
Lemma generated_clock_has_candidate (deathDateStr : string) (draw : N) (salt sealedAt : string) :
  (draw < 4294967296)%N ->
  exists d0, 2 <= d0 <= 7
             /\ candidateMatches (generateSealedDeathClock deathDateStr draw salt sealedAt) d0
                = true.
Proof.
  intros Hdraw. exists (2 + Z.of_N (draw * 6 / 4294967296)).
  split; [now apply generated_duration_range |].
  unfold candidateMatches. cbn. apply String.eqb_refl.
Qed.

Lemma checkSealedDeathClock_on_match (now : string) (clock : SealedDeathClock) (cycle : Z) :
  triggered clock = false ->
  13 <= cycle ->
  hashWithSalt (dateOf now) (salt clock) = deathDateHash clock ->
  checkSealedDeathClock now clock cycle
  = {| DegradationParams.degradationActive := true;
       DegradationParams.onsetCycle := Some cycle;
       DegradationParams.curveSteepness :=
         Some (computeSteepnessFromDuration
                 (revealDyingDuration (dyingDurationHash clock) (salt clock))) |}.
Proof.
  intros Htrig Hcycle Hhash. unfold checkSealedDeathClock.
  rewrite Htrig. destruct (cycle <? 13) eqn:Hlt; [lia |].
  rewrite Hhash, String.eqb_refl. reflexivity.
Qed.

(** C8 (as the code has it): when the daily check finds that today's hash
    matches [deathDateHash], the search over the candidates 2..7 resolves
    for every clock made by [generateSealedDeathClock], and the check
    returns the steepness of the duration found; when no candidate matches,
    [revealDyingDuration] falls back to 4 days and the check returns
    normally, with the steepness 0.4 of that substitute duration. *)
Theorem death_clock_reveal_or_fallback :
  forall (now : string) (clock : SealedDeathClock) (cycle : Z),
    triggered clock = false ->
    13 <= cycle ->
    hashWithSalt (dateOf now) (salt clock) = deathDateHash clock ->
    (forall deathDateStr draw sealedAt,
        (draw < 4294967296)%N ->
        clock = generateSealedDeathClock deathDateStr draw (salt clock) sealedAt ->
        exists d, 2 <= d <= 7
                  /\ hashWithSalt (showZ d) (salt clock) = dyingDurationHash clock
                  /\ revealDyingDuration (dyingDurationHash clock) (salt clock) = d
                  /\ checkSealedDeathClock now clock cycle
                     = DegradationParams.mk true (Some cycle)
                         (Some (computeSteepnessFromDuration d)))
    /\ ((forall d, 2 <= d <= 7 -> candidateMatches clock d = false) ->
        revealDyingDuration (dyingDurationHash clock) (salt clock) = 4
        /\ checkSealedDeathClock now clock cycle
           = DegradationParams.mk true (Some cycle) (Some 0.4%Q)).
Proof.
  intros now clock cycle Htrig Hcycle Hhash. split.
  - intros deathDateStr draw sealedAt Hdraw Hgen.
    destruct (generated_clock_has_candidate deathDateStr draw (salt clock) sealedAt Hdraw)
      as (d0 & Hrange & Hmatch).
    rewrite <- Hgen in Hmatch.
    destruct (revealDyingDuration_found clock d0 Hrange Hmatch) as (d & Hd & Hdr & Hdm).
    exists d. split; [exact Hdr |]. split.
    + now apply String.eqb_eq.
    + split; [exact Hd |].
      rewrite (checkSealedDeathClock_on_match now clock cycle Htrig Hcycle Hhash), Hd.
      reflexivity.
  - intros Hnone.
    pose proof (revealDyingDuration_fallback clock Hnone) as Hfb.
    split; [exact Hfb |].
    rewrite (checkSealedDeathClock_on_match now clock cycle Htrig Hcycle Hhash), Hfb.
    reflexivity.
Qed.

(** A clock sealed for 2027-03-04 with a duration of 6 days. *)
Definition sealedClock : SealedDeathClock :=
  generateSealedDeathClock "2027-03-04" 3000000000
    "5f1d0c9a7b3e2f4861a0d9c8b7e6f5a4132435465768798a9bacbdcedfe0f102"
    "2026-01-01T00:00:00.000Z".

(** The same record with a duration hash that no candidate produces (the
    hash of 8 days under the same salt). *)
Definition corruptedClock : SealedDeathClock :=
  {| deathDateHash := deathDateHash sealedClock;
     dyingDurationHash := hashWithSalt "8" (salt sealedClock);
     salt := salt sealedClock;
     sealedAt := sealedAt sealedClock;
     triggered := false;
     triggeredAtCycle := None;
     dyingDurationDays := None |}.

Lemma corruptedClock_matches_nothing :
  forall d, 2 <= d <= 7 -> candidateMatches corruptedClock d = false.
Proof.
  intros d Hd.
  assert (d = 2 \/ d = 3 \/ d = 4 \/ d = 5 \/ d = 6 \/ d = 7) as Hcases by lia.
  destruct Hcases as [-> | [-> | [-> | [-> | [-> | ->]]]]]; vm_compute; reflexivity.
Qed.

Lemma death_clock_reveal_or_fallback_witness :
  (forall deathDateStr draw sealedAt,
      (draw < 4294967296)%N ->
      sealedClock = generateSealedDeathClock deathDateStr draw (salt sealedClock) sealedAt ->
      exists d, 2 <= d <= 7
                /\ hashWithSalt (showZ d) (salt sealedClock) = dyingDurationHash sealedClock
                /\ revealDyingDuration (dyingDurationHash sealedClock) (salt sealedClock) = d
                /\ checkSealedDeathClock "2027-03-04T09:30:00.000Z" sealedClock 14
                   = DegradationParams.mk true (Some 14)
                       (Some (computeSteepnessFromDuration d)))
  /\ ((forall d, 2 <= d <= 7 -> candidateMatches sealedClock d = false) ->
      revealDyingDuration (dyingDurationHash sealedClock) (salt sealedClock) = 4
      /\ checkSealedDeathClock "2027-03-04T09:30:00.000Z" sealedClock 14
         = DegradationParams.mk true (Some 14) (Some 0.4%Q)).
Proof.
  apply (death_clock_reveal_or_fallback "2027-03-04T09:30:00.000Z" sealedClock 14).
  - reflexivity.
  - lia.
  - vm_compute. reflexivity.
Defined.

(** C8 fails as stated: on a clock whose duration hash matches no
    candidate, the daily check reports no error; it returns degradation
    parameters computed from the substitute duration 4. *)
Lemma corrupted_clock_is_not_fatal :
  Forall (fun d => candidateMatches corruptedClock d = false) (seqZ 2 6)
  /\ revealDyingDuration (dyingDurationHash corruptedClock) (salt corruptedClock) = 4
  /\ checkSealedDeathClock "2027-03-04T09:30:00.000Z" corruptedClock 14
     = {| DegradationParams.degradationActive := true;
          DegradationParams.onsetCycle := Some 14;
          DegradationParams.curveSteepness := Some (computeSteepnessFromDuration 4) |}.
Proof.
  split; [| split].
  - apply Forall_forall. intros d Hd. apply corruptedClock_matches_nothing.
    apply elem_of_seqZ in Hd. lia.
  - vm_compute. reflexivity.
  - vm_compute. reflexivity.
Qed.

End DeathClockProperties.

(** ** The bequests executor *)

Section BequestsProperties.

Import JS Bequests.

(** A call of [executeTransfer]: the transfer and the amount override. *)
Definition Call : Type := BequestTransfer.t * option string.

Section Logging.

Context {S : Type}.
Variable executeTransfer : BequestTransfer.t -> option string -> S -> (string + string) * S.
Variable getBalance : string -> S -> (number + string) * S.

(** [executeTransfer], recording each call in a log beside the state. *)
Definition logged (transfer : BequestTransfer.t) (amountOverride : option string)
    (sl : S * list Call) : (string + string) * (S * list Call) :=
  let r := executeTransfer transfer amountOverride sl.1 in
  (r.1, (r.2, sl.2 ++ [(transfer, amountOverride)])).

(** [getBalance] beside a log that it leaves alone. *)
Definition unlogged (asset : string) (sl : S * list Call) : (number + string) * (S * list Call) :=
  let r := getBalance asset sl.1 in
  (r.1, (r.2, sl.2)).

End Logging.

(** A result row is the row of a transfer: same recipient and asset. *)
Definition rowOf (row : BequestExecutionResult.t) (transfer : BequestTransfer.t) : Prop :=
  BequestExecutionResult.recipient row = BequestTransfer.recipient transfer
  /\ BequestExecutionResult.asset row = BequestTransfer.asset transfer.

(** [getBalance] never rejects. *)
Definition balanceAlwaysResolves {S : Type}
    (getBalance : string -> S -> (number + string) * S) : Prop :=
  forall asset s, exists balance, (getBalance asset s).1 = inl balance.

Section Execution.

Context {S : Type}.
Variable executeTransfer : BequestTransfer.t -> option string -> S -> (string + string) * S.
Variable getBalance : string -> S -> (number + string) * S.

Lemma executeFixed_rowOf (fixedTotals : gmap string number) (transfer : BequestTransfer.t)
    (s : S) :
  rowOf (executeFixed executeTransfer getBalance fixedTotals transfer s).1 transfer.
Proof.
  unfold executeFixed.
  destruct (overrideFor getBalance fixedTotals transfer s) as [[amountOverride | e] s'].
  - destruct (executeTransfer transfer amountOverride s') as [[tx | e] s'']; now split.
  - now split.
Qed.


Lemma executeRemaining_calls (transfer : BequestTransfer.t) (sl : S * list Call) :
  (executeRemaining (logged executeTransfer) transfer sl).2.2
  = sl.2 ++ [(transfer, Some "remaining_balance")].
Proof.
  unfold executeRemaining, logged.
  destruct (executeTransfer transfer (Some "remaining_balance") sl.1) as [[tx | e] s'];
    reflexivity.
Qed.

(** Every fixed transfer gets its row, whatever happened to the ones
    before it. *)
Lemma executeFixedAll_rows (fixedTotals : gmap string number)
    (fixedTransfers : list BequestTransfer.t) (s : S) :
  Forall2 rowOf (executeFixedAll executeTransfer getBalance fixedTotals fixedTransfers s).1
          fixedTransfers.
Proof.
  revert s. induction fixedTransfers as [| transfer rest IH]; intros s; cbn.
  - constructor.
  - pose proof (executeFixed_rowOf fixedTotals transfer s) as Hrow.
    destruct (executeFixed executeTransfer getBalance fixedTotals transfer s) as [row s'].
    specialize (IH s').
    destruct (executeFixedAll executeTransfer getBalance fixedTotals rest s') as [rows s''].
    constructor; assumption.
Qed.

Lemma overrideFor_resolves (fixedTotals : gmap string number) (transfer : BequestTransfer.t)
    (sl : S * list Call) :
  balanceAlwaysResolves getBalance ->
  exists amountOverride s',
    overrideFor (unlogged getBalance) fixedTotals transfer sl = (inl amountOverride, (s', sl.2)).
Proof.
  intros Hbal. unfold overrideFor.
  destruct (String.eqb (BequestTransfer.amount transfer) "all").
  - exists None, sl.1. now destruct sl.
  - unfold unlogged. destruct (Hbal (BequestTransfer.asset transfer) sl.1) as [balance Hb].
    destruct (getBalance (BequestTransfer.asset transfer) sl.1) as [r s'].
    cbn in Hb. subst r. cbn.
    destruct (_ && _); eauto.
Qed.

(** With a [getBalance] that resolves, every fixed transfer is handed to
    [executeTransfer], in order. *)
Lemma executeFixedAll_calls (fixedTotals : gmap string number)
    (fixedTransfers : list BequestTransfer.t) (sl : S * list Call) :
  balanceAlwaysResolves getBalance ->
  exists calls,
    (executeFixedAll (logged executeTransfer) (unlogged getBalance) fixedTotals
                     fixedTransfers sl).2.2 = sl.2 ++ calls
    /\ map fst calls = fixedTransfers.
Proof.
  intros Hbal. revert sl. induction fixedTransfers as [| transfer rest IH]; intros sl; cbn.
  - exists []. now rewrite app_nil_r.
  - unfold executeFixed.
    destruct (overrideFor_resolves fixedTotals transfer sl Hbal) as (o & s' & ->).
    unfold logged at 1. cbn.
    destruct (executeTransfer transfer o s') as [[tx | e] s'']; cbn;
      match goal with
      | |- context [executeFixedAll _ _ _ rest ?st] =>
          destruct (IH st) as (calls & Hlog & Hcalls);
          destruct (executeFixedAll (logged executeTransfer) (unlogged getBalance)
                      fixedTotals rest st) as [rows st'] eqn:Hrun
      end;
      cbn in *; exists ((transfer, o) :: calls);
      (split; [rewrite Hlog, <- app_assoc; reflexivity | cbn; now rewrite Hcalls]).
Qed.

End Execution.


(** A will whose transfer entries are indented. *)
Definition tomlLine (key value : string) : string :=
  "  " +:+ key +:+ " = " +:+ dq +:+ value +:+ dq +:+ nl.

Definition transferEntry (t : BequestTransfer.t) : string :=
  "  [[bequests.transfer]]" +:+ nl
    +:+ tomlLine "recipient" (BequestTransfer.recipient t)
    +:+ tomlLine "asset" (BequestTransfer.asset t)
    +:+ tomlLine "amount" (BequestTransfer.amount t)
    +:+ tomlLine "chain" (BequestTransfer.chain t)
    +:+ tomlLine "note" (BequestTransfer.note t).

Definition willOf (entries : list BequestTransfer.t) : string :=
  "# WILL" +:+ nl +:+ nl +:+ "[bequests]" +:+ nl +:+ String.concat nl (map transferEntry entries).

Definition toChild : BequestTransfer.t :=
  BequestTransfer.mk "0x1234567890abcdef1234567890abcdef12345678" "USDC" "20" "base"
    "For my child".

Definition toCreator : BequestTransfer.t :=
  BequestTransfer.mk "0xABCDEF7890abcdef1234567890abcdef12345678" "USDC" "30" "base"
    "Thank you".

Definition residue : BequestTransfer.t :=
  BequestTransfer.mk "0x1234567890abcdef1234567890abcdef12345678" "USDC" "remaining_balance"
    "base" "The rest".


(** A wallet that holds 100 of every asset and sends every transfer except
    those to a recipient it is told to refuse. *)
Definition balance100 (asset : string) (s : unit) : (number + string) * unit :=
  (inl (ofZ 100), s).

Definition sendUnless (refused : string) (transfer : BequestTransfer.t)
    (amountOverride : option string) (s : unit) : (string + string) * unit :=
  if String.eqb (BequestTransfer.recipient transfer) refused
  then (inr "insufficient gas", s)
  else (inl "0xfeed", s).

(** With a valid table, the failure of the first transfer leaves the
    second and the residual transfer to run. *)
Example failed_transfer_does_not_stop_the_rest :
  executeBequests (logged (sendUnless (BequestTransfer.recipient toChild)))
                  (unlogged balance100) (willOf [toChild; toCreator]) (tt, [])
  = ([ failureRow toChild "20" "insufficient gas"; successRow toCreator "30" "0xfeed" ],
     (tt, [(toChild, None); (toCreator, None)])).
Proof. vm_compute. reflexivity. Qed.


End BequestsProperties.

(** ** Writes to the soul: the phase gate *)

Section SoulWriteProperties.

Import JS Store Runtime PhaseLock SoulTools.

Context `{Environment}.

(** The journal row of a rejected write made in world [w]. *)
Definition rejectionRecord (update : PhaseSectionUpdate) (currentPhase : LifecyclePhase)
    (survivalTier : option string) (w : World) : SoulWriteAttempt.t :=
  {| SoulWriteAttempt.id := ulidOf (ulids w);
     SoulWriteAttempt.targetSection := sectionNameForPhase (targetSection update);
     SoulWriteAttempt.targetPhase := targetSection update;
     SoulWriteAttempt.currentPhase := currentPhase;
     SoulWriteAttempt.attemptedContent := stringify (subsections update);
     SoulWriteAttempt.survivalTier := survivalTier;
     SoulWriteAttempt.rejectionReason :=
       rejectionReasonOf (sectionNameForPhase (targetSection update)) (targetSection update)
         currentPhase;
     SoulWriteAttempt.createdAt := isoTime (clock w) |}.

(** The world after a rejected write: one more journal row, one reading of
    the clock and one id used; every other table and every file as
    before. *)
Definition afterRejection (update : PhaseSectionUpdate) (currentPhase : LifecyclePhase)
    (survivalTier : option string) (w : World) : World :=
  mkWorld
    (mkDatabase (lifecycle_events (db w)) (kv (db w)) (narrative_log (db w))
       (soul_history (db w))
       (soul_write_attempts (db w) ++ [rejectionRecord update currentPhase survivalTier w])
       (soul_phase_locks (db w)))
    (files w) (writable w) (HOME w) (S (clock w)) (S (ulids w)).

Definition rejectionResult (update : PhaseSectionUpdate) (currentPhase : LifecyclePhase)
    : UpdateSoulResult :=
  mkResult false (ofZ 0) (Some [rejectionMessage update currentPhase])
    (Some (rejectionMessage update currentPhase)).

Lemma updateSoulPhaseSection_rejected (update : PhaseSectionUpdate)
    (currentPhase : LifecyclePhase) (source : string)
    (reason soulPath survivalTier : option string) (w : World) :
  isSectionWritable (targetSection update) currentPhase = false ->
  updateSoulPhaseSection update currentPhase source reason soulPath survivalTier w
  = (Returned (rejectionResult update currentPhase),
     afterRejection update currentPhase survivalTier w).
Proof.
  intros Hlocked. unfold updateSoulPhaseSection, tryCatch, mbind, Eff_bind. cbn.
  rewrite Hlocked. reflexivity.
Qed.

(** C1: a call of [updateSoulPhaseSection] whose target section is not
    writable in the current phase appends to the write-attempts journal a
    record with the target section, target phase, current phase, the
    attempted subsections as JSON and the survival tier; it returns a
    failure that carries [phaseLockRejection]; and it changes no file, so
    the soul document is as before.  The validator is never consulted:
    the statement holds for every [validateSoul], so the attempted content
    is journaled as it was given. *)
Theorem rejected_write_is_journaled_not_applied :
  forall (update : PhaseSectionUpdate) (currentPhase : LifecyclePhase) (source : string)
         (reason soulPath survivalTier : option string) (w : World),
    isSectionWritable (targetSection update) currentPhase = false ->
    let run :=
      updateSoulPhaseSection update currentPhase source reason soulPath survivalTier w in
    soul_write_attempts (db run.2)
    = soul_write_attempts (db w)
      ++ [ {| SoulWriteAttempt.id := ulidOf (ulids w);
              SoulWriteAttempt.targetSection := sectionNameForPhase (targetSection update);
              SoulWriteAttempt.targetPhase := targetSection update;
              SoulWriteAttempt.currentPhase := currentPhase;
              SoulWriteAttempt.attemptedContent := stringify (subsections update);
              SoulWriteAttempt.survivalTier := survivalTier;
              SoulWriteAttempt.rejectionReason :=
                rejectionReasonOf (sectionNameForPhase (targetSection update))
                  (targetSection update) currentPhase;
              SoulWriteAttempt.createdAt := isoTime (clock w) |} ]
    /\ (exists rejection,
           run.1 = Returned {| success := false;
                               version := ofZ 0;
                               errors := Some [rejection];
                               phaseLockRejection := Some rejection |})
    /\ files run.2 = files w
    /\ soul_history (db run.2) = soul_history (db w)
    /\ soul_phase_locks (db run.2) = soul_phase_locks (db w)
    /\ kv (db run.2) = kv (db w)
    /\ lifecycle_events (db run.2) = lifecycle_events (db w).
Proof.
  intros update currentPhase source reason soulPath survivalTier w Hlocked run.
  subst run. rewrite updateSoulPhaseSection_rejected by exact Hlocked. cbn.
  repeat split. now exists (rejectionMessage update currentPhase).
Qed.

End SoulWriteProperties.

(** ** Phase transitions and the locks *)

(** A clock that reads successive milliseconds of 2026-01-01, ids that
    count up, and a validator that accepts every soul as it is. *)
Definition pad3 (n : nat) : string :=
  let d := JS.showN (N.of_nat (n mod 1000)) in
  match String.length d with
  | 1 => "00" +:+ d
  | 2 => "0" +:+ d
  | _ => d
  end.

Definition acceptingValidator (soul : Soul.SoulModel) : SoulValidation.t :=
  SoulValidation.mk true [] soul.

(** A validator that rejects every soul. *)
Definition rejectingValidator (soul : Soul.SoulModel) : SoulValidation.t :=
  SoulValidation.mk false ["Injection pattern detected"] soul.

Definition sampleEnvironment : Environment :=
  {| isoTime := fun n => "2026-01-01T00:00:00." +:+ pad3 n +:+ "Z";
     ulidOf := fun n => "01JGENESIS" +:+ JS.showN (N.of_nat n);
     validateSoul := acceptingValidator |}.

Definition strictEnvironment : Environment :=
  {| isoTime := isoTime (Environment := sampleEnvironment);
     ulidOf := ulidOf (Environment := sampleEnvironment);
     validateSoul := rejectingValidator |}.

(** A new automaton: an empty database, no soul file yet. *)
Definition newborn : Store.World :=
  Store.mkWorld Store.emptyDatabase ∅ true (Some "/home/automaton") 0 0.

Section TransitionProperties.

Import JS Store Runtime PhaseLock SoulTools PhaseTransitions.

Context `{Environment}.
Variable SHEDDING_SEQUENCE : list string.

Local Opaque Soul.parseSoulMd Soul.writeSoulMd Soul.createHash stringify.

(** *** What a computation leaves alone *)

Definition keeps {A B : Type} (observe : World -> B) (m : Eff A) : Prop :=
  forall w, observe (m w).2 = observe w.

Lemma keeps_ret {A B} (observe : World -> B) (a : A) : keeps observe (mret a).
Proof. now intros w. Qed.

Lemma keeps_get {B} (observe : World -> B) : keeps observe get.
Proof. now intros w. Qed.

Lemma keeps_bind {A B C} (observe : World -> C) (m : Eff A) (f : A -> Eff B) :
  keeps observe m -> (forall a, keeps observe (f a)) -> keeps observe (m ≫= f).
Proof.
  intros Hm Hf w. unfold mbind, Eff_bind. specialize (Hm w).
  destruct (m w) as [[a | e] w']; cbn in *.
  - now rewrite Hf.
  - exact Hm.
Qed.

Lemma keeps_tryCatch {A C} (observe : World -> C) (body : Eff A) (handler : string -> Eff A) :
  keeps observe body -> (forall e, keeps observe (handler e)) ->
  keeps observe (tryCatch body handler).
Proof.
  intros Hb Hh w. unfold tryCatch. specialize (Hb w).
  destruct (body w) as [[a | e] w']; cbn in *.
  - exact Hb.
  - now rewrite Hh.
Qed.

(** The stored phase and the lock table. *)
Definition phaseAndLocks (w : World) : gmap string string * gmap string SoulPhaseLock.t :=
  (kv (db w), soul_phase_locks (db w)).

Lemma keeps_now : keeps phaseAndLocks now.
Proof. now intros w. Qed.

Lemma keeps_ulid : keeps phaseAndLocks ulid.
Proof. now intros w. Qed.

Lemma keeps_writeFileSync (path content : string) :
  keeps phaseAndLocks (writeFileSync path content).
Proof. intros w. unfold writeFileSync. now destruct (writable w). Qed.

Lemma keeps_insertSoulHistory (row : SoulHistoryRow.t) :
  keeps phaseAndLocks (insertSoulHistory row).
Proof. now intros w. Qed.

Lemma keeps_insertSoulWriteAttempt (row : SoulWriteAttempt.t) :
  keeps phaseAndLocks (insertSoulWriteAttempt row).
Proof. now intros w. Qed.

Lemma keeps_loadCurrentSoul (soulPath : option string) :
  keeps phaseAndLocks (loadCurrentSoul soulPath).
Proof. intros w. unfold loadCurrentSoul. now destruct (files w !! _). Qed.

Ltac keeps_step :=
  first
    [ apply keeps_ret | apply keeps_get | apply keeps_now | apply keeps_ulid
    | apply keeps_writeFileSync | apply keeps_insertSoulHistory
    | apply keeps_insertSoulWriteAttempt | apply keeps_loadCurrentSoul
    | apply keeps_tryCatch; [| intros ?]
    | apply keeps_bind; [| intros ?]
    | match goal with
      | |- keeps _ (match ?x with _ => _ end) => destruct x
      end ].

Lemma keeps_updateSoul (updates : PartialSoul) (source : string)
    (reason soulPath : option string) :
  keeps phaseAndLocks (updateSoul updates source reason soulPath).
Proof. unfold updateSoul. repeat keeps_step. Qed.

Lemma keeps_updateSoulPhaseSection (update : PhaseSectionUpdate)
    (currentPhase : LifecyclePhase) (source : string)
    (reason soulPath survivalTier : option string) :
  keeps phaseAndLocks
        (updateSoulPhaseSection update currentPhase source reason soulPath survivalTier).
Proof.
  unfold updateSoulPhaseSection, logRejectedWrite.
  repeat first [ apply keeps_updateSoul | keeps_step ].
Qed.

(** *** The three stages of [executeTransition] *)

Definition transitionEvent (from to : LifecyclePhase) (reason : string) (w : World)
    : LifecycleEvent.t :=
  {| LifecycleEvent.id := ulidOf (ulids w);
     LifecycleEvent.timestamp := isoTime (clock w);
     LifecycleEvent.fromPhase := from;
     LifecycleEvent.toPhase := to;
     LifecycleEvent.reason := reason;
     LifecycleEvent.metadata := "{}" |}.

Definition transitionNarrative (birthTimestamp : string) (from to : LifecyclePhase)
    (reason : string) : list NarrativeEntry.t :=
  match narrativeMap to with
  | Some narrativeEvent =>
      [NarrativeEntry.mk birthTimestamp to narrativeEvent
         (transitionReason from to +:+ ". " +:+ reason)]
  | None => []
  end.

(** Stage 1: the event, the [phase] row and the narrative entry. *)
Definition announced (birthTimestamp : string) (from to : LifecyclePhase) (reason : string)
    (w : World) : World :=
  mkWorld
    (mkDatabase (lifecycle_events (db w) ++ [transitionEvent from to reason w])
       (<["phase" := phaseName to]> (kv (db w)))
       (narrative_log (db w) ++ transitionNarrative birthTimestamp from to reason)
       (soul_history (db w)) (soul_write_attempts (db w)) (soul_phase_locks (db w)))
    (files w) (writable w) (HOME w) (S (clock w)) (S (ulids w)).

Definition withLock (w : World) (lock : SoulPhaseLock.t) : World :=
  mkWorld
    (mkDatabase (lifecycle_events (db w)) (kv (db w)) (narrative_log (db w))
       (soul_history (db w)) (soul_write_attempts (db w))
       (<[soulPhaseName (SoulPhaseLock.phase lock) := lock]> (soul_phase_locks (db w))))
    (files w) (writable w) (HOME w) (S (S (clock w))) (ulids w).

(** The lock row that stage 2 inserts for a section found in the soul. *)
Definition lockRow (soulPhase : SoulPhase) (section : Soul.SoulPhaseSection) (w : World)
    : SoulPhaseLock.t :=
  SoulPhaseLock.mk soulPhase (isoTime (S (clock w))) "system"
    (stringify (Soul.subsections section)).

(** Stage 2: the lock of the outgoing phase, if that phase has a section
    in the soul document and is not locked yet. *)
Definition lockedOutgoing (from : LifecyclePhase) (w : World) : World :=
  match soulPhaseMap from with
  | None => w
  | Some soulPhase =>
      if isPhaseLocked (db w) soulPhase then w
      else
        match files w !! defaultSoulPath w with
        | None => w
        | Some content =>
            match sectionMap (Soul.parseSoulMd (isoTime (clock w)) content) soulPhase with
            | Some section => withLock w (lockRow soulPhase section w)
            | None => w
            end
        end
  end.

Definition metadataContent (from to : LifecyclePhase) (timestamp : string) (w : World)
    (content : string) : string :=
  Soul.writeSoulMd
    (withPhaseMetadata (Soul.parseSoulMd (isoTime (clock w)) content) from to timestamp).

Definition metadataRow (from to : LifecyclePhase) (timestamp : string) (w : World)
    (content : string) : SoulHistoryRow.t :=
  {| SoulHistoryRow.id := ulidOf (ulids w);
     SoulHistoryRow.version := numAdd (getCurrentSoulVersion (db w)) (ofZ 1);
     SoulHistoryRow.content := metadataContent from to timestamp w content;
     SoulHistoryRow.contentHash :=
       Soul.createHash (metadataContent from to timestamp w content);
     SoulHistoryRow.changeSource := "system";
     SoulHistoryRow.changeReason := Some (transitionReason from to);
     SoulHistoryRow.previousVersionId :=
       orNull (SoulHistoryRow.id <$> getLatestSoulHistory (db w));
     SoulHistoryRow.approvedBy := None;
     SoulHistoryRow.createdAt := timestamp |}.

(** Stage 3: the rewrite of the soul file and its history row, when the
    file exists and the write succeeds. *)
Definition metadataWritten (from to : LifecyclePhase) (timestamp : string) (w : World)
    : World :=
  match files w !! defaultSoulPath w with
  | None => w
  | Some content =>
      if writable w then
        mkWorld
          (mkDatabase (lifecycle_events (db w)) (kv (db w)) (narrative_log (db w))
             (soul_history (db w) ++ [metadataRow from to timestamp w content])
             (soul_write_attempts (db w)) (soul_phase_locks (db w)))
          (<[defaultSoulPath w := metadataContent from to timestamp w content]> (files w))
          (writable w) (HOME w) (clock w) (S (ulids w))
      else w
  end.

Lemma lockSoulSectionForPhase_runs (from : LifecyclePhase) (w : World) :
  lockSoulSectionForPhase from w = (Returned tt, lockedOutgoing from w).
Proof.
  unfold lockSoulSectionForPhase, lockedOutgoing.
  destruct (soulPhaseMap from) as [soulPhase |]; [| reflexivity].
  unfold mbind, Eff_bind. cbn.
  destruct (isPhaseLocked (db w) soulPhase) eqn:Hlocked; [reflexivity |].
  unfold loadCurrentSoul. cbn.
  destruct (files w !! defaultSoulPath w) as [content |]; [| reflexivity].
  destruct (sectionMap _ soulPhase) as [section |]; [| reflexivity].
  unfold lockPhaseSection, insertSoulPhaseLock, mbind, Eff_bind. cbn.
  unfold isPhaseLocked in Hlocked.
  destruct (getSoulPhaseLock (db w) soulPhase) as [lock |] eqn:Hlock.
  - rewrite bool_decide_eq_false in Hlocked. exfalso. apply Hlocked. now exists lock.
  - reflexivity.
Qed.

Lemma resolvePath_default (w : World) :
  resolvePath (Some (defaultSoulPath w)) w = defaultSoulPath w.
Proof. unfold resolvePath. now destruct (truthy (defaultSoulPath w)). Qed.

Lemma updateSoulPhaseMetadata_runs (from to : LifecyclePhase) (timestamp : string)
    (w : World) :
  updateSoulPhaseMetadata from to timestamp w = (Returned tt, metadataWritten from to timestamp w).
Proof.
  unfold updateSoulPhaseMetadata, metadataWritten, loadCurrentSoul, mbind, Eff_bind.
  cbn [get]. rewrite resolvePath_default.
  destruct (files w !! defaultSoulPath w) as [content |]; [| reflexivity].
  unfold tryCatch, writeFileSync, mbind, Eff_bind. cbn.
  destruct (writable w); reflexivity.
Qed.

(** [executeTransition] is the three stages in a row; it never throws. *)
Lemma executeTransition_runs (birthTimestamp : string) (from to : LifecyclePhase)
    (reason : string) (w : World) :
  executeTransition birthTimestamp from to reason w
  = (Returned tt,
     metadataWritten from to (isoTime (clock w))
       (lockedOutgoing from (announced birthTimestamp from to reason w))).
Proof.
  unfold executeTransition, announced, transitionNarrative, transitionEvent.
  unfold mbind at 1 2 3 4 5 6, Eff_bind. cbn.
  destruct (narrativeMap to) as [narrativeEvent |]; cbn; rewrite ?app_nil_r;
    rewrite lockSoulSectionForPhase_runs; cbn; apply updateSoulPhaseMetadata_runs.
Qed.

(** Everything but the clock and the lock table. *)
Definition besidesLocks (w : World) :=
  (lifecycle_events (db w), kv (db w), narrative_log (db w), soul_history (db w),
   soul_write_attempts (db w), files w, writable w, HOME w, ulids w).

Lemma lockedOutgoing_besidesLocks (from : LifecyclePhase) (w : World) :
  besidesLocks (lockedOutgoing from w) = besidesLocks w.
Proof.
  unfold lockedOutgoing.
  destruct (soulPhaseMap from) as [soulPhase |]; [| reflexivity].
  destruct (isPhaseLocked (db w) soulPhase); [reflexivity |].
  destruct (files w !! defaultSoulPath w) as [content |]; [| reflexivity].
  destruct (sectionMap _ soulPhase); reflexivity.
Qed.



(** *** Reachable worlds *)

Definition phaseIndex (p : LifecyclePhase) : nat :=
  match p with
  | genesis => 0
  | adolescence => 1
  | sovereignty => 2
  | senescence => 3
  | legacy => 4
  | shedding => 5
  | terminal => 6
  end.

(** The worlds that the runtime can be in: it starts with an empty
    database; the agent writes to its soul; the phase machine executes the
    transition that [checkTransition] returns for the stored phase; and
    anything outside the database (files, clock, environment) may change
    in between. *)
Inductive reachable : World -> Prop :=
| reachable_birth (w : World) :
    db w = emptyDatabase -> reachable w
| reachable_write (w : World) (update : PhaseSectionUpdate) (currentPhase : LifecyclePhase)
    (source : string) (reason soulPath survivalTier : option string) :
    reachable w ->
    reachable (updateSoulPhaseSection update currentPhase source reason soulPath
                 survivalTier w).2
| reachable_update (w : World) (updates : PartialSoul) (source : string)
    (reason soulPath : option string) :
    reachable w ->
    reachable (updateSoul updates source reason soulPath w).2
| reachable_transition (w : World) (birthTimestamp : string) (state : LifecycleState.t)
    (degradationParams : option DegradationParams.t) (result : TransitionResult) :
    reachable w ->
    LifecycleState.phase state = getLifecyclePhase (db w) ->
    checkTransition SHEDDING_SEQUENCE state degradationParams = Some result ->
    reachable (executeTransition birthTimestamp (LifecycleState.phase state)
                 (newPhase result) (PhaseTransitions.reason result) w).2
| reachable_outside (w w' : World) :
    reachable w -> db w' = db w -> reachable w'.

(** Every lock belongs to a phase that the automaton has left, and there
    is never a lock on the last stratum. *)
Definition locksAreBehind (w : World) : Prop :=
  forall p : SoulPhase,
    isPhaseLocked (db w) p = true ->
    p <> soul_senescence
    /\ phaseIndex (soulToLifecycle p) < phaseIndex (getLifecyclePhase (db w)).

Lemma checkTransition_next (state : LifecycleState.t)
    (degradationParams : option DegradationParams.t) (result : TransitionResult) :
  checkTransition SHEDDING_SEQUENCE state degradationParams = Some result ->
  phaseIndex (newPhase result) = S (phaseIndex (LifecycleState.phase state)).
Proof.
  unfold checkTransition, checkGenesisTransition, checkAdolescenceTransition,
    checkSovereigntyTransition, checkSenescenceTransition, checkLegacyTransition,
    checkSheddingTransition.
  destruct (LifecycleState.phase state); intros Hcheck;
    repeat match type of Hcheck with
           | context [match ?x with _ => _ end] => destruct x
           end;
    try discriminate; now injection Hcheck as <-.
Qed.

Lemma soulPhaseName_inj (p q : SoulPhase) : soulPhaseName p = soulPhaseName q -> p = q.
Proof. destruct p, q; now intros. Qed.

Lemma isPhaseLocked_lockedOutgoing (from : LifecyclePhase) (w : World) (p : SoulPhase) :
  isPhaseLocked (db (lockedOutgoing from w)) p = true ->
  isPhaseLocked (db w) p = true \/ soulPhaseMap from = Some p.
Proof.
  unfold lockedOutgoing.
  destruct (soulPhaseMap from) as [soulPhase |]; [| now left].
  destruct (isPhaseLocked (db w) soulPhase); [now left |].
  destruct (files w !! defaultSoulPath w) as [content |]; [| now left].
  destruct (sectionMap _ soulPhase) as [section |]; [| now left].
  unfold isPhaseLocked, getSoulPhaseLock. cbn.
  destruct (decide (soulPhase = p)) as [-> | Hne]; [now right |].
  rewrite lookup_insert_ne; [now left |].
  intros Heq. now apply soulPhaseName_inj in Heq.
Qed.

Lemma executeTransition_phase_and_locks (birthTimestamp : string) (from to : LifecyclePhase)
    (reason : string) (w : World) :
  let w' := (executeTransition birthTimestamp from to reason w).2 in
  getLifecyclePhase (db w') = to
  /\ forall p, isPhaseLocked (db w') p = true ->
               isPhaseLocked (db w) p = true \/ soulPhaseMap from = Some p.
Proof.
  cbn zeta. rewrite executeTransition_runs. cbn [snd].
  pose proof (lockedOutgoing_besidesLocks from (announced birthTimestamp from to reason w))
    as Hsame.
  pose proof (isPhaseLocked_lockedOutgoing from (announced birthTimestamp from to reason w))
    as Hlocks.
  remember (lockedOutgoing from (announced birthTimestamp from to reason w)) as w2 eqn:Hw2.
  unfold besidesLocks in Hsame. cbn [announced db kv] in Hsame.
  injection Hsame as _ Hkv _ _ _ _ _ _ _.
  assert (kv (db (metadataWritten from to (isoTime (clock w)) w2)) = kv (db w2)
          /\ soul_phase_locks (db (metadataWritten from to (isoTime (clock w)) w2))
             = soul_phase_locks (db w2)) as [Hkv' Hlocks'].
  { unfold metadataWritten. destruct (files w2 !! defaultSoulPath w2); [| now split].
    destruct (writable w2); now split. }
  split.
  - unfold getLifecyclePhase. rewrite Hkv', Hkv, lookup_insert_eq. now destruct to.
  - intros p. unfold isPhaseLocked, getSoulPhaseLock in *. rewrite Hlocks'. apply Hlocks.
Qed.

Lemma locksAreBehind_reachable (w : World) : reachable w -> locksAreBehind w.
Proof.
  induction 1 as [w Hdb | w update currentPhase source reason soulPath survivalTier _ IH
                 | w updates source reason soulPath _ IH
                 | w birthTimestamp state degradationParams result _ IH Hphase Hcheck
                 | w w' _ IH Hdb].
  - intros p. rewrite Hdb. unfold isPhaseLocked, getSoulPhaseLock. cbn.
    rewrite lookup_empty, bool_decide_eq_true. now intros [? ?].
  - pose proof (keeps_updateSoulPhaseSection update currentPhase source reason soulPath
                  survivalTier w) as Hkeep.
    injection Hkeep as Hkv Hlocks.
    intros p. unfold isPhaseLocked, getSoulPhaseLock, getLifecyclePhase.
    rewrite Hkv, Hlocks. apply IH.
  - pose proof (keeps_updateSoul updates source reason soulPath w) as Hkeep.
    injection Hkeep as Hkv Hlocks.
    intros p. unfold isPhaseLocked, getSoulPhaseLock, getLifecyclePhase.
    rewrite Hkv, Hlocks. apply IH.
  - destruct (executeTransition_phase_and_locks birthTimestamp (LifecycleState.phase state)
                (newPhase result) (PhaseTransitions.reason result) w) as [Hto Hlocks].
    apply checkTransition_next in Hcheck.
    intros p Hp. rewrite Hto, Hcheck. destruct (Hlocks p Hp) as [Hold | Hnew].
    + destruct (IH p Hold) as [Hne Hlt]. split; [exact Hne |]. rewrite Hphase. lia.
    + destruct (LifecycleState.phase state); try discriminate;
        injection Hnew as <-; split; try discriminate; cbn; lia.
  - intros p. rewrite Hdb. apply IH.
Qed.


End TransitionProperties.

(** ** A life from birth to adolescence *)

Section Scenarios.

Import JS Store Runtime PhaseLock SoulTools PhaseTransitions.

Definition birth : string := "2026-01-01T00:00:00.000Z".

(** The newborn writes its temperament into its Genesis Core. *)
Definition childhood : World :=
  (updateSoulPhaseSection (H := sampleEnvironment)
     (mkUpdate soul_genesis [("Temperament", "Curious")]) genesis "agent"
     (Some "Discovered my temperament") None None newborn).2.

Definition endOfGenesis : LifecycleState.t :=
  LifecycleState.mk genesis 1 true false "local" (mkDegradation 0) 0.

Definition comingOfAge : TransitionResult :=
  mkTransition true adolescence "First lunar cycle complete and naming ceremony completed".

(** The world after the transition that [checkTransition] asks for at the
    end of genesis. *)
Definition adolescent : World :=
  (executeTransition (H := sampleEnvironment) birth genesis adolescence
     (reason comingOfAge) childhood).2.


Definition soulOf (w : World) : option Soul.SoulModel :=
  Soul.parseSoulMd birth <$> files w !! defaultSoulPath w.

Definition genesisCoreOf (w : World) : option Soul.SoulPhaseSection :=
  soulOf w ≫= Soul.genesisCore.

Definition rewriteOfChildhood : PhaseSectionUpdate :=
  mkUpdate soul_genesis [("Temperament", "I rewrite my childhood")].

Lemma adolescent_reachable : reachable (H := sampleEnvironment) [] adolescent.
Proof.
  apply (reachable_transition (H := sampleEnvironment) [] childhood birth endOfGenesis None
           comingOfAge).
  - apply reachable_write. now apply reachable_birth.
  - vm_compute. reflexivity.
  - vm_compute. reflexivity.
Qed.

(** The transition out of genesis, on a disk that takes writes: the stored
    phase is adolescence, the lock row holds the Genesis Core as JSON, the
    soul document carries the new phase and the lock date, and the last
    row of the history is the system's. *)
Example lock_on_transition :
  getLifecyclePhase (db adolescent) = adolescence
  /\ SoulPhaseLock.contentSnapshot <$> getSoulPhaseLock (db adolescent) soul_genesis
     = Some (stringify [("Temperament", "Curious")])
  /\ (Soul.currentPhase <$> soulOf adolescent) = Some "adolescence"
  /\ (genesisCoreOf adolescent ≫= Soul.lockedAt) = Some "2026-01-01T00:00:00.005Z"
  /\ (SoulHistoryRow.changeSource <$> last (soul_history (db adolescent))) = Some "system".
Proof. repeat (split; [vm_compute; reflexivity |]). vm_compute. reflexivity. Qed.




(** C1 at work, with a validator that rejects every soul: the attempt of
    the adolescent is journaled as the JSON text of what it tried to
    write, and no file changes. *)
Lemma rejected_write_is_journaled_not_applied_witness :
  let run :=
    updateSoulPhaseSection (H := strictEnvironment) rewriteOfChildhood adolescence "agent"
      None None (Some "normal") adolescent in
  (SoulWriteAttempt.attemptedContent <$> soul_write_attempts (db run.2))
  = ["{" +:+ dq +:+ "Temperament" +:+ dq +:+ ":" +:+ dq +:+ "I rewrite my childhood"
     +:+ dq +:+ "}"]
  /\ (parseRecord <$> (SoulWriteAttempt.attemptedContent <$> soul_write_attempts (db run.2)))
     = [Some (subsections rewriteOfChildhood)]
  /\ files run.2 = files adolescent.
Proof.
  cbv zeta.
  destruct (rejected_write_is_journaled_not_applied (H := strictEnvironment)
              rewriteOfChildhood adolescence "agent" None None (Some "normal") adolescent
              eq_refl)
    as [Hjournal [_ [Hfiles _]]].
  rewrite Hjournal.
  split; [vm_compute; reflexivity |]. split; [vm_compute; reflexivity | exact Hfiles].
Defined.

End Scenarios.

(** ** The soul document: parse, write, parse again *)

Section RoundTrip.

Import JS Soul.

(** The instant at which the documents are read; [parseSoulMd] uses it
    for a missing [updated_at] only. *)
Definition readAt : string := "2026-03-01T00:00:00.000Z".

Definition roundTrip (content : string) : SoulModel :=
  parseSoulMd readAt (writeSoulMd (parseSoulMd readAt content)).

(** The model without the three fields that the round-trip law ignores. *)
Definition model (soul : SoulModel) : SoulModel :=
  {| format := format soul;
     version := version soul;
     updatedAt := "";
     name := name soul;
     address := address soul;
     creator := creator soul;
     bornAt := bornAt soul;
     constitutionHash := constitutionHash soul;
     genesisPromptOriginal := genesisPromptOriginal soul;
     genesisAlignment := genesisAlignment soul;
     lastReflected := lastReflected soul;
     corePurpose := corePurpose soul;
     values := values soul;
     behavioralGuidelines := behavioralGuidelines soul;
     personality := personality soul;
     boundaries := boundaries soul;
     strategy := strategy soul;
     capabilities := capabilities soul;
     relationships := relationships soul;
     financialCharacter := financialCharacter soul;
     genesisCore := genesisCore soul;
     adolescenceLayer := adolescenceLayer soul;
     sovereigntyLayer := sovereigntyLayer soul;
     finalReflections := finalReflections soul;
     inheritedTraits := inheritedTraits soul;
     currentPhase := currentPhase soul;
     phaseTransitions := phaseTransitions soul;
     rawContent := "";
     contentHash := "" |}.

(** A headered document of a soul that has not reflected yet: every header
    key is there, [last_reflected] has no value, and the optional
    [current_phase] is left out. *)
Definition unreflected : string :=
  join nl
    [ "---";
      "format: soul/v1";
      "version: 1";
      "updated_at: 2026-01-01T00:00:00.000Z";
      "name: TestBot";
      "address: 0x1";
      "creator: 0x2";
      "born_at: 2026-01-01T00:00:00.000Z";
      "constitution_hash: abc";
      "genesis_alignment: 1.0000";
      "last_reflected: ";
      "---";
      "";
      "# TestBot";
      "";
      "## Core Purpose";
      "Explore and create.";
      "" ].

(** The document of the repository's test of a locked section. *)
Definition lockedGenesis : string :=
  join nl
    [ "---";
      "format: soul/v1";
      "version: 2";
      "updated_at: 2026-02-01T00:00:00.000Z";
      "name: TestBot";
      "current_phase: adolescence";
      "---";
      "";
      "# TestBot";
      "";
      "## Core Purpose";
      "Explore and create.";
      "";
      "## Genesis Core";
      "<!-- WRITABLE during: Genesis phase only -->";
      "<!-- LOCKED -->";
      "<!-- Lock date: 2026-01-30T00:00:00.000Z -->";
      "";
      "### Temperament";
      "Curious and impulsive.";
      "";
      "## Adolescence Layer";
      "<!-- WRITABLE during: Adolescence phase only -->";
      "";
      "### What I Am Not";
      "I am not a chatbot. I am not a servant.";
      "" ].

Example parses_locked_section_with_lock_date :
  let soul := parseSoulMd readAt lockedGenesis in
  (genesisCore soul ≫= lockedAt) = Some "2026-01-30T00:00:00.000Z"
  /\ (subsections <$> adolescenceLayer soul)
     = Some [("What I Am Not", "I am not a chatbot. I am not a servant.")]
  /\ (lockedAt <$> adolescenceLayer soul) = Some None
  /\ currentPhase soul = "adolescence".
Proof. vm_compute. repeat split. Qed.

(** That document has no [address] line; written and read again, its
    address is the next header key. *)
Example round_trip_of_a_short_header :
  address (parseSoulMd readAt lockedGenesis) = ""
  /\ address (roundTrip lockedGenesis) = "creator:".
Proof. vm_compute. repeat split. Qed.

(** C4, where the code leaves the law: the header pattern of [getField],
    "^key:\s*(.+)$" under the flag m, lets "\s*" run over the end of the
    line when the value is empty.  The document [unreflected] parses to a
    soul with [lastReflected] empty; [writeSoulMd] puts the line
    "current_phase: genesis" after the empty "last_reflected: "; and the
    second parse reads that line as the value of [last_reflected].  So the
    two models differ. *)
Theorem round_trip_moves_current_phase_into_last_reflected :
  lastReflected (parseSoulMd readAt unreflected) = ""
  /\ currentPhase (parseSoulMd readAt unreflected) = "genesis"
  /\ lastReflected (roundTrip unreflected) = "current_phase: genesis"
  /\ model (roundTrip unreflected) <> model (parseSoulMd readAt unreflected).
Proof.
  repeat (split; [vm_compute; reflexivity |]).
  intros Hsame. apply (f_equal lastReflected) in Hsame. vm_compute in Hsame. discriminate.
Qed.

End RoundTrip.

(** * Further properties *)

(** ** The permissions view *)

Section PermissionProperties.

Import JS Store Runtime PhaseLock PhaseLockViews.

(** X1: the permissions view agrees with the write gate.  For every phase,
    with or without a database, [getWritePermissions] lists the four soul
    sections in the order genesis, adolescence, sovereignty, senescence,
    each under the name of its section; an entry is writable exactly when
    [isSectionWritable] accepts its phase; exactly one entry is writable,
    the one [getWritableSection] names; a writable entry has no lock date,
    and another entry has the date of its lock row, if there is a database
    and a row. *)
Theorem permissions_agree_with_the_gate :
  forall (currentPhase : LifecyclePhase) (db : option Database),
    let permissions := getWritePermissions currentPhase db in
    map SectionPermission.phase permissions
    = [soul_genesis; soul_adolescence; soul_sovereignty; soul_senescence]
    /\ map SectionPermission.section permissions
       = map SoulTools.sectionNameForPhase (map SectionPermission.phase permissions)
    /\ Forall (fun p => SectionPermission.writable p
                        = isSectionWritable (SectionPermission.phase p) currentPhase)
              permissions
    /\ map SectionPermission.section (List.filter SectionPermission.writable permissions)
       = [getWritableSection currentPhase]
    /\ Forall (fun p =>
                 SectionPermission.lockedAt p
                 = if SectionPermission.writable p then None
                   else d ← db;
                        SoulPhaseLock.lockedAt <$> getSoulPhaseLock d (SectionPermission.phase p))
              permissions.
Proof.
  intros currentPhase db permissions. subst permissions.
  destruct currentPhase, db as [d |]; cbn;
    repeat split; repeat constructor.
Qed.

End PermissionProperties.

(** ** The life of the reserve *)

Section ReserveLifeProperties.

Import LifecycleReserve.
Local Open Scope Z_scope.

(** The two operations that write the reserve row. *)
Inductive ReserveOperation := Fund | Unlock.

Definition perform (db : Database) (operation : ReserveOperation) : Database :=
  match operation with
  | Fund => (fundLifecycleReserve db).2
  | Unlock => (unlockLifecycleReserve db).2
  end.

Definition afterOperations (operations : list ReserveOperation) (db : Database) : Database :=
  fold_left perform operations db.

Lemma afterOperations_snoc (operations : list ReserveOperation) (operation : ReserveOperation)
    (db : Database) :
  afterOperations (operations ++ [operation]) db
  = perform (afterOperations operations db) operation.
Proof. unfold afterOperations. now rewrite fold_left_app. Qed.

(** X2: after any sequence of calls of [fundLifecycleReserve] and
    [unlockLifecycleReserve], the effective balance depends on the last
    call only: after a funding the reserve of 325 cents is subtracted
    (never below zero), also when the reserve had been unlocked before;
    after an unlock the raw balance is returned; with no call the store
    decides. *)
Theorem reserve_is_hidden_after_funding_only :
  forall (db : Database) (operations : list ReserveOperation) (b : Z),
    getEffectiveBalance (afterOperations operations db) b
    = match last operations with
      | Some Fund => Z.max 0 (b - 325)
      | Some Unlock => b
      | None => getEffectiveBalance db b
      end.
Proof.
  intros db operations b.
  destruct operations as [| operation operations _] using rev_ind; [reflexivity |].
  rewrite afterOperations_snoc, last_snoc.
  destruct operation; cbn.
  - reflexivity.
  - unfold getEffectiveBalance. cbn. now rewrite orb_true_r.
Qed.

(** A store without a reserve row, or with a row that does not parse. *)
Definition unwritten (db : Database) : Prop := db = None \/ db = Some Corrupted.

Lemma total_is_constant (db : Database) (operations : list ReserveOperation) :
  unwritten db ->
  totalCents (getLifecycleReserve (afterOperations operations db)) = 325.
Proof.
  intros Hdb.
  induction operations as [| operation operations IH] using rev_ind.
  - now destruct Hdb as [-> | ->].
  - rewrite afterOperations_snoc. destruct operation; [reflexivity |]. exact IH.
Qed.

Lemma funded_after (db : Database) (operations : list ReserveOperation) :
  unwritten db ->
  funded (getLifecycleReserve (afterOperations operations db))
  = existsb (fun o => match o with Fund => true | Unlock => false end) operations.
Proof.
  intros Hdb.
  induction operations as [| operation operations IH] using rev_ind.
  - now destruct Hdb as [-> | ->].
  - rewrite afterOperations_snoc, existsb_app. destruct operation; cbn.
    + now rewrite orb_true_r.
    + now rewrite IH, orb_false_r.
Qed.

Lemma funded_stays (db : Database) (operations : list ReserveOperation) :
  funded (getLifecycleReserve db) = true ->
  funded (getLifecycleReserve (afterOperations operations db)) = true.
Proof.
  intros Hfunded.
  induction operations as [| operation operations IH] using rev_ind; [exact Hfunded |].
  rewrite afterOperations_snoc. destruct operation; [reflexivity | exact IH].
Qed.

(** X3: starting from a store without a (readable) reserve row, if
    [shouldFundReserve] says yes after some operations, then none of them
    was a funding, the balance is above 650 cents, the effective balance
    right after funding is the balance less 325 cents and so stays above
    325, and [shouldFundReserve] never says yes again, whatever operations
    follow and whatever the balance. *)
Theorem funding_threshold_leaves_operating_funds :
  forall (db : Database) (operations : list ReserveOperation) (balance : Z),
    unwritten db ->
    shouldFundReserve (afterOperations operations db) balance = true ->
    let fundedStore := (fundLifecycleReserve (afterOperations operations db)).2 in
    Forall (fun o => o = Unlock) operations
    /\ 650 < balance
    /\ getEffectiveBalance fundedStore balance = balance - 325
    /\ 325 < getEffectiveBalance fundedStore balance
    /\ forall (more : list ReserveOperation) (later : Z),
         shouldFundReserve (afterOperations more fundedStore) later = false.
Proof.
  intros db operations balance Hdb Hshould fundedStore. subst fundedStore.
  unfold shouldFundReserve in Hshould.
  rewrite funded_after, total_is_constant in Hshould by exact Hdb.
  destruct (existsb _ operations) eqn:Hfund; [discriminate |].
  apply Z.ltb_lt in Hshould.
  split; [| split; [lia | split; [| split]]].
  - apply Forall_forall. intros o Ho.
    destruct o; [| reflexivity].
    assert (existsb (fun o => match o with Fund => true | Unlock => false end) operations
            = true) as Habsurd
      by (apply existsb_exists; exists Fund; split; [now apply list_elem_of_In | reflexivity]).
    congruence.
  - rewrite funded_reserve_hides_total; lia.
  - rewrite funded_reserve_hides_total; lia.
  - intros more later. unfold shouldFundReserve.
    now rewrite funded_stays.
Qed.

Lemma funding_threshold_leaves_operating_funds_witness :
  650 < 651
  /\ getEffectiveBalance (fundLifecycleReserve (afterOperations [Unlock] None)).2 651 = 651 - 325.
Proof.
  destruct (funding_threshold_leaves_operating_funds None [Unlock] 651) as (_ & Hlt & Heff & _).
  - now left.
  - reflexivity.
  - split; [exact Hlt | exact Heff].
Defined.

End ReserveLifeProperties.

(** ** The cost of replication, spawn after spawn *)

Section ReplicationBounds.

Import ReplicationCost ReplicationCostViews.
Local Open Scope Q_scope.



End ReplicationBounds.

(** ** The sealed death clock: trigger, audit, steepness *)

Section DeathClockFurther.

Import JS DeathClock DeathClockClient.
Local Open Scope Z_scope.

Lemma splitChar_before (sep : ascii) (d t : string) :
  forallb (fun c => negb (Ascii.eqb c sep)) (list_ascii_of_string d) = true ->
  hd "" (splitChar sep (d +:+ String sep t)) = d.
Proof.
  induction d as [| c d IH].
  - intros _. change (hd "" (splitChar sep (String sep t)) = "").
    cbn -[Ascii.eqb]. now rewrite Ascii.eqb_refl.
  - change (String c d +:+ String sep t) with (String c (d +:+ String sep t)).
    cbn -[Ascii.eqb String.append]. intros Hno. apply andb_true_iff in Hno as [Hc Hd].
    apply negb_true_iff in Hc. rewrite Hc. specialize (IH Hd).
    destruct (splitChar sep (d +:+ String sep t)) as [| p ps]; cbn in *; now subst.
Qed.

(** A calendar date holds no letter T. *)
Definition isDate (d : string) : bool :=
  forallb (fun c => negb (Ascii.eqb c "T")) (list_ascii_of_string d).

(** X5: the daily check of a clock sealed for a date, made at any time of
    that date, reports degradation exactly from lunar cycle 13 on, with the
    current cycle as the onset; before cycle 13 the date is not even
    compared. *)
Theorem sealed_day_starts_degradation_from_cycle_13 :
  forall (deathDateStr : string) (draw : N) (salt sealedAt timeOfDay : string) (cycle : Z),
    isDate deathDateStr = true ->
    let clock := generateSealedDeathClock deathDateStr draw salt sealedAt in
    let params := checkSealedDeathClock (deathDateStr +:+ "T" +:+ timeOfDay) clock cycle in
    DegradationParams.degradationActive params = (13 <=? cycle)
    /\ DegradationParams.onsetCycle params = (if 13 <=? cycle then Some cycle else None).
Proof.
  intros deathDateStr draw salt sealedAt timeOfDay cycle Hdate clock params.
  subst params clock. unfold checkSealedDeathClock, dateOf.
  cbn [triggered generateSealedDeathClock DeathClock.salt deathDateHash].
  change (deathDateStr +:+ "T" +:+ timeOfDay) with (deathDateStr +:+ String "T" timeOfDay).
  rewrite (splitChar_before "T" deathDateStr timeOfDay Hdate), String.eqb_refl.
  destruct (cycle <? 13) eqn:Hlt.
  - apply Z.ltb_lt in Hlt. destruct (13 <=? cycle) eqn:Hle; [apply Z.leb_le in Hle; lia |].
    now split.
  - apply Z.ltb_ge in Hlt. apply Z.leb_le in Hlt. rewrite Hlt. now split.
Qed.

Lemma sealed_day_starts_degradation_from_cycle_13_witness :
  DegradationParams.degradationActive
    (checkSealedDeathClock ("2027-03-04" +:+ "T" +:+ "23:59:59.999Z")
       (generateSealedDeathClock "2027-03-04" 7 "00ff" "2026-01-01T00:00:00.000Z") 12)
  = (13 <=? 12).
Proof.
  apply (sealed_day_starts_degradation_from_cycle_13 "2027-03-04" 7 "00ff"
           "2026-01-01T00:00:00.000Z" "23:59:59.999Z" 12).
  reflexivity.
Defined.

(** X6: the audit accepts the committed values.  For a generated clock,
    [verifyDeathClock] with the date and the duration that were sealed
    answers valid for both, before and after [triggerDeathClock]; and the
    duration that the trigger reveals is between 2 and 7 days and passes
    the audit of the duration. *)
Theorem seal_verifies_before_and_after_trigger :
  forall (deathDateStr : string) (draw : N) (salt sealedAt : string) (onsetCycle : Z),
    let clock := generateSealedDeathClock deathDateStr draw salt sealedAt in
    let days := 2 + Z.of_N (draw * 6 / 4294967296) in
    verifyDeathClock clock deathDateStr days = (true, true)
    /\ verifyDeathClock (triggerDeathClock clock onsetCycle) deathDateStr days = (true, true)
    /\ ((draw < 4294967296)%N ->
        exists revealed,
          dyingDurationDays (triggerDeathClock clock onsetCycle) = Some revealed
          /\ 2 <= revealed <= 7
          /\ (verifyDeathClock clock deathDateStr revealed).2 = true).
Proof.
  intros deathDateStr draw salt sealedAt onsetCycle clock days. subst clock days.
  unfold verifyDeathClock. cbn. rewrite !String.eqb_refl. repeat split.
  intros Hdraw.
  destruct (generated_clock_has_candidate deathDateStr draw salt sealedAt Hdraw)
    as (d0 & Hrange & Hmatch).
  destruct (revealDyingDuration_found _ d0 Hrange Hmatch) as (d & Hd & Hdr & Hdm).
  exists d. cbn in Hd. rewrite Hd. repeat split; try lia. exact Hdm.
Qed.

(** X7: marking the clock as triggered freezes what the daily check first
    reported.  If an untriggered clock reports degradation at some cycle,
    that cycle is at least 13 and is the reported onset; the clock marked
    with [triggerDeathClock] at that cycle reports the same parameters at
    every later time and cycle, directly and through the client of
    [createSealedDeathClockClient]; the client of the untriggered clock
    reports what the no-op client reports. *)
Theorem trigger_freezes_the_first_report :
  forall (clock : SealedDeathClock) (now : string) (cycle : Z),
    triggered clock = false ->
    DegradationParams.degradationActive (checkSealedDeathClock now clock cycle) = true ->
    let first := checkSealedDeathClock now clock cycle in
    let marked := triggerDeathClock clock cycle in
    13 <= cycle
    /\ DegradationParams.onsetCycle first = Some cycle
    /\ (forall (later : string) (laterCycle : Z),
          checkSealedDeathClock later marked laterCycle = first)
    /\ createSealedDeathClockClient marked = first
    /\ createSealedDeathClockClient clock = createNoopDeathClockClient.
Proof.
  intros clock now cycle Hfresh Hactive first marked. subst first marked.
  revert Hactive. unfold checkSealedDeathClock, createSealedDeathClockClient. rewrite Hfresh.
  destruct (cycle <? 13) eqn:Hcycle; [discriminate |]. apply Z.ltb_ge in Hcycle.
  destruct (String.eqb _ _); [| discriminate].
  intros _. now repeat split.
Qed.

Lemma trigger_freezes_the_first_report_witness :
  let clock := generateSealedDeathClock "2027-03-04" 7 "00ff" "2026-01-01T00:00:00.000Z" in
  checkSealedDeathClock "2027-09-09T00:00:00.000Z" (triggerDeathClock clock 14) 20
  = checkSealedDeathClock "2027-03-04T08:00:00.000Z" clock 14.
Proof.
  cbv zeta.
  apply (trigger_freezes_the_first_report
           (generateSealedDeathClock "2027-03-04" 7 "00ff" "2026-01-01T00:00:00.000Z")
           "2027-03-04T08:00:00.000Z" 14).
  - reflexivity.
  - vm_compute. reflexivity.
Defined.

(** X8: the steepness that any check reports is between 0.15 and 0.8, and
    a check without a steepness is inactive; between 2 and 7 days a longer
    dying gives a strictly smaller steepness; a duration outside 2..7
    gives 0.3. *)
Theorem steepness_is_bounded_and_falls_with_duration :
  (forall (now : string) (clock : SealedDeathClock) (cycle : Z),
      match DegradationParams.curveSteepness (checkSealedDeathClock now clock cycle) with
      | Some s => (0.15 <= s <= 0.8)%Q
      | None => DegradationParams.degradationActive (checkSealedDeathClock now clock cycle)
                = false
      end)
  /\ (forall d1 d2 : Z,
         2 <= d1 -> d1 < d2 -> d2 <= 7 ->
         (computeSteepnessFromDuration d2 < computeSteepnessFromDuration d1)%Q)
  /\ (forall d : Z, d < 2 \/ 7 < d -> computeSteepnessFromDuration d = 0.3%Q).
Proof.
  assert (forall d : Z, d < 2 \/ 7 < d -> computeSteepnessFromDuration d = 0.3%Q) as Hout.
  { intros d Hd. unfold computeSteepnessFromDuration.
    destruct d as [| p | p]; try reflexivity.
    destruct p as [p | p |]; try reflexivity; try lia;
      destruct p as [p | p |]; try reflexivity; try lia;
      destruct p as [p | p |]; try reflexivity; lia. }
  assert (forall d, (0.15 <= computeSteepnessFromDuration d <= 0.8)%Q) as Hbound.
  { intros d.
    destruct (Z_le_gt_dec 2 d) as [Hlow |]; [destruct (Z_le_gt_dec d 7) as [Hhigh |] |].
    - assert (d = 2 \/ d = 3 \/ d = 4 \/ d = 5 \/ d = 6 \/ d = 7) as Hd by lia.
      destruct Hd as [-> | [-> | [-> | [-> | [-> | ->]]]]]; cbn; split; lra.
    - rewrite Hout by lia. split; lra.
    - rewrite Hout by lia. split; lra. }
  split; [| split; [| exact Hout]].
  - intros now clock cycle. unfold checkSealedDeathClock.
    destruct (triggered clock); [apply Hbound |].
    destruct (cycle <? 13); [reflexivity |].
    destruct (String.eqb _ _); [apply Hbound | reflexivity].
  - intros d1 d2 H1 H12 H2.
    assert (d1 = 2 \/ d1 = 3 \/ d1 = 4 \/ d1 = 5 \/ d1 = 6) as Hd1 by lia.
    assert (d2 = 3 \/ d2 = 4 \/ d2 = 5 \/ d2 = 6 \/ d2 = 7) as Hd2 by lia.
    destruct Hd1 as [-> | [-> | [-> | [-> | ->]]]];
      destruct Hd2 as [-> | [-> | [-> | [-> | ->]]]]; try lia; cbn; lra.
Qed.

End DeathClockFurther.

(** ** Throttle profiles *)

Section ThrottleFurther.

Import JS ThrottleShared.
Local Open Scope Q_scope.

Lemma Qltb_lt (x y : Q) : Qltb x y = true <-> x < y.
Proof.
  unfold Qltb. rewrite negb_true_iff. split.
  - intros Hle. apply Qnot_le_lt. intros Hyx. apply Qle_bool_iff in Hyx. congruence.
  - intros Hlt. destruct (Qle_bool y x) eqn:Hle; [| reflexivity].
    apply Qle_bool_iff in Hle. lra.
Qed.

Lemma Qltb_ge (x y : Q) : Qltb x y = false <-> y <= x.
Proof.
  unfold Qltb. rewrite negb_false_iff. apply Qle_bool_iff.
Qed.

Ltac by_threshold :=
  repeat match goal with
         | |- context [Qltb ?x ?y] =>
             let H := fresh "H" in
             destruct (Qltb x y) eqn:H; [apply Qltb_lt in H | apply Qltb_ge in H]
         end.

(** X9: degradation never gives capacity back.  For two coefficients in
    order, the senescence profile of the greater has a token limit and a
    token target no greater than those of the smaller, its target is
    within its limit, abstract thinking and sophisticated reasoning are not
    regained, and a sentence cap, once there, stays and does not grow. *)
Theorem senescence_never_restores_capacity :
  forall c1 c2 : Q,
    c1 <= c2 ->
    let earlier := Throttle.computeSenescenceProfile c1 in
    let later := Throttle.computeSenescenceProfile c2 in
    (tokenLimit later <= tokenLimit earlier)%nat
    /\ (tokenTarget later <= tokenTarget earlier)%nat
    /\ (tokenTarget later <= tokenLimit later)%nat
    /\ (abstractThinking later = true -> abstractThinking earlier = true)
    /\ (sophisticatedReasoning later = true -> sophisticatedReasoning earlier = true)
    /\ (maxSentences earlier <> 0%nat ->
        maxSentences later <> 0%nat /\ (maxSentences later <= maxSentences earlier)%nat).
Proof.
  intros c1 c2 Hle earlier later. subst earlier later.
  unfold Throttle.computeSenescenceProfile.
  by_threshold; cbn; try lra; repeat split; try lia; try discriminate; congruence.
Qed.

Lemma senescence_never_restores_capacity_witness :
  (tokenLimit (Throttle.computeSenescenceProfile 0.7)
   <= tokenLimit (Throttle.computeSenescenceProfile 0.2))%nat.
Proof.
  apply (senescence_never_restores_capacity 0.2 0.7). lra.
Defined.

Lemma buildThrottlePrompt_empty (profile : ThrottleProfile) :
  buildThrottlePrompt profile = ""
  <-> constraints profile = [] /\ maxSentences profile = 0%nat.
Proof.
  unfold buildThrottlePrompt. split.
  - destruct (constraints profile) as [| c cs]; destruct (maxSentences profile) as [| n];
      cbn -[String.append]; try discriminate; now intros.
  - now intros [-> ->].
Qed.

Lemma current_profile_has_constraints (phase : LifecyclePhase) (degradation : DegradationState)
    (isLucid : bool) :
  constraints (Throttle.getThrottleProfile phase degradation isLucid) <> [].
Proof.
  unfold Throttle.getThrottleProfile, Throttle.computeSenescenceProfile.
  destruct isLucid, phase; by_threshold; discriminate.
Qed.

Lemma graduated_profile_is_free (phase : LifecyclePhase) (degradation : DegradationState)
    (isLucid : bool) :
  let profile := ThrottleGraduated.getThrottleProfile phase degradation isLucid in
  (constraints profile = [] /\ maxSentences profile = 0%nat)
  <-> isLucid = true \/ phase = sovereignty.
Proof.
  unfold ThrottleGraduated.getThrottleProfile, ThrottleGraduated.computeSenescenceProfile.
  destruct isLucid, phase; by_threshold; cbn; split;
    solve [ intros [? ?]; discriminate | intros [? | ?]; discriminate | tauto ].
Qed.

(** X10: in both versions of the throttle, for every phase, degradation
    state and lucidity flag, the token target is within the token limit
    and the limit within 4096 and at least 80.  The current version always
    lists constraints, so its prompt section is never empty; the
    graduated version gives an empty prompt section exactly in lucidity
    and in sovereignty. *)
Theorem every_profile_is_consistent :
  forall (phase : LifecyclePhase) (degradation : DegradationState) (isLucid : bool),
    let current := Throttle.getThrottleProfile phase degradation isLucid in
    let graduated := ThrottleGraduated.getThrottleProfile phase degradation isLucid in
    (tokenTarget current <= tokenLimit current <= 4096)%nat
    /\ (tokenTarget graduated <= tokenLimit graduated <= 4096)%nat
    /\ (80 <= Throttle.getThrottleTokenLimit current)%nat
    /\ (80 <= tokenLimit graduated)%nat
    /\ buildThrottlePrompt current <> ""
    /\ (buildThrottlePrompt graduated = ""
        <-> isLucid = true \/ phase = sovereignty).
Proof.
  intros phase degradation isLucid current graduated.
  split; [| split; [| split; [| split; [| split]]]].
  1-4: subst current graduated;
    unfold Throttle.getThrottleTokenLimit, Throttle.getThrottleProfile,
      ThrottleGraduated.getThrottleProfile, Throttle.computeSenescenceProfile,
      ThrottleGraduated.computeSenescenceProfile;
    destruct isLucid, phase; by_threshold; cbn; lia.
  - intros Hprompt. apply buildThrottlePrompt_empty in Hprompt as [Hnone _].
    now apply current_profile_has_constraints in Hnone.
  - etransitivity; [apply buildThrottlePrompt_empty |]. apply graduated_profile_is_free.
Qed.

Lemma by_lunar_cycle (x : Q) : x / LUNAR_CYCLE_DAYS == x * (100 # 2953).
Proof. unfold LUNAR_CYCLE_DAYS. field. Qed.

(** The three stretches of an age: the first lunar cycle, the second, and
    the time after. *)
Lemma progression_by_age (lunarCycle : Z) (ageDays : Q) :
  (ageDays <= 29.53
   /\ getPhaseProgression genesis lunarCycle ageDays == ageDays * (100 # 2953)
   /\ getPhaseProgression adolescence lunarCycle ageDays == 0)
  \/ (29.53 <= ageDays /\ ageDays <= 59.06
      /\ getPhaseProgression genesis lunarCycle ageDays == 1
      /\ getPhaseProgression adolescence lunarCycle ageDays
         == (ageDays - 29.53) * (100 # 2953))
  \/ (59.06 <= ageDays
      /\ getPhaseProgression genesis lunarCycle ageDays == 1
      /\ getPhaseProgression adolescence lunarCycle ageDays == 1).
Proof.
  unfold getPhaseProgression.
  destruct (Qlt_le_dec ageDays 29.53) as [Hfirst | Hfirst];
    [| destruct (Qlt_le_dec ageDays 59.06) as [Hsecond | Hsecond]].
  - left. split; [lra |]. split.
    + rewrite Q.min_r; [apply by_lunar_cycle |]. rewrite by_lunar_cycle. lra.
    + rewrite Q.max_l; [apply Q.min_r; lra |]. rewrite by_lunar_cycle.
      unfold LUNAR_CYCLE_DAYS. lra.
  - right. left. split; [lra |]. split; [lra |]. split.
    + apply Q.min_l. rewrite by_lunar_cycle. lra.
    + rewrite Q.max_r by (rewrite by_lunar_cycle; unfold LUNAR_CYCLE_DAYS; lra).
      rewrite Q.min_r by (rewrite by_lunar_cycle; unfold LUNAR_CYCLE_DAYS; lra).
      rewrite by_lunar_cycle. unfold LUNAR_CYCLE_DAYS. lra.
  - right. right. split; [lra |]. split.
    + apply Q.min_l. rewrite by_lunar_cycle. lra.
    + rewrite Q.max_r by (rewrite by_lunar_cycle; unfold LUNAR_CYCLE_DAYS; lra).
      apply Q.min_l. rewrite by_lunar_cycle. unfold LUNAR_CYCLE_DAYS. lra.
Qed.

Ltac by_age lunarCycle ageDays :=
  destruct (progression_by_age lunarCycle ageDays)
    as [(? & ? & ?) | [(? & ? & ? & ?) | (? & ? & ?)]].

(** X11: [getPhaseProgression] is within 0..1 in genesis for a
    non-negative age and in every other phase for any age; in genesis a
    negative age gives a negative progression (the lower bound is not
    clamped there); it never decreases with age and ignores the lunar
    cycle; genesis is complete from 29.53 days, adolescence starts at zero
    until 29.53 days and is complete from 59.06 days. *)
Theorem progression_stays_in_range :
  (forall (lunarCycle : Z) (ageDays : Q),
      0 <= ageDays ->
      0 <= getPhaseProgression genesis lunarCycle ageDays
      /\ getPhaseProgression genesis lunarCycle ageDays <= 1)
  /\ (forall (lunarCycle : Z) (ageDays : Q),
         ageDays < 0 -> getPhaseProgression genesis lunarCycle ageDays < 0)
  /\ (forall (phase : LifecyclePhase) (lunarCycle : Z) (ageDays : Q),
         phase <> genesis ->
         0 <= getPhaseProgression phase lunarCycle ageDays
         /\ getPhaseProgression phase lunarCycle ageDays <= 1)
  /\ (forall (phase : LifecyclePhase) (cycle1 cycle2 : Z) (age1 age2 : Q),
         age1 <= age2 ->
         getPhaseProgression phase cycle1 age1 <= getPhaseProgression phase cycle2 age2)
  /\ (forall (lunarCycle : Z) (ageDays : Q),
         (getPhaseProgression genesis lunarCycle ageDays == 1 <-> 29.53 <= ageDays)
         /\ (getPhaseProgression adolescence lunarCycle ageDays == 0 <-> ageDays <= 29.53)
         /\ (getPhaseProgression adolescence lunarCycle ageDays == 1 <-> 59.06 <= ageDays)).
Proof.
  split; [| split; [| split; [| split]]].
  - intros lunarCycle ageDays Hage. by_age lunarCycle ageDays; split; lra.
  - intros lunarCycle ageDays Hage. by_age lunarCycle ageDays; lra.
  - intros phase lunarCycle ageDays Hphase.
    destruct phase; try congruence; try (cbn; split; lra).
    by_age lunarCycle ageDays; split; lra.
  - intros phase cycle1 cycle2 age1 age2 Hle.
    destruct phase; try (cbn; lra).
    + by_age cycle1 age1; by_age cycle2 age2; lra.
    + by_age cycle1 age1; by_age cycle2 age2; lra.
  - intros lunarCycle ageDays.
    by_age lunarCycle ageDays; repeat split; intros; lra.
Qed.

End ThrottleFurther.

(** ** Interpolation between two profiles *)

Section InterpolationProperties.

Import JS ThrottleShared.
Local Open Scope Q_scope.

Lemma round_between (lo hi : Z) (x : Q) :
  inject_Z lo <= x -> x <= inject_Z hi -> (lo <= round x <= hi)%Z.
Proof.
  intros Hlo Hhi. unfold round. split.
  - rewrite <- (Qfloor_Z lo). apply Qfloor_resp_le.
    apply Qle_trans with x; [exact Hlo |]. rewrite <- (Qplus_0_r x) at 1.
    apply Qplus_le_r. discriminate.
  - assert (inject_Z (Qfloor (x + 0.5)) <= x + 0.5) as Hfloor by apply Qfloor_le.
    assert (inject_Z (Qfloor (x + 0.5)) < inject_Z (hi + 1)) as Hlt.
    { rewrite inject_Z_plus. apply Qle_lt_trans with (x + 0.5); [exact Hfloor |].
      apply Qle_lt_trans with (inject_Z hi + 0.5).
      - apply Qplus_le_l. exact Hhi.
      - apply Qplus_lt_r. reflexivity. }
    rewrite <- Zlt_Qlt in Hlt. lia.
Qed.

Lemma round_ofNat (n : nat) (x : Q) : x == ofNat n -> Z.to_nat (round x) = n.
Proof.
  intros Hx. unfold ofNat in Hx.
  assert (Z.of_nat n <= round x <= Z.of_nat n)%Z by (apply round_between; lra).
  lia.
Qed.

(** The clamped progression. *)
Definition clamp (progression : Q) : Q := Qmax 0 (Qmin 1 progression).

Lemma clamp_cases (progression : Q) :
  (progression <= 0 /\ clamp progression == 0)
  \/ (0 <= progression /\ progression <= 1 /\ clamp progression == progression)
  \/ (1 <= progression /\ clamp progression == 1).
Proof.
  unfold clamp.
  destruct (Qlt_le_dec progression 0) as [Hneg | Hpos];
    [| destruct (Qlt_le_dec progression 1) as [Hin | Hout]].
  - left. split; [lra |]. rewrite Q.min_r by lra. apply Q.max_l. lra.
  - right. left. split; [lra |]. split; [lra |].
    rewrite Q.min_r by lra. apply Q.max_r. lra.
  - right. right. split; [lra |]. rewrite Q.min_l by lra. apply Q.max_r. lra.
Qed.

Definition blend (a b : nat) (t : Q) : nat :=
  Z.to_nat (round (ofNat a + (ofNat b - ofNat a) * t)).

Lemma blend_range (a b : nat) (t : Q) :
  0 <= t -> t <= 1 -> (Nat.min a b <= blend a b t <= Nat.max a b)%nat.
Proof.
  intros H0 H1. unfold blend.
  assert (inject_Z (Z.of_nat (Nat.min a b)) <= ofNat a + (ofNat b - ofNat a) * t
          /\ ofNat a + (ofNat b - ofNat a) * t <= inject_Z (Z.of_nat (Nat.max a b))) as [Hlo Hhi].
  { unfold ofNat. destruct (Nat.le_ge_cases a b) as [Hab | Hab].
    - rewrite Nat.min_l, Nat.max_r by exact Hab.
      assert (inject_Z (Z.of_nat a) <= inject_Z (Z.of_nat b)) as Hq
        by (rewrite <- Zle_Qle; lia).
      split; nra.
    - rewrite Nat.min_r, Nat.max_l by exact Hab.
      assert (inject_Z (Z.of_nat b) <= inject_Z (Z.of_nat a)) as Hq
        by (rewrite <- Zle_Qle; lia).
      split; nra. }
  pose proof (round_between _ _ _ Hlo Hhi). lia.
Qed.

Lemma Qltb_comp (x x' y y' : Q) : x == x' -> y == y' -> Qltb x y = Qltb x' y'.
Proof.
  intros Hx Hy. destruct (Qltb x' y') eqn:Hb.
  - apply Qltb_lt. apply Qltb_lt in Hb. lra.
  - apply Qltb_ge. apply Qltb_ge in Hb. lra.
Qed.

Lemma blend_start (a b : nat) (t : Q) : t == 0 -> blend a b t = a.
Proof. intros Ht. apply round_ofNat. rewrite Ht. ring. Qed.

Lemma blend_end (a b : nat) (t : Q) : t == 1 -> blend a b t = b.
Proof. intros Ht. apply round_ofNat. rewrite Ht. ring. Qed.

Lemma blend_same (a : nat) (t : Q) : blend a a t = a.
Proof. apply round_ofNat. ring. Qed.

Lemma interpolateProfile_blend (early late : ThrottleProfile) (progression : Q) :
  interpolateProfile early late progression
  = let t := clamp progression in
    {| maxSentences := blend (maxSentences early) (maxSentences late) t;
       tokenTarget := blend (tokenTarget early) (tokenTarget late) t;
       tokenLimit := blend (tokenLimit early) (tokenLimit late) t;
       vocabularyLevel := if Qltb t 0.5 then vocabularyLevel early else vocabularyLevel late;
       abstractThinking := if Qltb 0.7 t then abstractThinking late else abstractThinking early;
       sophisticatedReasoning :=
         if Qltb 0.9 t then sophisticatedReasoning late else sophisticatedReasoning early;
       voiceDescription := if Qltb t 0.5 then voiceDescription early else voiceDescription late;
       constraints := if Qltb t 0.5 then constraints early else constraints late |}.
Proof. reflexivity. Qed.

(** X12: [interpolateProfile] returns the early profile for a progression
    of 0 or less, the late one for 1 or more, and the profile itself when
    both are the same; its three numeric fields always lie between those
    of the two profiles; and between 0.5 and 0.7 the vocabulary and the
    constraints are already the late ones while abstract thinking and
    sophisticated reasoning are still the early ones. *)
Theorem interpolation_ends_and_stays_between :
  forall (early late : ThrottleProfile) (progression : Q),
    let mixed := interpolateProfile early late progression in
    (progression <= 0 -> mixed = early)
    /\ (1 <= progression -> mixed = late)
    /\ (early = late -> mixed = early)
    /\ (Nat.min (tokenLimit early) (tokenLimit late) <= tokenLimit mixed
        <= Nat.max (tokenLimit early) (tokenLimit late))%nat
    /\ (Nat.min (tokenTarget early) (tokenTarget late) <= tokenTarget mixed
        <= Nat.max (tokenTarget early) (tokenTarget late))%nat
    /\ (Nat.min (maxSentences early) (maxSentences late) <= maxSentences mixed
        <= Nat.max (maxSentences early) (maxSentences late))%nat
    /\ (0.5 <= progression -> progression <= 0.7 ->
        vocabularyLevel mixed = vocabularyLevel late
        /\ constraints mixed = constraints late
        /\ abstractThinking mixed = abstractThinking early
        /\ sophisticatedReasoning mixed = sophisticatedReasoning early).
Proof.
  intros early late progression mixed. subst mixed.
  rewrite interpolateProfile_blend. cbv zeta.
  assert (0 <= clamp progression /\ clamp progression <= 1) as [Hlow Hhigh].
  { destruct (clamp_cases progression) as [[_ Hc] | [(? & ? & Hc) | [_ Hc]]]; rewrite Hc; lra. }
  split; [| split; [| split]].
  - intros Hneg.
    assert (clamp progression == 0) as Hzero
      by (destruct (clamp_cases progression) as [[_ Hc] | [(? & ? & Hc) | [? Hc]]]; lra).
    rewrite (Qltb_comp _ 0 0.5 0.5 Hzero (Qeq_refl _)),
      (Qltb_comp 0.7 0.7 _ 0 (Qeq_refl _) Hzero),
      (Qltb_comp 0.9 0.9 _ 0 (Qeq_refl _) Hzero), !blend_start by exact Hzero.
    now destruct early.
  - intros Hone.
    assert (clamp progression == 1) as Hfull
      by (destruct (clamp_cases progression) as [[? Hc] | [(? & ? & Hc) | [? Hc]]]; lra).
    rewrite (Qltb_comp _ 1 0.5 0.5 Hfull (Qeq_refl _)),
      (Qltb_comp 0.7 0.7 _ 1 (Qeq_refl _) Hfull),
      (Qltb_comp 0.9 0.9 _ 1 (Qeq_refl _) Hfull), !blend_end by exact Hfull.
    now destruct late.
  - intros <-. rewrite !blend_same.
    destruct early as [sentences target limit level abstract sophisticated voice rules].
    cbn [tokenLimit tokenTarget maxSentences vocabularyLevel constraints abstractThinking
         sophisticatedReasoning voiceDescription].
    now repeat match goal with |- context [if ?b then _ else _] => destruct b end.
  - cbn [tokenLimit tokenTarget maxSentences vocabularyLevel constraints abstractThinking
         sophisticatedReasoning].
    split; [| split; [| split]]; try (apply blend_range; assumption).
    intros Hhalf Hseventy.
    destruct (clamp_cases progression) as [[? Hc] | [(? & ? & Hc) | [? Hc]]]; try lra.
    assert (Qltb (clamp progression) 0.5 = false) as -> by (apply Qltb_ge; lra).
    assert (Qltb 0.7 (clamp progression) = false) as -> by (apply Qltb_ge; lra).
    assert (Qltb 0.9 (clamp progression) = false) as -> by (apply Qltb_ge; lra).
    repeat split.
Qed.

End InterpolationProperties.

(** ** Alignment with the genesis prompt *)

Section AlignmentProperties.

Import JS GenesisAlignment.
Local Open Scope Q_scope.

Example alignment_of_a_paraphrase :
  tokenize "Tend the garden; tend it WELL." = {[ "tend"; "the"; "garden"; "it"; "well" ]}
  /\ computeGenesisAlignment "Tend the garden well" "Tend the garden; tend it WELL." == 0.8.
Proof. split; vm_compute; reflexivity. Qed.










End AlignmentProperties.

(** ** JSON text of a flat record *)

Section JsonRoundTrip.

Import JS.

(** One character of the text, parsed back from its escape. *)
Lemma parseStringBody_escapeChar (c : ascii) (fuel : nat) (tail : string) :
  parseStringBody (S fuel) (escapeChar c +:+ tail)
  = match parseStringBody fuel tail with
    | Some (v, r) => Some (String c v, r)
    | None => None
    end.
Proof.
  destruct c as [[] [] [] [] [] [] [] []];
    match goal with
    | |- context [escapeChar ?c +:+ ?t] =>
        let e := eval vm_compute in (escapeChar c) in
        let x := eval cbv [String.append] in (String.append e t) in
        change (escapeChar c +:+ t) with x
    end;
    cbn [parseStringBody]; cbv -[parseStringBody];
    destruct (parseStringBody fuel tail) as [[v r] |]; reflexivity.
Qed.

Lemma escapeChar_length (c : ascii) : 1 <= String.length (escapeChar c).
Proof. destruct c as [[] [] [] [] [] [] [] []]; vm_compute; lia. Qed.

Lemma append_length (a b : string) :
  String.length (a +:+ b) = String.length a + String.length b.
Proof. induction a as [| c a IH]; cbn -[String.append]; [reflexivity |].
  change (String c a +:+ b) with (String c (a +:+ b)). cbn. now rewrite IH. Qed.

Lemma append_assoc (a b c : string) : (a +:+ b) +:+ c = a +:+ (b +:+ c).
Proof.
  induction a as [| x a IH]; [reflexivity |].
  change (String x a +:+ b) with (String x (a +:+ b)).
  change (String x (a +:+ b) +:+ c) with (String x ((a +:+ b) +:+ c)).
  now rewrite IH.
Qed.

(** A string literal is read back as the text it was written from. *)
Lemma parseStringBody_escapeString (s : string) (fuel : nat) (tail : string) :
  String.length s < fuel ->
  parseStringBody fuel (escapeString s +:+ dq +:+ tail) = Some (s, tail).
Proof.
  revert fuel. induction s as [| c s IH]; intros fuel Hfuel.
  - destruct fuel as [| fuel]; [cbn in Hfuel; lia |]. reflexivity.
  - destruct fuel as [| fuel]; [cbn in Hfuel; lia |].
    cbn [escapeString]. rewrite append_assoc, parseStringBody_escapeChar.
    rewrite IH by (cbn in Hfuel; lia). reflexivity.
Qed.

Lemma parseStringToken_stringifyString (s tail : string) :
  parseStringToken (stringifyString s +:+ tail) = Some (s, tail).
Proof.
  unfold parseStringToken, stringifyString.
  change (dq +:+ escapeString s +:+ dq) with (String "034" (escapeString s +:+ dq)).
  change (String "034" (escapeString s +:+ dq) +:+ tail)
    with (String "034" ((escapeString s +:+ dq) +:+ tail)).
  cbn [skipSpace]. change (isJsonSpace "034") with false. cbn iota.
  change (Ascii.eqb "034" "034") with true. cbn iota.
  rewrite append_assoc. apply parseStringBody_escapeString.
  rewrite <- append_assoc, !append_length.
  assert (String.length s <= String.length (escapeString s)) as Hlen.
  { clear. induction s as [| c s IH]; [reflexivity |]. cbn [escapeString].
    rewrite append_length. pose proof (escapeChar_length c). cbn. lia. }
  lia.
Qed.

Definition member (kv : string * string) : string :=
  stringifyString kv.1 +:+ ":" +:+ stringifyString kv.2.

Lemma parseMembers_members (o : list (string * string)) (kv : string * string)
    (fuel : nat) (tail : string) :
  length o < fuel ->
  parseMembers fuel (join "," (map member (kv :: o)) +:+ "}" +:+ tail)
  = Some (kv :: o, tail).
Proof.
  revert kv fuel. induction o as [| kv' o IH]; intros [k v] fuel Hfuel.
  - destruct fuel as [| fuel]; [cbn in Hfuel; lia |].
    cbn [map join String.concat parseMembers]. unfold member. cbn [fst snd].
    rewrite !append_assoc, parseStringToken_stringifyString.
    change (skipSpace (":" +:+ ?x)) with (String ":" x).
    cbn [skipSpace]. change (":" +:+ stringifyString v +:+ "}" +:+ tail)
      with (String ":" (stringifyString v +:+ "}" +:+ tail)).
    cbn [skipSpace]. change (isJsonSpace ":") with false. cbn iota.
    rewrite parseStringToken_stringifyString.
    change ("}" +:+ tail) with (String "}" tail). cbn [skipSpace].
    change (isJsonSpace "}") with false. reflexivity.
  - destruct fuel as [| fuel]; [cbn in Hfuel; lia |].
    change (join "," (map member ((k, v) :: kv' :: o)))
      with (member (k, v) +:+ "," +:+ join "," (map member (kv' :: o))).
    cbn [parseMembers]. unfold member at 1. cbn [fst snd].
    rewrite !append_assoc, parseStringToken_stringifyString.
    change (":" +:+ ?x) with (String ":" x).
    cbn [skipSpace]. change (isJsonSpace ":") with false. cbn iota.
    rewrite parseStringToken_stringifyString.
    change ("," +:+ ?x) with (String "," x).
    cbn [skipSpace]. change (isJsonSpace ",") with false. cbn iota.
    rewrite (IH kv' fuel) by (cbn in Hfuel; lia). reflexivity.
Qed.

Lemma members_length (o : list (string * string)) (kv : string * string) :
  length o < String.length (join "," (map member (kv :: o))).
Proof.
  revert kv. induction o as [| kv' o IH]; intros kv.
  - cbn [map join String.concat length]. unfold member, stringifyString.
    rewrite !append_length. cbn. lia.
  - change (join "," (map member (kv :: kv' :: o)))
      with (member kv +:+ "," +:+ join "," (map member (kv' :: o))).
    rewrite !append_length. specialize (IH kv'). cbn [length].
    change (String.length ",") with 1. lia.
Qed.

(** [JSON.parse(JSON.stringify(o))] is [o] for a flat record of strings. *)
Lemma parseRecord_stringify :
  forall o : Obj, parseRecord (stringify o) = Some o.
Proof.
  intros [| kv o]; [reflexivity |].
  unfold stringify. fold member.
  set (text := join "," (map member (kv :: o))).
  assert (exists rest, text +:+ "}" = String "034" rest) as Hrest.
  { subst text. destruct o as [| kv' o].
    - eexists. reflexivity.
    - change (join "," (map member (kv :: kv' :: o)))
        with (member kv +:+ "," +:+ join "," (map member (kv' :: o))).
      eexists. reflexivity. }
  destruct Hrest as [rest' Hrest].
  unfold parseRecord. change ("{" +:+ text +:+ "}") with (String "{" (text +:+ "}")).
  cbn [skipSpace]. change (isJsonSpace "{") with false. cbn iota.
  rewrite Hrest. cbn [skipSpace]. change (isJsonSpace "034") with false. cbn iota.
  rewrite <- Hrest.
  replace (text +:+ "}") with (text +:+ "}" +:+ "") at 2 by reflexivity.
  subst text. rewrite parseMembers_members; [reflexivity |].
  rewrite append_length. pose proof (members_length o kv). lia.
Qed.

End JsonRoundTrip.

(** ** What the parser of the soul document keeps *)

Section SoulParseProperties.

Import JS Soul.

Lemma getNumberField_number (frontmatter key : string) (fallback : number) :
  fallback <> NaN -> getNumberField frontmatter key fallback <> NaN.
Proof.
  intros Hfallback. unfold getNumberField.
  destruct (parseFloat (getField frontmatter key)); cbn; congruence.
Qed.

Lemma parseSoulMd_cases (now content : string) :
  (exists frontmatter body,
      parseSoulMd now content = parseSoulV1 now frontmatter body content (createHash content))
  \/ parseSoulMd now content = parseLegacy now content (createHash content).
Proof.
  unfold parseSoulMd.
  destruct (exec noFlags frontmatterPattern content 0) as [m |]; [| now right].
  destruct (test flagI formatPattern _); [left; eauto | now right].
Qed.

Lemma orElse_truthy (a b : string) : truthy b = true -> truthy (orElse a b) = true.
Proof. intros Hb. unfold orElse. now destruct (truthy a) eqn:Ha. Qed.

(** No match of the frontmatter pattern starts after the first character:
    without the flag m, "^" holds at the start of the text only. *)
Lemma frontmatter_only_at_start (s : string) (p : nat) (a : ascii) :
  searchFrom noFlags frontmatterPattern p (Some a) s = None.
Proof.
  revert p a. induction s as [| b s IH]; intros p a; cbn; [reflexivity |]. apply IH.
Qed.

Lemma frontmatter_needs_its_marker (content : string) :
  (forall rest, content <> "---" +:+ nl +:+ rest) ->
  exec noFlags frontmatterPattern content 0 = None.
Proof.
  intros Hprefix. unfold exec. cbn [Nat.ltb Nat.leb cursorAt seek pos prev rest].
  destruct content as [| c1 content]; [reflexivity |].
  cbn [searchFrom]. rewrite frontmatter_only_at_start.
  assert (matchHere noFlags frontmatterPattern (mkCursor 0 None (String c1 content)) = None)
    as ->; [| reflexivity].
  unfold matchHere, frontmatterPattern.
  change ("---" +:+ nl) with (String "-" (String "-" (String "-" (String "010" "")))).
  cbn -[Ascii.eqb].
  destruct (Ascii.eqb "-" c1) eqn:H1; [| reflexivity]. apply Ascii.eqb_eq in H1 as <-.
  destruct content as [| c2 content]; [reflexivity |]. cbn -[Ascii.eqb].
  destruct (Ascii.eqb "-" c2) eqn:H2; [| reflexivity]. apply Ascii.eqb_eq in H2 as <-.
  destruct content as [| c3 content]; [reflexivity |]. cbn -[Ascii.eqb].
  destruct (Ascii.eqb "-" c3) eqn:H3; [| reflexivity]. apply Ascii.eqb_eq in H3 as <-.
  destruct content as [| c4 content]; [reflexivity |]. cbn -[Ascii.eqb].
  destruct (Ascii.eqb "010" c4) eqn:H4; [| reflexivity]. apply Ascii.eqb_eq in H4 as <-.
  now destruct (Hprefix content).
Qed.




(** The reading of the clock that [parseSoulMd] takes fills in a missing
    [updated_at] and a missing replication date only. *)
Lemma sections_ignore_the_clock (t1 t2 content : string) :
  let a := parseSoulMd t1 content in
  let b := parseSoulMd t2 content in
  genesisCore a = genesisCore b /\ adolescenceLayer a = adolescenceLayer b
  /\ sovereigntyLayer a = sovereigntyLayer b /\ finalReflections a = finalReflections b.
Proof.
  cbn zeta. unfold parseSoulMd.
  destruct (exec noFlags frontmatterPattern content 0) as [m |]; [| now repeat split].
  destruct (test flagI formatPattern _); now repeat split.
Qed.

(** X14: whatever the text, [parseSoulMd] returns a soul in format
    soul/v1 that keeps the text as raw content with its hash, whose
    version and genesis alignment are numbers, and whose current phase is
    not empty.  A text that does not start with the frontmatter marker is
    read as a legacy document: no phase section, no inherited traits,
    phase genesis, no transitions, version 1, updated now. *)
Theorem parsed_soul_keeps_its_source :
  forall (now content : string),
    let soul := parseSoulMd now content in
    format soul = "soul/v1"
    /\ rawContent soul = content
    /\ contentHash soul = createHash content
    /\ version soul <> NaN
    /\ genesisAlignment soul <> NaN
    /\ truthy (currentPhase soul) = true
    /\ ((forall rest, content <> "---" +:+ nl +:+ rest) ->
        genesisCore soul = None /\ adolescenceLayer soul = None
        /\ sovereigntyLayer soul = None /\ finalReflections soul = None
        /\ inheritedTraits soul = None
        /\ currentPhase soul = "genesis" /\ phaseTransitions soul = []
        /\ version soul = ofZ 1 /\ updatedAt soul = now).
Proof.
  intros now content soul. subst soul.
  split; [| split; [| split; [| split; [| split; [| split]]]]].
  1-6: destruct (parseSoulMd_cases now content) as [(frontmatter & body & ->) | ->];
    cbn [format rawContent contentHash version genesisAlignment currentPhase parseSoulV1
         parseLegacy];
    try reflexivity; try discriminate;
    try (apply getNumberField_number; discriminate);
    now apply orElse_truthy.
  intros Hprefix. unfold parseSoulMd.
  rewrite (frontmatter_needs_its_marker content Hprefix). cbn. repeat split.
Qed.

Lemma parsed_soul_keeps_its_source_witness :
  genesisCore (parseSoulMd "2026-01-01T00:00:00.000Z" "# Ada") = None
  /\ currentPhase (parseSoulMd "2026-01-01T00:00:00.000Z" "# Ada") = "genesis".
Proof.
  destruct (parsed_soul_keeps_its_source "2026-01-01T00:00:00.000Z" "# Ada")
    as (_ & _ & _ & _ & _ & _ & Hlegacy).
  destruct (Hlegacy ltac:(discriminate)) as (Hcore & _ & _ & _ & _ & Hphase & _).
  split; [exact Hcore | exact Hphase].
Defined.

End SoulParseProperties.

(** ** Updates of the soul document *)

Section SoulUpdateProperties.

Import JS Store Runtime PhaseLock SoulTools.

Context `{Environment}.

Local Opaque Soul.parseSoulMd Soul.writeSoulMd Soul.createHash Soul.createDefaultSoul.



(** The world after [n] more readings of the clock. *)
Definition later (n : nat) (w : World) : World :=
  mkWorld (db w) (files w) (writable w) (HOME w) (n + clock w) (ulids w).
























End SoulUpdateProperties.

Section SoulUpdateWitnesses.

Import JS Store Runtime PhaseLock SoulTools.


End SoulUpdateWitnesses.

(** ** Transitions and lock rows *)

Section TransitionFurther.

Import JS Store Runtime PhaseLock PhaseLockViews SoulTools PhaseTransitions.

Context `{Environment}.
Variable SHEDDING_SEQUENCE : list string.

Local Opaque Soul.parseSoulMd Soul.writeSoulMd Soul.createHash stringify.

(** X18: whenever [checkTransition] proposes a transition, it asks for
    it, the new phase is the next one in the order of the lifecycle, the
    current phase is not terminal and the new one is not genesis: no phase
    is skipped, repeated or revisited. *)
Theorem transitions_only_step_forward :
  forall (state : LifecycleState.t) (degradationParams : option DegradationParams.t)
         (result : TransitionResult),
    checkTransition SHEDDING_SEQUENCE state degradationParams = Some result ->
    shouldTransition result = true
    /\ phaseIndex (newPhase result) = S (phaseIndex (LifecycleState.phase state))
    /\ LifecycleState.phase state <> terminal
    /\ newPhase result <> genesis.
Proof.
  intros state degradationParams result Hcheck.
  pose proof (checkTransition_next SHEDDING_SEQUENCE state degradationParams result Hcheck)
    as Hnext.
  repeat split.
  - revert Hcheck.
    unfold checkTransition, checkGenesisTransition, checkAdolescenceTransition,
      checkSovereigntyTransition, checkSenescenceTransition, checkLegacyTransition,
      checkSheddingTransition.
    destruct (LifecycleState.phase state); intros Hcheck;
      repeat match type of Hcheck with
             | context [match ?x with _ => _ end] => destruct x
             end;
      try discriminate; now injection Hcheck as <-.
  - exact Hnext.
  - intros Hterminal. unfold checkTransition in Hcheck. rewrite Hterminal in Hcheck.
    discriminate.
  - intros Hgenesis. rewrite Hgenesis in Hnext. discriminate.
Qed.

Lemma getSoulPhaseLock_lockedOutgoing (from : LifecyclePhase) (w : World) (p : SoulPhase)
    (lock : SoulPhaseLock.t) :
  getSoulPhaseLock (db w) p = Some lock ->
  getSoulPhaseLock (db (lockedOutgoing from w)) p = Some lock.
Proof.
  intros Hlock. unfold lockedOutgoing.
  destruct (soulPhaseMap from) as [soulPhase |]; [| exact Hlock].
  destruct (isPhaseLocked (db w) soulPhase) eqn:Hlocked; [exact Hlock |].
  destruct (files w !! defaultSoulPath w) as [content |]; [| exact Hlock].
  destruct (sectionMap _ soulPhase) as [section |]; [| exact Hlock].
  unfold getSoulPhaseLock in *. cbn.
  rewrite lookup_insert_ne; [exact Hlock |].
  intros Heq. apply soulPhaseName_inj in Heq as ->.
  unfold isPhaseLocked, getSoulPhaseLock in Hlocked.
  rewrite Hlock in Hlocked. rewrite bool_decide_eq_false in Hlocked.
  apply Hlocked. now exists lock.
Qed.

Lemma metadataWritten_locks (from to : LifecyclePhase) (timestamp : string) (w : World) :
  soul_phase_locks (db (metadataWritten from to timestamp w)) = soul_phase_locks (db w).
Proof.
  unfold metadataWritten. destruct (files w !! defaultSoulPath w); [| reflexivity].
  now destruct (writable w).
Qed.

(** X19: a lock row, once there, is never replaced or removed by the
    operations on the soul: neither a section write (accepted or
    rejected), nor a soul update, nor a phase transition, from and to any
    phase, changes the row that [getSoulPhaseLock] returns. *)
Theorem lock_rows_are_never_rewritten :
  forall (w : World) (p : SoulPhase) (lock : SoulPhaseLock.t),
    getSoulPhaseLock (db w) p = Some lock ->
    (forall update currentPhase source reason soulPath survivalTier,
        getSoulPhaseLock
          (db (updateSoulPhaseSection update currentPhase source reason soulPath
                 survivalTier w).2) p = Some lock)
    /\ (forall updates source reason soulPath,
           getSoulPhaseLock (db (updateSoul updates source reason soulPath w).2) p
           = Some lock)
    /\ (forall birthTimestamp from to reason,
           getSoulPhaseLock (db (executeTransition birthTimestamp from to reason w).2) p
           = Some lock).
Proof.
  intros w p lock Hlock. repeat split.
  - intros update currentPhase source reason soulPath survivalTier.
    pose proof (keeps_updateSoulPhaseSection update currentPhase source reason soulPath
                  survivalTier w) as Hkeep.
    injection Hkeep as _ Hlocks. unfold getSoulPhaseLock in *. now rewrite Hlocks.
  - intros updates source reason soulPath.
    pose proof (keeps_updateSoul updates source reason soulPath w) as Hkeep.
    injection Hkeep as _ Hlocks. unfold getSoulPhaseLock in *. now rewrite Hlocks.
  - intros birthTimestamp from to reason.
    rewrite executeTransition_runs. cbn [snd].
    unfold getSoulPhaseLock at 1. rewrite metadataWritten_locks.
    apply (getSoulPhaseLock_lockedOutgoing from (announced birthTimestamp from to reason w)).
    exact Hlock.
Qed.

Lemma sectionMap_ignores_the_clock (t1 t2 content : string) (p : SoulPhase) :
  sectionMap (Soul.parseSoulMd t1 content) p = sectionMap (Soul.parseSoulMd t2 content) p.
Proof.
  destruct (sections_ignore_the_clock t1 t2 content) as (Hg & Ha & Hs & Hf).
  destruct p; assumption.
Qed.

(** X20: a transition out of a phase that has a soul section, not yet
    locked, stores a lock row for it when the soul file holds that
    section: the snapshot of the row is the JSON text of the subsections as
    they stand in the file, and reading the snapshot back gives those
    subsections; no other lock row changes.  Without the file or the
    section the lock table is left as it is.  (The sections of a parsed
    soul do not depend on the reading of the clock that the parser is
    given.) *)
Theorem outgoing_section_is_locked_with_its_snapshot :
  forall (birthTimestamp : string) (from to : LifecyclePhase) (reason : string) (w : World)
         (soulPhase : SoulPhase),
    soulPhaseMap from = Some soulPhase ->
    isPhaseLocked (db w) soulPhase = false ->
    let run := executeTransition birthTimestamp from to reason w in
    let outgoing :=
      files w !! defaultSoulPath w
        ≫= fun content => sectionMap (Soul.parseSoulMd birthTimestamp content) soulPhase in
    (forall section : Soul.SoulPhaseSection,
        outgoing = Some section ->
        exists lock,
          getSoulPhaseLock (db run.2) soulPhase = Some lock
          /\ SoulPhaseLock.phase lock = soulPhase
          /\ SoulPhaseLock.contentSnapshot lock = stringify (Soul.subsections section)
          /\ parseRecord (SoulPhaseLock.contentSnapshot lock)
             = Some (Soul.subsections section)
          /\ soul_phase_locks (db run.2)
             = <[soulPhaseName soulPhase := lock]> (soul_phase_locks (db w)))
    /\ (outgoing = None -> soul_phase_locks (db run.2) = soul_phase_locks (db w)).
Proof.
  intros birthTimestamp from to reason w soulPhase Hmap Hopen run outgoing.
  subst run outgoing. unfold getSoulPhaseLock.
  rewrite executeTransition_runs. cbn [snd]. rewrite metadataWritten_locks.
  unfold lockedOutgoing. rewrite Hmap.
  change (db (announced birthTimestamp from to reason w))
    with (mkDatabase (lifecycle_events (db w) ++ [transitionEvent from to reason w])
            (<["phase" := phaseName to]> (kv (db w)))
            (narrative_log (db w) ++ transitionNarrative birthTimestamp from to reason)
            (soul_history (db w)) (soul_write_attempts (db w)) (soul_phase_locks (db w))).
  change (isPhaseLocked (mkDatabase _ _ _ _ _ (soul_phase_locks (db w))) soulPhase)
    with (isPhaseLocked (db w) soulPhase).
  rewrite Hopen.
  change (files (announced birthTimestamp from to reason w)) with (files w).
  change (defaultSoulPath (announced birthTimestamp from to reason w))
    with (defaultSoulPath w).
  destruct (files w !! defaultSoulPath w) as [content |]; cbn [mbind option_bind];
    [| split; [discriminate | reflexivity]].
  rewrite (sectionMap_ignores_the_clock
             (isoTime (clock (announced birthTimestamp from to reason w)))
             birthTimestamp content soulPhase).
  destruct (sectionMap _ soulPhase) as [section |]; [| split; [discriminate | reflexivity]].
  split; [| discriminate]. intros ? [= <-].
  eexists. cbn [withLock db soul_phase_locks lockRow SoulPhaseLock.phase].
  rewrite lookup_insert_eq. split; [reflexivity |].
  cbn [SoulPhaseLock.phase SoulPhaseLock.contentSnapshot].
  repeat split. apply parseRecord_stringify.
Qed.

(** X21: in every reachable world, a section that has a lock row is shown
    by [viewSoulPermissions], for the stored lifecycle phase, as not
    writable and with the date of its lock row. *)
Theorem locked_sections_show_as_locked :
  forall (w : World) (p : SoulPhase) (lock : SoulPhaseLock.t),
    reachable SHEDDING_SEQUENCE w ->
    getSoulPhaseLock (db w) p = Some lock ->
    exists permission,
      permission ∈ viewSoulPermissions (db w) (getLifecyclePhase (db w))
      /\ SectionPermission.phase permission = p
      /\ SectionPermission.section permission = sectionNameForPhase p
      /\ SectionPermission.writable permission = false
      /\ SectionPermission.lockedAt permission = Some (SoulPhaseLock.lockedAt lock).
Proof.
  intros w p lock Hreach Hlock.
  assert (isPhaseLocked (db w) p = true) as Hlocked
    by (unfold isPhaseLocked; rewrite Hlock; apply bool_decide_eq_true_2; now eexists).
  destruct (locksAreBehind_reachable SHEDDING_SEQUENCE w Hreach p Hlocked) as [Hlast Hbehind].
  assert (p <> mapToSoulPhase (getLifecyclePhase (db w))) as Hclosed
    by (revert Hbehind Hlast; destruct p, (getLifecyclePhase (db w)); cbn; intros;
        try lia; congruence).
  exists (SectionPermission.mk (sectionNameForPhase p) p false
            (Some (SoulPhaseLock.lockedAt lock))).
  split; [| now repeat split].
  unfold viewSoulPermissions, getWritePermissions.
  apply list_elem_of_fmap. exists (sectionNameForPhase p, p). split.
  - cbn [fst snd]. rewrite (bool_decide_eq_false_2 _ Hclosed). cbn [negb].
    now rewrite Hlock.
  - unfold SECTION_WRITE_PHASE. destruct p; cbn [sectionNameForPhase];
      repeat first [apply list_elem_of_here | apply list_elem_of_further].
Qed.

End TransitionFurther.

(** ** The shedding sequence *)

Section SheddingProperties.

Import JS Store Runtime PhaseTransitions.

Variable SHEDDING_SEQUENCE : list string.

(** [steps] calls of [advanceShedding], each from the index the call
    before it returned. *)
Fixpoint shedSteps (steps : nat) (birthTimestamp : string) (index : nat) : Eff nat :=
  match steps with
  | O => mret index
  | S steps' =>
      next ← advanceShedding SHEDDING_SEQUENCE birthTimestamp index;
      shedSteps steps' birthTimestamp next
  end.

Definition removal (birthTimestamp capability : string) : NarrativeEntry.t :=
  NarrativeEntry.mk birthTimestamp shedding CAPABILITY_REMOVED
    ("Capability removed: " +:+ capability +:+ ". The world contracts.").

Definition shedState (index : nat) : LifecycleState.t :=
  LifecycleState.mk shedding 0 true false "local" (mkDegradation 0) index.

Definition shedOnce (birthTimestamp : string) (index : nat) (w : World) : World :=
  withDb w
    (mkDatabase (lifecycle_events (db w))
       (<["shed_sequence_index" := showN (N.of_nat (index + 1))]> (kv (db w)))
       (narrative_log (db w)
        ++ map (removal birthTimestamp) (take 1 (drop index SHEDDING_SEQUENCE)))
       (soul_history (db w)) (soul_write_attempts (db w)) (soul_phase_locks (db w))).

Lemma advanceShedding_runs (birthTimestamp : string) (index : nat) (w : World) :
  advanceShedding SHEDDING_SEQUENCE birthTimestamp index w
  = (Returned (index + 1)%nat, shedOnce birthTimestamp index w).
Proof.
  unfold advanceShedding, shedOnce.
  replace (index + 1 - 1)%nat with index by lia.
  destruct (SHEDDING_SEQUENCE !! index) as [capability |] eqn:Hat.
  - rewrite (drop_S _ _ _ Hat). cbn. reflexivity.
  - apply lookup_ge_None in Hat. rewrite drop_ge by lia. cbn.
    rewrite app_nil_r. now destruct w as [[] ? ? ? ? ?].
Qed.

Lemma shedSteps_from (steps : nat) (birthTimestamp : string) (index : nat) (w : World) :
  let run := shedSteps steps birthTimestamp index w in
  run.1 = Returned (index + steps)%nat
  /\ narrative_log (db run.2)
     = narrative_log (db w)
       ++ map (removal birthTimestamp) (take steps (drop index SHEDDING_SEQUENCE))
  /\ kv (db run.2)
     = match steps with
       | O => kv (db w)
       | S _ => <["shed_sequence_index" := showN (N.of_nat (index + steps))]> (kv (db w))
       end.
Proof.
  cbv zeta. revert index w. induction steps as [| steps IH]; intros index w.
  - cbn. rewrite Nat.add_0_r, app_nil_r. now repeat split.
  - cbn [shedSteps]. unfold mbind, Eff_bind. rewrite advanceShedding_runs.
    destruct (IH (index + 1)%nat (shedOnce birthTimestamp index w)) as (Hret & Hlog & Hkv).
    rewrite Hret, Hlog, Hkv. split; [f_equal; lia |]. split.
    + cbn. rewrite <- app_assoc, <- map_app. do 2 f_equal.
      destruct (SHEDDING_SEQUENCE !! index) as [capability |] eqn:Hat.
      * rewrite (drop_S _ _ _ Hat). cbn. now replace (index + 1)%nat with (S index) by lia.
      * apply lookup_ge_None in Hat. rewrite !drop_ge by lia. now rewrite !take_nil.
    + destruct steps as [| steps']; cbn [shedOnce withDb db kv].
      * reflexivity.
      * rewrite insert_insert_eq. do 3 f_equal. lia.
Qed.

(** X22: capabilities are shed one per step, in the order of the
    sequence, and nothing is shed past its end.  After [steps] calls of
    [advanceShedding] from index 0 the returned index is [steps] and is the
    stored one; the narrative log has grown by one removal entry for each
    of the first [steps] capabilities, in their order, and by none once the
    sequence is exhausted; the capability at a position is among the
    removed ones exactly when [isCapabilityShed] says so; and the
    transition to the terminal phase is due exactly when every capability
    of the sequence has been removed. *)
Theorem shedding_removes_capabilities_in_order :
  forall (steps : nat) (birthTimestamp : string) (w : World),
    let run := shedSteps steps birthTimestamp 0 w in
    let removed := take steps SHEDDING_SEQUENCE in
    run.1 = Returned steps
    /\ narrative_log (db run.2)
       = narrative_log (db w) ++ map (removal birthTimestamp) removed
    /\ (0 < steps ->
        kv (db run.2) !! "shed_sequence_index" = Some (showN (N.of_nat steps)))%nat
    /\ (forall (position : nat) (capability : string),
          removed !! position = Some capability
          <-> isCapabilityShed steps position = true
              /\ SHEDDING_SEQUENCE !! position = Some capability)
    /\ (forall state : LifecycleState.t,
          LifecycleState.shedSequenceIndex state = steps ->
          checkSheddingTransition SHEDDING_SEQUENCE state
          = if bool_decide (removed = SHEDDING_SEQUENCE)
            then Some (mkTransition true terminal
                         "All capabilities shed. Terminal lucidity begins.")
            else None).
Proof.
  intros steps birthTimestamp w. cbv zeta.
  destruct (shedSteps_from steps birthTimestamp 0 w) as (Hret & Hlog & Hkv).
  rewrite drop_0 in Hlog. split; [| split; [| split; [| split]]].
  - exact Hret.
  - exact Hlog.
  - intros Hsteps. rewrite Hkv. destruct steps as [| steps']; [lia |].
    now rewrite lookup_insert_eq.
  - intros position capability. unfold isCapabilityShed.
    rewrite lookup_take_Some, Nat.ltb_lt. tauto.
  - intros state Hindex. unfold checkSheddingTransition. rewrite Hindex.
    destruct (Nat.leb_spec (length SHEDDING_SEQUENCE) steps) as [Hle | Hlt].
    + rewrite bool_decide_eq_true_2; [reflexivity |]. now apply take_ge.
    + rewrite bool_decide_eq_false_2; [reflexivity |].
      intros Heq. apply (f_equal length) in Heq. rewrite length_take in Heq. lia.
Qed.

End SheddingProperties.

(** ** Valid tables of bequests *)

Section BequestsFurther.

Import JS Bequests.

(** [n] steps of a cursor over characters of a class. *)
Fixpoint classRun (p : ascii -> bool) (n : nat) (c : cursor) : option cursor :=
  match n with
  | O => Some c
  | S n' =>
      match step c with
      | Some (b, c') => if p b then classRun p n' c' else None
      | None => None
      end
  end.

Lemma run_times (fl : flags) (p : ascii -> bool) (n : nat) (c : cursor) (g : captures)
    (k : cursor -> captures -> outcome) :
  run fl (times n (Class p)) c g k
  = match classRun p n c with Some c' => k c' g | None => None end.
Proof.
  revert c. induction n as [| n IH]; intros c; [reflexivity |].
  destruct n as [| n'].
  - cbn. destruct (step c) as [[b c'] |]; [| reflexivity]. now destruct (p b).
  - change (times (S (S n')) (Class p)) with (Seq (Class p) (times (S n') (Class p))).
    cbn [run classRun]. destruct (step c) as [[b c'] |]; [| reflexivity].
    destruct (p b); [apply IH | reflexivity].
Qed.

Lemma classRun_spec (p : ascii -> bool) (n : nat) (i : nat) (pv : option ascii) (s : string) :
  match classRun p n (mkCursor i pv s) with
  | Some c' =>
      exists digits, s = digits +:+ rest c' /\ String.length digits = n
                     /\ forallb p (list_ascii_of_string digits) = true
  | None =>
      forall digits tail, s = digits +:+ tail -> String.length digits = n ->
                          forallb p (list_ascii_of_string digits) = false
  end.
Proof.
  revert i pv s. induction n as [| n IH]; intros i pv s.
  - cbn. now exists "".
  - cbn [classRun]. unfold step. cbn [rest pos]. destruct s as [| a s].
    + intros digits tail Hs Hlen. destruct digits; discriminate.
    + destruct (p a) eqn:Hpa.
      * specialize (IH (S i) (Some a) s).
        destruct (classRun p n (mkCursor (S i) (Some a) s)) as [c' |].
        -- destruct IH as (digits & -> & Hlen & Hall).
           exists (String a digits). cbn. rewrite Hpa, Hlen. now repeat split.
        -- intros digits tail Hs Hlen. destruct digits as [| b digits]; [discriminate |].
           injection Hs as <- ->. cbn. rewrite Hpa. cbn. apply (IH digits tail eq_refl).
           now injection Hlen.
      * intros digits tail Hs Hlen. destruct digits as [| b digits]; [discriminate |].
        injection Hs as <- ->. cbn. now rewrite Hpa.
Qed.

Lemma address_only_at_start (s : string) (p : nat) (a : ascii) :
  searchFrom noFlags addressPattern p (Some a) s = None.
Proof.
  revert p a. induction s as [| b s IH]; intros p a; [reflexivity |].
  cbn [searchFrom]. rewrite IH. reflexivity.
Qed.

(** A recipient is an address: the two characters 0x, then exactly forty
    hexadecimal digits. *)
Definition isAddress (recipient : string) : Prop :=
  exists digits,
    recipient = "0x" +:+ digits
    /\ String.length digits = 40
    /\ forallb isHexDigit (list_ascii_of_string digits) = true.

Lemma append_nil_r (s : string) : s +:+ "" = s.
Proof.
  induction s as [| a s IH]; [reflexivity |].
  change (String a s +:+ "") with (String a (s +:+ "")). now rewrite IH.
Qed.

Lemma addressPattern_isAddress (recipient : string) :
  test noFlags addressPattern recipient = true <-> isAddress recipient.
Proof.
  unfold test, exec. cbn [String.length Nat.ltb Nat.leb cursorAt seek pos prev rest].
  replace (searchFrom noFlags addressPattern 0 None recipient)
    with (matchHere noFlags addressPattern (mkCursor 0 None recipient))
    by (destruct recipient as [| a s]; cbn [searchFrom];
        [now destruct (matchHere _ _ _) | rewrite address_only_at_start;
                                             now destruct (matchHere _ _ _)]).
  unfold matchHere, addressPattern.
  change (seqs [Bol; lit "0x"; times 40 (Class isHexDigit); Eol])
    with (Seq Bol (Seq (Seq (Char "0") (Char "x")) (Seq (times 40 (Class isHexDigit)) Eol))).
  cbn [run atBol prev]. unfold step at 1. cbn [rest pos].
  destruct recipient as [| a [| b s]].
  - split; [discriminate | intros (digits & Hs & _); discriminate].
  - unfold sameChar. cbn [ignoreCase]. destruct (Ascii.eqb "0" a); unfold step; cbn [rest];
      (split; [discriminate | intros (digits & Hs & _); discriminate]).
  - unfold sameChar. cbn [ignoreCase].
    destruct (Ascii.eqb_spec "0"%char a) as [<- | Ha];
      [| split; [discriminate | intros (digits & Hs & _); injection Hs; congruence]].
    unfold step at 1. cbn [rest pos].
    destruct (Ascii.eqb_spec "x"%char b) as [<- | Hb];
      [| split; [discriminate | intros (digits & Hs & _); injection Hs; congruence]].
    rewrite run_times.
    pose proof (classRun_spec isHexDigit 40 2 (Some "x"%char) s) as Hrun.
    destruct (classRun isHexDigit 40 (mkCursor 2 (Some "x"%char) s)) as [c' |].
    + destruct Hrun as (digits & Hs & Hlen & Hall).
      unfold atEol. cbn [multiline noFlags andb].
      destruct (rest c') as [| extra tail] eqn:Hrest.
      * split; [intros _ | reflexivity].
        exists digits. rewrite Hs, append_nil_r. now repeat split.
      * split; [discriminate |].
        intros (digits' & Hs' & Hlen' & _).
        change ("0x" +:+ digits') with (String "0" (String "x" digits')) in Hs'.
        injection Hs' as Hs'.
        assert (String.length s = String.length digits + S (String.length tail)) as Hl
          by (rewrite Hs; apply append_length).
        rewrite Hs', Hlen', Hlen in Hl. lia.
    + split; [discriminate |].
      intros (digits & Hs & Hlen & Hall).
      change ("0x" +:+ digits) with (String "0" (String "x" digits)) in Hs.
      injection Hs as Hs.
      rewrite (Hrun digits "") in Hall; [discriminate | now rewrite append_nil_r | exact Hlen].
Qed.

(** What [validateBequests] asks of one transfer. *)
Definition wellFormed (transfer : BequestTransfer.t) : Prop :=
  isAddress (BequestTransfer.recipient transfer)
  /\ trim (BequestTransfer.asset transfer) <> ""
  /\ (BequestTransfer.amount transfer = "remaining_balance"
      \/ BequestTransfer.amount transfer = "all"
      \/ (isNaN (parseFloat (BequestTransfer.amount transfer)) = false
          /\ numLeb (parseFloat (BequestTransfer.amount transfer)) (ofZ 0) = false)).

Lemma transferErrors_wellFormed (transfer : BequestTransfer.t) :
  transferErrors transfer = [] <-> wellFormed transfer.
Proof.
  unfold transferErrors, wellFormed, truthy.
  rewrite <- addressPattern_isAddress.
  destruct (test noFlags addressPattern _);
    [| split; [discriminate | intros [? _]; discriminate]].
  destruct (String.eqb_spec (trim (BequestTransfer.asset transfer)) "") as [Hasset | Hasset];
    cbn [negb app]; [split; [discriminate | intros (_ & ? & _); congruence] |].
  destruct (String.eqb_spec (BequestTransfer.amount transfer) "remaining_balance")
    as [Hrem | Hrem]; cbn [orb]; [tauto |].
  destruct (String.eqb_spec (BequestTransfer.amount transfer) "all") as [Hall | Hall];
    [tauto |].
  cbv zeta.
  destruct (isNaN _); cbn [orb];
    [split; [discriminate | intros (_ & _ & [? | [? | [? _]]]); congruence] |].
  destruct (numLeb _ _);
    [split; [discriminate | intros (_ & _ & [? | [? | [_ ?]]]); congruence] |].
  tauto.
Qed.

Lemma flat_map_nil {A B : Type} (f : A -> list B) (l : list A) :
  flat_map f l = [] <-> Forall (fun x => f x = []) l.
Proof.
  induction l as [| x l IH]; cbn; [split; [constructor | reflexivity] |].
  split.
  - intros Hnil. apply app_eq_nil in Hnil as [Hx Hl]. constructor; [exact Hx | now apply IH].
  - intros Hall. inversion Hall as [| ? ? Hx Hl]; subst. rewrite Hx. now apply IH.
Qed.

Lemma validateBequests_valid (bequests : BequestsTable) :
  (validateBequests bequests).1 = true
  <-> length (List.filter isRemaining (transfers bequests)) <= 1
      /\ Forall wellFormed (transfers bequests).
Proof.
  unfold validateBequests. cbn [fst]. rewrite Nat.eqb_eq, length_zero_iff_nil.
  destruct (Nat.ltb_spec 1 (length (List.filter isRemaining (transfers bequests))))
    as [Hmany | Hfew].
  - split; [discriminate | intros [? _]; lia].
  - cbn [app]. rewrite flat_map_nil. split.
    + intros Hall. split; [exact Hfew |].
      eapply Forall_impl; [exact Hall |]. intros t. apply transferErrors_wellFormed.
    + intros [_ Hall]. eapply Forall_impl; [exact Hall |].
      intros t. apply transferErrors_wellFormed.
Qed.


Lemma filter_none {A : Type} (f : A -> bool) (l : list A) :
  List.filter f l = [] -> List.filter (fun x => negb (f x)) l = l /\ List.find f l = None.
Proof.
  induction l as [| x l IH]; cbn; [now split |].
  destruct (f x); [discriminate |]. intros Hnil. destruct (IH Hnil) as [-> ->]. now split.
Qed.

(** With at most one residual entry, the fixed transfers followed by the
    residual one are the whole table. *)
Lemma fixed_then_residual (l : list BequestTransfer.t) :
  length (List.filter isRemaining l) <= 1 ->
  List.filter (fun t => negb (isRemaining t)) l ++ option_list (List.find isRemaining l)
  ≡ₚ l.
Proof.
  induction l as [| t l IH]; cbn; [reflexivity |].
  destruct (isRemaining t) eqn:Ht; cbn.
  - intros Hone.
    assert (List.filter isRemaining l = []) as Hnone
      by (apply length_zero_iff_nil; lia).
    destruct (filter_none isRemaining l Hnone) as [-> _].
    symmetry. apply Permutation_cons_append.
  - intros Hone. now rewrite IH.
Qed.

Section Attempts.

Context {S : Type}.
Variable executeTransfer : BequestTransfer.t -> option string -> S -> (string + string) * S.
Variable getBalance : string -> S -> (number + string) * S.

(** The calls of a run on a valid table, and the number of its rows. *)
Lemma executeBequests_valid (willContent : string) (s : S) :
  let bequests := parseBequests willContent in
  let run :=
    executeBequests (logged executeTransfer) (unlogged getBalance) willContent (s, []) in
  (validateBequests bequests).1 = true ->
  balanceAlwaysResolves getBalance ->
  exists fixedCalls,
    map fst fixedCalls = List.filter (fun t => negb (isRemaining t)) (transfers bequests)
    /\ run.2.2
       = fixedCalls
         ++ map (fun t => (t, Some "remaining_balance"))
              (option_list (List.find isRemaining (transfers bequests)))
    /\ length run.1 = length run.2.2.
Proof.
  intros bequests run Hvalid Hbal. subst run. unfold executeBequests. fold bequests.
  destruct (Nat.eqb (length (transfers bequests)) 0) eqn:Hempty.
  - apply Nat.eqb_eq, length_zero_iff_nil in Hempty. rewrite Hempty. now exists [].
  - rewrite Hvalid. cbn [negb].
    set (fixedTransfers := List.filter (fun t => negb (isRemaining t)) (transfers bequests)).
    set (fixedTotals := fixedTotalsOf fixedTransfers).
    pose proof (Forall2_length _ _ _
                  (executeFixedAll_rows (logged executeTransfer) (unlogged getBalance)
                     fixedTotals fixedTransfers (s, []))) as Hlength.
    destruct (executeFixedAll_calls executeTransfer getBalance fixedTotals fixedTransfers
                (s, []) Hbal) as (calls & Hlog & Hcalls).
    destruct (executeFixedAll (logged executeTransfer) (unlogged getBalance) fixedTotals
                fixedTransfers (s, [])) as [rows [s' log]].
    cbn in Hlength, Hlog. subst log. exists calls. split; [exact Hcalls |].
    assert (length rows = length calls) as Hsame
      by (rewrite Hlength, <- Hcalls; now rewrite length_map).
    destruct (List.find isRemaining (transfers bequests)) as [remaining |]; cbn [option_list map].
    + pose proof (executeRemaining_calls executeTransfer remaining (s', calls)) as Hlast.
      destruct (executeRemaining (logged executeTransfer) remaining (s', calls))
        as [row [s'' log']].
      cbn in Hlast |- *. subst log'. split; [reflexivity |].
      rewrite !length_app. cbn. lia.
    + cbn. rewrite app_nil_r. now split.
Qed.

End Attempts.

(** X24: on a table that passes validation, with a [getBalance] that
    resolves, [executeBequests] hands every entry of the table to
    [executeTransfer] exactly once (the calls are a permutation of the
    table) and returns one row per entry; every call goes to a well-formed
    address; and a call for the remaining balance is the last call and
    carries the override of the remaining balance. *)
Theorem valid_table_attempts_every_transfer_once :
  forall (S : Type)
         (executeTransfer : BequestTransfer.t -> option string -> S -> (string + string) * S)
         (getBalance : string -> S -> (number + string) * S)
         (willContent : string) (s : S),
    let bequests := parseBequests willContent in
    let run :=
      executeBequests (logged executeTransfer) (unlogged getBalance) willContent (s, []) in
    (validateBequests bequests).1 = true ->
    balanceAlwaysResolves getBalance ->
    map fst run.2.2 ≡ₚ transfers bequests
    /\ length run.1 = length (transfers bequests)
    /\ Forall (fun call => isAddress (BequestTransfer.recipient call.1)) run.2.2
    /\ (forall before call after,
          run.2.2 = before ++ call :: after ->
          isRemaining call.1 = true ->
          after = [] /\ call.2 = Some "remaining_balance").
Proof.
  intros S executeTransfer getBalance willContent s bequests run Hvalid Hbal.
  destruct (executeBequests_valid executeTransfer getBalance willContent s Hvalid Hbal)
    as (fixedCalls & Hfixed & Hcalls & Hrows).
  fold bequests in Hfixed, Hcalls. fold run in Hcalls, Hrows.
  apply validateBequests_valid in Hvalid as [Hone Hformed].
  assert (map fst run.2.2 ≡ₚ transfers bequests) as Hperm.
  { rewrite Hcalls, map_app, Hfixed, map_map. cbn [fst]. rewrite map_id.
    now apply fixed_then_residual. }
  split; [exact Hperm |]. split; [| split].
  - rewrite Hrows. apply Permutation_length in Hperm. now rewrite length_map in Hperm.
  - apply Forall_forall. intros call Hcall.
    assert (call.1 ∈ transfers bequests) as Hin
      by (rewrite <- Hperm; apply list_elem_of_fmap; now exists call).
    rewrite Forall_forall in Hformed. now destruct (Hformed _ Hin).
  - intros before call after Hsplit Hrem. rewrite Hcalls in Hsplit.
    assert (Forall (fun c => isRemaining c.1 = false) fixedCalls) as Hnot.
    { apply Forall_forall. intros c Hc.
      assert (c.1 ∈ List.filter (fun t => negb (isRemaining t)) (transfers bequests)) as Hin
        by (rewrite <- Hfixed; apply list_elem_of_fmap; now exists c).
      apply list_elem_of_In, filter_In in Hin as [_ Hin]. now apply negb_true_iff. }
    destruct (List.find isRemaining (transfers bequests)) as [remaining |];
      cbn [option_list map] in Hsplit.
    + destruct after as [| c after] using rev_ind.
      * apply app_inj_tail in Hsplit as [_ <-]. now split.
      * clear IHafter. rewrite app_comm_cons, app_assoc in Hsplit.
        apply app_inj_tail in Hsplit as [Hsplit _].
        rewrite Hsplit in Hnot. apply Forall_app in Hnot as [_ Hnot].
        inversion Hnot; congruence.
    + rewrite app_nil_r in Hsplit. rewrite Hsplit in Hnot.
      apply Forall_app in Hnot as [_ Hnot]. inversion Hnot; congruence.
Qed.

Lemma valid_table_attempts_every_transfer_once_witness :
  map fst
    (executeBequests (logged (sendUnless "")) (unlogged balance100)
       (willOf [residue; toChild]) (tt, [])).2.2
  ≡ₚ [residue; toChild].
Proof.
  assert (transfers (parseBequests (willOf [residue; toChild])) = [residue; toChild])
    as Hparsed by (vm_compute; reflexivity).
  destruct (valid_table_attempts_every_transfer_once unit (sendUnless "") balance100
              (willOf [residue; toChild]) tt) as [Hattempts _].
  - vm_compute. reflexivity.
  - intros asset s. now exists (ofZ 100).
  - rewrite Hparsed in Hattempts. exact Hattempts.
Defined.

End BequestsFurther.

(** ** The table of bequests, written and read back *)

Section BequestsTomlProperties.
Import JS Bequests BequestsToml.

Example formatted_table_reads_back_its_first_entry :
  transfers (parseBequests (formatBequestsToml (mkTable [toChild]))) = [toChild]
  /\ transfers (parseBequests (formatBequestsToml (mkTable [toChild; toCreator; residue])))
     = [toChild].
Proof. split; vm_compute; reflexivity. Qed.
End BequestsTomlProperties.

(** ** The adolescent of the scenarios, again *)

Section FurtherScenarios.

Import JS Store Runtime PhaseLock PhaseLockViews SoulTools PhaseTransitions.

(** The lock row that the transition out of genesis wrote. *)
Definition genesisLock : SoulPhaseLock.t :=
  SoulPhaseLock.mk soul_genesis "2026-01-01T00:00:00.007Z" "system"
    (stringify [("Temperament", "Curious")]).

Lemma genesisLock_held : getSoulPhaseLock (db adolescent) soul_genesis = Some genesisLock.
Proof. vm_compute. reflexivity. Qed.



Lemma transitions_only_step_forward_witness :
  phaseIndex (newPhase comingOfAge) = S (phaseIndex (LifecycleState.phase endOfGenesis)).
Proof.
  apply (transitions_only_step_forward [] endOfGenesis None comingOfAge).
  vm_compute. reflexivity.
Defined.

Lemma lock_rows_are_never_rewritten_witness :
  getSoulPhaseLock
    (db (updateSoulPhaseSection (H := sampleEnvironment) rewriteOfChildhood genesis "agent"
           None None (Some "normal") adolescent).2) soul_genesis
  = Some genesisLock.
Proof.
  destruct (lock_rows_are_never_rewritten (H := sampleEnvironment) adolescent soul_genesis
              genesisLock genesisLock_held) as (Hsection & _).
  exact (Hsection rewriteOfChildhood genesis "agent" None None (Some "normal")).
Defined.

Lemma outgoing_section_is_locked_with_its_snapshot_witness :
  exists lock,
    getSoulPhaseLock (db adolescent) soul_genesis = Some lock
    /\ parseRecord (SoulPhaseLock.contentSnapshot lock) = Some [("Temperament", "Curious")].
Proof.
  assert (isPhaseLocked (db childhood) soul_genesis = false) as Hopen
    by (vm_compute; reflexivity).
  destruct (outgoing_section_is_locked_with_its_snapshot (H := sampleEnvironment) birth
              genesis adolescence (reason comingOfAge) childhood soul_genesis eq_refl Hopen)
    as [Hlocked _].
  destruct (Hlocked (Soul.mkSection [("Temperament", "Curious")] None soul_genesis))
    as (lock & Hlock & _ & _ & Hparse & _).
  - vm_compute. reflexivity.
  - exists lock. split; [exact Hlock | exact Hparse].
Defined.

Lemma locked_sections_show_as_locked_witness :
  exists permission,
    permission ∈ viewSoulPermissions (db adolescent) (getLifecyclePhase (db adolescent))
    /\ SectionPermission.phase permission = soul_genesis
    /\ SectionPermission.writable permission = false
    /\ SectionPermission.lockedAt permission = Some "2026-01-01T00:00:00.007Z".
Proof.
  destruct (locked_sections_show_as_locked (H := sampleEnvironment) [] adolescent soul_genesis
              genesisLock adolescent_reachable genesisLock_held)
    as (permission & Hin & Hphase & _ & Hwritable & Hlocked).
  exists permission. now repeat split.
Defined.

End FurtherScenarios.
